(** * QR-Attendence: token codec, session ledger and redemption pipeline

    A shallow embedding of [src/routes/attendance.js] -- the attendance
    route handlers and, in the same listing, the secure QR generator and
    validator ([utils/qrGenerator]) -- together with the schemas
    [src/models/Attendance.js], [src/models/AttendanceSession.js] and
    [src/models/Subject.js], and the request guards of
    [src/middleware/auth.js] and [src/middleware/validate.js].

    - JavaScript values, exceptions and the hex codec of [Buffer].
    - [Platform]: the primitives of Node, Mongoose and the process
      environment that the code calls, with the laws the proofs rely on.
    - [generateQRPayload] and [validateQRPayload], step by step.
    - The stored collections, the awaited storage operations ([Op]) and
      what each does to the store ([exec_op]); handlers are written in a
      free monad over these operations ([Proc]), so that a handler can be
      run alone ([run]) or interleaved with the rest of the system
      ([runs], [interleave]).
    - The four handlers: [start], [stop], [qr_current], [scan].
    - The guards [authenticate], [authorize] and
      [validateAttendanceStart], and the handler [get_session].
    - A reference platform and a worked example, for evaluation.
    - The theorems, C1 to C10, and further properties of the same code,
      X1 to X22. *)

From Stdlib Require Import ZArith Lia Ascii String.
From Stdlib.Strings Require Import Byte.
From Stdlib Require DecimalString DecimalZ DecimalNat.
From stdpp Require Import base option list strings gmap.

Set Default Proof Using "Type".
Set Warnings "-register-all".
Open Scope Z_scope.

(* ===================================================================== *)
(** ** JavaScript values and exceptions *)
(* ===================================================================== *)

(** The result of [JSON.parse]. Numbers are restricted to the integers:
    every number this program writes into a token is a [Math.floor]
    result or the constant 1. *)
Inductive JSON : Type :=
| JNull
| JBool (b : bool)
| JNum (z : Z)
| JStr (s : string)
| JArr (items : list JSON)
| JObj (fields : list (string * JSON)).

(** What a property read evaluates to: [undefined], a built-in function
    object inherited from a prototype, or a JSON value. *)
Inductive JSval : Type :=
| Undefined
| Native
| Val (j : JSON).

(** A JavaScript number as far as this program computes with it. *)
Inductive Num : Type :=
| NaN
| Fin (z : Z).

Inductive ErrCode : Type :=
| NoCode
| NumCode (z : Z)
| StrCode (s : string).

(** A thrown [Error] object: [error.name], [error.code], [error.message]. *)
Record Error : Type := mkError {
  err_name : string;
  err_code : ErrCode;
  err_message : string
}.

(** Outcome of an expression that may throw. *)
Inductive Exc (A : Type) : Type :=
| Return (a : A)
| Throw (e : Error).
Arguments Return {A} a.
Arguments Throw {A} e.

#[global] Instance exc_ret : MRet Exc := fun A a => Return a.

#[global] Instance exc_bind : MBind Exc := fun A B f m =>
  match m with
  | Return a => f a
  | Throw e => Throw e
  end.

(** [try { body } catch (e) { handler }] *)
Definition try_catch {A} (body : Exc A) (handler : Error -> Exc A) : Exc A :=
  match body with
  | Return a => Return a
  | Throw e => handler e
  end.

(** [!v] is [negb (truthy v)]. *)
Definition truthy (v : JSval) : bool :=
  match v with
  | Undefined => false
  | Native => true
  | Val JNull => false
  | Val (JBool b) => b
  | Val (JNum z) => negb (z =? 0)
  | Val (JStr s) => negb (String.eqb s "")
  | Val (JArr _) => true
  | Val (JObj _) => true
  end.

Fixpoint assoc (key : string) (fields : list (string * JSON)) : option JSON :=
  match fields with
  | [] => None
  | (k, v) :: rest => if String.eqb k key then Some v else assoc key rest
  end.

Definition TypeError_null (key : string) : Error :=
  mkError "TypeError" NoCode
    ("Cannot read properties of null (reading '" +:+ key +:+ "')").

(** [o.key] for a parsed JSON value [o] and one of the property names the
    validator reads (p, s, v, sid, tid, sub, ts, n). Reading a property of
    [null] throws; a primitive answers from its prototype, and of those
    names only [sub] is defined there ([String.prototype.sub]). *)
Definition get (o : JSON) (key : string) : Exc JSval :=
  match o with
  | JNull => Throw (TypeError_null key)
  | JObj fields =>
      Return (match assoc key fields with Some j => Val j | None => Undefined end)
  | JStr _ => Return (if String.eqb key "sub" then Native else Undefined)
  | JBool _ | JNum _ | JArr _ => Return Undefined
  end.

Definition num_sub (a b : Num) : Num :=
  match a, b with
  | Fin x, Fin y => Fin (x - y)
  | _, _ => NaN
  end.

(** [a < b] and [a > b]: false as soon as one side is NaN. *)
Definition num_ltb (a b : Num) : bool :=
  match a, b with
  | Fin x, Fin y => x <? y
  | _, _ => false
  end.

Definition num_gtb (a b : Num) : bool := num_ltb b a.

(* ===================================================================== *)
(** ** Hexadecimal text, as [Buffer] writes and reads it *)
(* ===================================================================== *)

Definition nibble_char (n : N) : ascii :=
  if (n <? 10)%N then ascii_of_N (48 + n) else ascii_of_N (87 + n).

Definition hex_value (c : ascii) : option N :=
  let n := N_of_ascii c in
  if ((48 <=? n) && (n <=? 57))%N then Some (n - 48)%N
  else if ((97 <=? n) && (n <=? 102))%N then Some (n - 87)%N
  else if ((65 <=? n) && (n <=? 70))%N then Some (n - 55)%N
  else None.

Definition hex_of_byte (b : byte) : string :=
  let n := Byte.to_N b in
  String (nibble_char (n / 16)) (String (nibble_char (n mod 16)) EmptyString).

Definition byte_of_hex (hi lo : ascii) : option byte :=
  match hex_value hi, hex_value lo with
  | Some h, Some l => Byte.of_N (16 * h + l)
  | _, _ => None
  end.

(** [buf.toString("hex")] and [hmac.digest("hex")]: two lower-case digits
    per byte. *)
Fixpoint hex_encode (bs : list byte) : string :=
  match bs with
  | [] => EmptyString
  | b :: rest => hex_of_byte b +:+ hex_encode rest
  end.

(** [Buffer.from(s, "hex")]: decodes pairs of digits and stops at the
    first pair that is not hexadecimal; an odd trailing character is
    dropped. It never throws. *)
Fixpoint hex_decode (s : string) : list byte :=
  match s with
  | String hi (String lo rest) =>
      match byte_of_hex hi lo with
      | Some b => b :: hex_decode rest
      | None => []
      end
  | _ => []
  end.

(* ===================================================================== *)
(** ** The platform: Node's crypto, zlib, Buffer and JSON; the process
       environment *)
(* ===================================================================== *)

(** The serialised token content [{v, sid, tid, sub, ts, n}], in the key
    order in which [generateQRPayload] builds it. *)
Definition payload_object (v : Z) (sid tid sub : string) (ts : Z) (n : string) : JSON :=
  JObj [("v", JNum v); ("sid", JStr sid); ("tid", JStr tid);
        ("sub", JStr sub); ("ts", JNum ts); ("n", JStr n)].

(** The signed envelope [{p, s}]. *)
Definition envelope_object (p s : string) : JSON :=
  JObj [("p", JStr p); ("s", JStr s)].

Class Platform : Type := {
  (** [process.env.QR_SECRET] *)
  env_QR_SECRET : option string;
  (** [parseInt(process.env.QR_TOKEN_VALIDITY)]; [None] is NaN *)
  env_QR_TOKEN_VALIDITY : option Z;

  (** [crypto.createHmac("sha256", key).update(msg).digest()] *)
  hmac_sha256 : string -> string -> list byte;
  hmac_sha256_length : forall key msg, length (hmac_sha256 key msg) = 32%nat;

  (** [zlib.deflateSync] and [zlib.inflateSync]; the latter throws on
      input that is not a zlib stream *)
  deflateSync : list byte -> list byte;
  inflateSync : list byte -> Exc (list byte);
  inflate_deflate : forall bs, inflateSync (deflateSync bs) = Return bs;

  (** [buf.toString("base64")] and [Buffer.from(s, "base64")]; decoding
      is lenient and never throws *)
  base64_encode : list byte -> string;
  base64_decode : string -> list byte;
  base64_decode_encode : forall bs, base64_decode (base64_encode bs) = bs;

  (** [JSON.stringify] and [JSON.parse]; the latter throws a SyntaxError.
      The round trip is assumed for the two object shapes the generator
      serialises; the text of a value is never empty. *)
  JSON_stringify : JSON -> string;
  JSON_parse : string -> Exc JSON;
  JSON_parse_payload : forall v sid tid sub ts n,
    JSON_parse (JSON_stringify (payload_object v sid tid sub ts n))
    = Return (payload_object v sid tid sub ts n);
  JSON_parse_envelope : forall p s,
    JSON_parse (JSON_stringify (envelope_object p s))
    = Return (envelope_object p s);
  JSON_stringify_nonempty : forall j, JSON_stringify j <> "";

  (** [Buffer.from(str)] (UTF-8) and [buf.toString()]. Decoding is lossy
      on ill-formed input; [JSON.stringify] only emits well-formed text. *)
  utf8_encode : string -> list byte;
  utf8_decode : list byte -> string;
  utf8_decode_encode_json : forall j,
    utf8_decode (utf8_encode (JSON_stringify j)) = JSON_stringify j;

  (** [Buffer.from(v, "hex")] for a truthy [v] that is not a string:
      arrays and array-likes are accepted, other values throw *)
  Buffer_from_nonstring : JSval -> Exc (list byte);
  (** the message of the TypeError [hmac.update(v)] throws for a [v]
      that is not a string *)
  invalid_arg_message : JSval -> string;
  (** [ToNumber] on strings, and [Array.prototype.toString] *)
  StringToNumber : string -> Num;
  Array_toString : list JSON -> string;

  (** [String.prototype.toUpperCase], [toLowerCase] and [trim], over the
      whole of Unicode. These are also what the [toUpperCase] and [trim]
      sanitisers of express-validator and the [uppercase] and [trim]
      setters of Mongoose apply to a string. Upper-casing twice is
      upper-casing once; it neither adds nor removes white space at the
      ends of a string, so it commutes with trimming; and it never
      empties a string. *)
  toUpperCase : string -> string;
  toLowerCase : string -> string;
  trim : string -> string;
  toUpperCase_twice : forall s, toUpperCase (toUpperCase s) = toUpperCase s;
  trim_twice : forall s, trim (trim s) = trim s;
  trim_toUpperCase : forall s, trim (toUpperCase s) = toUpperCase (trim s);
  toUpperCase_not_empty : forall s, toUpperCase s = "" -> s = "";

  (** [new Date(ms).toISOString().split("T")[0]] *)
  isoDate : Z -> string;
  (** [QRCode.toDataURL(data, options)]: the promise rejects when the
      data does not fit in a symbol of the requested error-correction
      level *)
  QRCode_toDataURL : string -> Exc string;

  (** text form of an ObjectId, and Mongoose's cast of a query value to
      an ObjectId ([None]: CastError) *)
  ObjectId_toString : nat -> string;
  castObjectId : JSval -> option nat;
  castObjectId_toString : forall i,
    castObjectId (Val (JStr (ObjectId_toString i))) = Some i;
  (** Mongoose's cast of a pushed array element to [String], for values
      that are not strings *)
  castString_nonstring : JSval -> Exc string
}.

(* ===================================================================== *)
(** ** Secure QR code generator and validator (utils/qrGenerator) *)
(* ===================================================================== *)

#[global] Instance byte_eq_dec : EqDecision byte := Byte.byte_eq_dec.

(** The payload handed back by a successful validation. The fields are
    whatever values the parsed token carried. *)
Module Payload.
Record t : Type := mk {
  version : JSval;
  sessionId : JSval;
  teacherId : JSval;
  subjectCode : JSval;
  timestamp : JSval;
  nonce : JSval
}.
End Payload.

(** The [{ valid, payload, error }] object. *)
Record Validation : Type := mkValidation {
  valid : bool;
  payload : option Payload.t;
  error : option string
}.

Definition invalid (msg : string) : Validation :=
  {| valid := false; payload := None; error := Some msg |}.

(** Node's [ERR_INVALID_ARG_TYPE]; the message names the argument and
    describes the value received. *)
Definition ERR_INVALID_ARG_TYPE (message : string) : Error :=
  mkError "TypeError" (StrCode "ERR_INVALID_ARG_TYPE") message.

Definition ERR_CRYPTO_TIMING_SAFE_EQUAL_LENGTH : Error :=
  mkError "RangeError" (StrCode "ERR_CRYPTO_TIMING_SAFE_EQUAL_LENGTH")
    "Input buffers must have the same byte length".

(** [crypto.timingSafeEqual(a, b)]: throws unless both buffers have the
    same byte length. *)
Definition timingSafeEqual (a b : list byte) : Exc bool :=
  if Nat.eqb (length a) (length b)
  then Return (bool_decide (a = b))
  else Throw ERR_CRYPTO_TIMING_SAFE_EQUAL_LENGTH.

Section QRGenerator.
Context `{Platform}.

Definition QR_SECRET : string :=
  match env_QR_SECRET with
  | Some s => if String.eqb s "" then "default_qr_secret_change_me" else s
  | None => "default_qr_secret_change_me"
  end.

Definition QR_TOKEN_VALIDITY : Z :=
  match env_QR_TOKEN_VALIDITY with
  | Some z => if z =? 0 then 3 else z
  | None => 3
  end.

(** [generateQRPayload(sessionId, teacherId, subjectCode)]. The two
    ambient reads are arguments: [random16] is what
    [crypto.randomBytes(16)] returned and [nowMs] is [Date.now()]. *)
Definition generateQRPayload (random16 : list byte) (nowMs : Z)
    (sessionId teacherId subjectCode : string) : string * string :=
  let nonce := hex_encode random16 in
  let payload := payload_object 1 sessionId teacherId subjectCode (nowMs / 1000) nonce in
  let payloadStr := JSON_stringify payload in
  let signature := hex_encode (hmac_sha256 QR_SECRET payloadStr) in
  let signedData := JSON_stringify (envelope_object payloadStr signature) in
  let compressed := deflateSync (utf8_encode signedData) in
  let qrData := base64_encode compressed in
  (qrData, nonce).

(** [hmac.update(data)] accepts a string here (a parsed JSON value is
    never a Buffer) and throws on anything else. *)
Definition hmac_update (data : JSval) : Exc string :=
  match data with
  | Val (JStr s) => Return s
  | _ => Throw (ERR_INVALID_ARG_TYPE (invalid_arg_message data))
  end.

(** [Buffer.from(v, "hex")] *)
Definition Buffer_from_hex (v : JSval) : Exc (list byte) :=
  match v with
  | Val (JStr s) => Return (hex_decode s)
  | _ => Buffer_from_nonstring v
  end.

(** The numeric coercion applied by [now - payload.ts]. An object or an
    array whose conversion to a primitive throws (one that carries a
    [toString] property of its own, which JSON cannot make callable) is
    not told apart from the others; such a [ts] can only reach this point
    in a payload signed with the server secret, which the generator never
    produces, and the exception would end in the outer [catch]. *)
Definition ToNumber (v : JSval) : Num :=
  match v with
  | Undefined => NaN
  | Native => NaN
  | Val JNull => Fin 0
  | Val (JBool b) => Fin (if b then 1 else 0)
  | Val (JNum z) => Fin z
  | Val (JStr s) => StringToNumber s
  | Val (JArr items) => StringToNumber (Array_toString items)
  | Val (JObj _) => NaN
  end.

(** [!o.key] *)
Definition missing (o : JSON) (key : string) : Exc bool :=
  v ← get o key; mret (negb (truthy v)).

(** [a || b] on conditions, the right operand evaluated only when the
    left one is false. *)
Definition orelse (a b : Exc bool) : Exc bool :=
  x ← a; if x : bool then mret true else b.

(** The body of the outer [try] of [validateQRPayload]; [nowMs] is what
    [Date.now()] returns at step 7. Each inner [try]/[catch] is the
    [match] on the outcome of the guarded call. *)
Definition validateQRPayload_try (nowMs : Z) (qrData : string) : Exc Validation :=
  (* Step 1: Base64 decode *)
  let compressed := base64_decode qrData in
  (* Step 2: Decompress *)
  match inflateSync compressed with
  | Throw _ => Return (invalid "Invalid QR data: decompression failed")
  | Return inflated =>
  let decompressed := utf8_decode inflated in
  (* Step 3: Parse signed data structure *)
  match JSON_parse decompressed with
  | Throw _ => Return (invalid "Invalid QR data: malformed structure")
  | Return signedData =>
  absent ← orelse (missing signedData "p") (missing signedData "s");
  if absent : bool then Return (invalid "Invalid QR data: missing fields") else
  (* Step 4: Verify HMAC-SHA256 signature *)
  p ← get signedData "p";
  payloadStr ← hmac_update p;
  let expectedSignature := hex_encode (hmac_sha256 QR_SECRET payloadStr) in
  s ← get signedData "s";
  given ← Buffer_from_hex s;
  same ← timingSafeEqual given (hex_decode expectedSignature);
  if negb same then Return (invalid "Invalid QR data: signature mismatch (tampered)") else
  (* Step 5: Parse inner payload *)
  match JSON_parse payloadStr with
  | Throw _ => Return (invalid "Invalid QR data: malformed payload")
  | Return payload =>
  (* Step 6: Validate required fields *)
  incomplete ← orelse (missing payload "v")
               (orelse (missing payload "sid")
               (orelse (missing payload "tid")
               (orelse (missing payload "sub")
               (orelse (missing payload "ts")
                       (missing payload "n")))));
  if incomplete : bool then Return (invalid "Invalid QR data: incomplete payload") else
  (* Step 7: Validate timestamp freshness *)
  let now := nowMs / 1000 in
  ts ← get payload "ts";
  let age := num_sub (Fin now) (ToNumber ts) in
  if num_ltb age (Fin 0) then Return (invalid "Invalid QR data: future timestamp") else
  if num_gtb age (Fin QR_TOKEN_VALIDITY) then Return (invalid "QR code has expired") else
  (* All checks passed *)
  v ← get payload "v";
  sid ← get payload "sid";
  tid ← get payload "tid";
  sub ← get payload "sub";
  n ← get payload "n";
  Return {| valid := true;
            payload := Some (Payload.mk v sid tid sub ts n);
            error := None |}
  end end end.

(** [validateQRPayload(qrData)]: the outer [catch] turns every exception
    of the body into a result. *)
Definition validateQRPayload (nowMs : Z) (qrData : string) : Validation :=
  match validateQRPayload_try nowMs qrData with
  | Return result => result
  | Throw e => invalid ("QR validation failed: " +:+ err_message e)
  end.

End QRGenerator.

(* ===================================================================== *)
(** ** Array methods *)
(* ===================================================================== *)

(** [arr.slice(-n)]: the last [n] elements. *)
Definition slice_last {A} (n : nat) (arr : list A) : list A :=
  drop (length arr - n) arr.

(* ===================================================================== *)
(** ** Models *)
(* ===================================================================== *)

(** An ObjectId. The two collections this program writes are kept in
    insertion order and a document's [_id] is its position; a reference
    to a user is the user's [_id]. *)
Abbreviation ObjectId := nat (only parsing).

(** The schema option [{ trim: true, uppercase: true }]. *)
Definition set_subjectCode `{Platform} (s : string) : string := toUpperCase (trim s).

Module User.
Record t : Type := mk {
  role : string;
  department : string
}.
End User.

Module Teacher.
Record t : Type := mk {
  subjectCodes : list string
}.
End Teacher.

Module Subject.
Record t : Type := mk {
  department : string;
  teacherId : ObjectId
}.
End Subject.

Module AttendanceSession.
Record t : Type := mk {
  subjectCode : string;
  teacherId : ObjectId;
  date : string;
  startTime : Z;
  endTime : option Z;
  active : bool;
  usedNonces : list string
}.

(** A modification tracked on a loaded document and written by [save()]:
    an assignment to [active], an assignment to [endTime], or a [push]
    on [usedNonces]. *)
Inductive change : Type :=
| SetActive (b : bool)
| SetEndTime (d : Z)
| PushNonce (n : string).

Definition apply (c : change) (s : t) : t :=
  match c with
  | SetActive b =>
      mk (subjectCode s) (teacherId s) (date s) (startTime s) (endTime s) b (usedNonces s)
  | SetEndTime d =>
      mk (subjectCode s) (teacherId s) (date s) (startTime s) (Some d) (active s) (usedNonces s)
  | PushNonce n =>
      mk (subjectCode s) (teacherId s) (date s) (startTime s) (endTime s) (active s)
         (usedNonces s ++ [n])
  end.

Definition apply_all (cs : list change) (s : t) : t :=
  foldl (fun acc c => apply c acc) s cs.
End AttendanceSession.

Module Attendance.
Record t : Type := mk {
  studentId : ObjectId;
  subjectCode : string;
  sessionId : ObjectId;
  date : string;
  timestamp : Z
}.

(** The fields of the compound unique index
    [{ studentId: 1, subjectCode: 1, date: 1 }]. *)
Definition key (a : t) : ObjectId * string * string :=
  (studentId a, subjectCode a, date a).
End Attendance.

(** The stored collections and the wall clock (milliseconds). Users are
    keyed by [_id], teachers by [userId] and subjects by [subjectCode]
    (each has a unique index in its schema). *)
Record World : Type := mkWorld {
  users : gmap ObjectId User.t;
  teachers : gmap ObjectId Teacher.t;
  subjects : gmap string Subject.t;
  sessions : list AttendanceSession.t;
  attendances : list Attendance.t;
  clock : Z
}.

Definition set_sessions (l : list AttendanceSession.t) (w : World) : World :=
  mkWorld (users w) (teachers w) (subjects w) l (attendances w) (clock w).

Definition set_attendances (l : list Attendance.t) (w : World) : World :=
  mkWorld (users w) (teachers w) (subjects w) (sessions w) l (clock w).

(* ===================================================================== *)
(** ** Storage operations and asynchronous handlers *)
(* ===================================================================== *)

(** The awaited operations of the handlers, indexed by what each one
    resolves to, and the two reads of the clock ([Date.now()] and
    [new Date()]). A loaded session is the pair of its [_id] and its
    fields. *)
Inductive Op : Type -> Type :=
| Date_now : Op Z
| Teacher_findOne (userId : ObjectId) : Op (option Teacher.t)
| User_findById (id : ObjectId) : Op (option User.t)
| Subject_findOne (subjectCode : string) : Op (option Subject.t)
| AttendanceSession_findOne (teacherId : ObjectId)
    : Op (option (ObjectId * AttendanceSession.t))
| AttendanceSession_findById (id : JSval)
    : Op (Exc (option (ObjectId * AttendanceSession.t)))
| AttendanceSession_create (doc : AttendanceSession.t)
    : Op (Exc (ObjectId * AttendanceSession.t))
| AttendanceSession_save (id : ObjectId) (changes : list AttendanceSession.change)
    : Op unit
| Attendance_findOne (studentId : ObjectId) (subjectCode date : string)
    : Op (option Attendance.t)
| Attendance_create (doc : Attendance.t) : Op (Exc Attendance.t)
| Attendance_countDocuments (sessionId : ObjectId) : Op nat.

(** A handler in progress: finished with a result, or suspended on an
    operation with the rest of the handler waiting for its outcome. *)
Inductive Proc (R : Type) : Type :=
| Done (r : R)
| Await {A : Type} (op : Op A) (k : A -> Proc R).
Arguments Done {R} r.
Arguments Await {R A} op k.

Fixpoint proc_bind {A B} (p : Proc A) (f : A -> Proc B) : Proc B :=
  match p with
  | Done a => f a
  | Await op k => Await op (fun x => proc_bind (k x) f)
  end.

(** The body of an [async] function: it resolves or rejects. *)
Definition Async (A : Type) : Type := Proc (Exc A).

#[global] Instance async_ret : MRet Async := fun A a => Done (Return a).

#[global] Instance async_bind : MBind Async := fun A B f m =>
  proc_bind m (fun x => match x with
                        | Return a => f a
                        | Throw e => Done (Throw e)
                        end).

(** [await op] for an operation that always resolves, and for one that
    may reject. *)
Definition await {A} (op : Op A) : Async A :=
  Await op (fun a => Done (Return a)).

Definition await_exc {A} (op : Op (Exc A)) : Async A :=
  Await op (fun r => Done r).

(** A synchronous expression that may throw, inside an [async] body. *)
Definition sync {A} (e : Exc A) : Async A := Done e.

Inductive Body : Type :=
| NoBody
| StartedSession (id : ObjectId) (subjectCode date : string) (startTime : Z)
    (active : bool)
| StoppedSession (id : ObjectId) (subjectCode date : string) (startTime : Z)
    (endTime : option Z) (attendanceCount : nat)
| QR (image : string) (sessionId : ObjectId) (subjectCode : string) (generatedAt : Z)
| MarkedAttendance (subjectCode date : string) (timestamp : Z).

(** [res.status(status).json({ success, message, ... })] *)
Record Response : Type := mkResponse {
  status : nat;
  success : bool;
  message : option string;
  body : Body
}.

Definition respond (status : nat) (success : bool) (message : string) : Async Response :=
  mret (mkResponse status success (Some message) NoBody).

Definition failure (status : nat) (message : string) : Response :=
  mkResponse status false (Some message) NoBody.

(** [async (req, res) => { try { body } catch (error) { handler } }] *)
Definition route (body : Async Response) (handler : Error -> Response) : Proc Response :=
  proc_bind body (fun x => match x with
                           | Return r => Done r
                           | Throw e => Done (handler e)
                           end).

Definition E11000 : Error :=
  mkError "MongoServerError" (NumCode 11000) "E11000 duplicate key error collection".

Definition ValidationError : Error :=
  mkError "ValidationError" NoCode "Validation failed".

Definition CastError : Error :=
  mkError "CastError" NoCode "Cast to ObjectId failed".

Definition TypeError_not_a_function : Error :=
  mkError "TypeError" NoCode "subjectCode.toUpperCase is not a function".

Definition TypeError_destructure : Error :=
  mkError "TypeError" NoCode "Cannot destructure property 'sessionId' of 'validation.payload' as it is null.".

(** The operations a handler has performed, each with its outcome. *)
Inductive Event : Type :=
| EvDateNow (now : Z)
| EvTeacherFindOne (userId : ObjectId) (found : option Teacher.t)
| EvUserFindById (id : ObjectId) (found : option User.t)
| EvSubjectFindOne (subjectCode : string) (found : option Subject.t)
| EvSessionFindOne (teacherId : ObjectId)
    (found : option (ObjectId * AttendanceSession.t))
| EvSessionFindById (id : JSval)
    (found : Exc (option (ObjectId * AttendanceSession.t)))
| EvSessionCreate (doc : AttendanceSession.t)
    (created : Exc (ObjectId * AttendanceSession.t))
| EvSessionSave (id : ObjectId) (changes : list AttendanceSession.change)
| EvAttendanceFindOne (studentId : ObjectId) (subjectCode date : string)
    (found : option Attendance.t)
| EvAttendanceCreate (doc : Attendance.t) (created : Exc Attendance.t)
| EvAttendanceCount (sessionId : ObjectId) (count : nat).

(** The events that write to the store. *)
Definition is_write (e : Event) : bool :=
  match e with
  | EvSessionCreate _ (Return _) => true
  | EvSessionSave _ _ => true
  | EvAttendanceCreate _ (Return _) => true
  | _ => false
  end.

Section Storage.
Context `{Platform}.

(** [AttendanceSession.findOne({ teacherId, active: true })]: the first
    match in storage order. *)
Definition find_active (teacherId : ObjectId) (l : list AttendanceSession.t)
    : option (ObjectId * AttendanceSession.t) :=
  list_find (fun s => AttendanceSession.teacherId s = teacherId
                      ∧ AttendanceSession.active s = true) l.

(** Schema setters and [required] validators of [AttendanceSession]. *)
Definition AttendanceSession_cast (doc : AttendanceSession.t) : AttendanceSession.t :=
  AttendanceSession.mk (set_subjectCode (AttendanceSession.subjectCode doc))
    (AttendanceSession.teacherId doc) (AttendanceSession.date doc)
    (AttendanceSession.startTime doc) (AttendanceSession.endTime doc)
    (AttendanceSession.active doc) (AttendanceSession.usedNonces doc).

Definition AttendanceSession_validate (doc : AttendanceSession.t) : bool :=
  negb (String.eqb (AttendanceSession.subjectCode doc) "")
  && negb (String.eqb (AttendanceSession.date doc) "").

(** Schema setters and [required] validators of [Attendance]. *)
Definition Attendance_cast (doc : Attendance.t) : Attendance.t :=
  Attendance.mk (Attendance.studentId doc) (set_subjectCode (Attendance.subjectCode doc))
    (Attendance.sessionId doc) (Attendance.date doc) (Attendance.timestamp doc).

Definition Attendance_validate (doc : Attendance.t) : bool :=
  negb (String.eqb (Attendance.subjectCode doc) "")
  && negb (String.eqb (Attendance.date doc) "").

(** The compound unique index: is the key of [doc] already stored? *)
Definition duplicate_key (doc : Attendance.t) (stored : list Attendance.t) : bool :=
  bool_decide (Exists (fun a => Attendance.key a = Attendance.key doc) stored).

(** What an operation resolves to in a given state of the store, and the
    state it leaves. Query values go through the schema setters, as
    stored values do. [create] is [new Model(doc)] followed by [save()]:
    setters, validators, then the insert, which the unique index may
    reject. [save()] on a loaded session sends the tracked modifications
    only ([$set], [$push]), so they are applied to the stored document,
    not to the copy the handler loaded. No route deletes a session or an
    attendance record. *)
Definition exec_op {A} (op : Op A) (w : World) : A * World :=
  match op in Op A return A * World with
  | Date_now => (clock w, w)
  | Teacher_findOne userId => (teachers w !! userId, w)
  | User_findById id => (users w !! id, w)
  | Subject_findOne code => (subjects w !! set_subjectCode code, w)
  | AttendanceSession_findOne teacherId => (find_active teacherId (sessions w), w)
  | AttendanceSession_findById id =>
      match castObjectId id with
      | None => (Throw CastError, w)
      | Some i => (Return (pair i <$> sessions w !! i), w)
      end
  | AttendanceSession_create doc =>
      let doc := AttendanceSession_cast doc in
      if AttendanceSession_validate doc
      then (Return (length (sessions w), doc), set_sessions (sessions w ++ [doc]) w)
      else (Throw ValidationError, w)
  | AttendanceSession_save id changes =>
      (tt, set_sessions (alter (AttendanceSession.apply_all changes) id (sessions w)) w)
  | Attendance_findOne studentId code date =>
      (snd <$> list_find (fun a => Attendance.key a = (studentId, set_subjectCode code, date))
                 (attendances w), w)
  | Attendance_create doc =>
      let doc := Attendance_cast doc in
      if negb (Attendance_validate doc) then (Throw ValidationError, w)
      else if duplicate_key doc (attendances w) then (Throw E11000, w)
      else (Return doc, set_attendances (attendances w ++ [doc]) w)
  | Attendance_countDocuments sessionId =>
      (length (filter (fun a => Attendance.sessionId a = sessionId) (attendances w)), w)
  end.

(** A handler run to completion with nothing else touching the store. *)
Fixpoint run {R} (p : Proc R) (w : World) : R * World :=
  match p with
  | Done r => (r, w)
  | Await op k => let '(a, w') := exec_op op w in run (k a) w'
  end.

(** One operation of a handler and what it resolved to. *)
Definition event_of {A} (op : Op A) : A -> Event :=
  match op in Op A return A -> Event with
  | Date_now => EvDateNow
  | Teacher_findOne userId => EvTeacherFindOne userId
  | User_findById id => EvUserFindById id
  | Subject_findOne code => EvSubjectFindOne code
  | AttendanceSession_findOne teacherId => EvSessionFindOne teacherId
  | AttendanceSession_findById id => EvSessionFindById id
  | AttendanceSession_create doc => EvSessionCreate doc
  | AttendanceSession_save id changes => fun _ => EvSessionSave id changes
  | Attendance_findOne studentId code date => EvAttendanceFindOne studentId code date
  | Attendance_create doc => EvAttendanceCreate doc
  | Attendance_countDocuments sessionId => EvAttendanceCount sessionId
  end.

(** A handler run while the rest of the system changes the store as
    [rely] allows, any number of times before each of the handler's
    operations and after the last one. [runs rely p w tr w' r]: started in
    [w], the handler performs the operations listed in [tr], in that
    order, and finishes with [r], leaving [w']. *)
Fixpoint runs (rely : World -> World -> Prop) {R} (p : Proc R) (w : World)
    (tr : list Event) (w' : World) (r : R) : Prop :=
  match p with
  | Done r0 => tr = [] /\ r = r0 /\ rtc rely w w'
  | Await op k =>
      exists w0 tr',
        rtc rely w w0
        /\ tr = event_of op (exec_op op w0).1 :: tr'
        /\ runs rely (k (exec_op op w0).1) (exec_op op w0).2 tr' w' r
  end.

(** A step of the rest of the system: some operation of some other
    request, the clock moving forward, or a change to the directory of
    users, teachers and subjects by the routes outside this module. *)
Inductive env_step : World -> World -> Prop :=
| env_op {A} (op : Op A) w :
    env_step w (exec_op op w).2
| env_tick d w :
    0 <= d ->
    env_step w (mkWorld (users w) (teachers w) (subjects w) (sessions w)
                        (attendances w) (clock w + d))
| env_directory us ts ss w :
    env_step w (mkWorld us ts ss (sessions w) (attendances w) (clock w)).

Definition env_steps : World -> World -> Prop := rtc env_step.

End Storage.

(* ===================================================================== *)
(** ** Attendance routes *)
(* ===================================================================== *)

(** [s === v] for a string [s] *)
Definition strict_eq_string (s : string) (v : JSval) : bool :=
  match v with
  | Val (JStr x) => String.eqb s x
  | _ => false
  end.

(** [arr.includes(v)] on an array of strings *)
Definition includes (arr : list string) (v : JSval) : bool :=
  match v with
  | Val (JStr x) => bool_decide (x ∈ arr)
  | _ => false
  end.

(** The receiver of [subjectCode.toUpperCase()]: only a string has that
    method, on any other value the call throws. *)
Definition string_receiver (v : JSval) : Exc string :=
  match v with
  | Val (JStr s) => Return s
  | _ => Throw TypeError_not_a_function
  end.

(** The in-memory trim of the mint handler:
    [if (usedNonces.length > 100) usedNonces = usedNonces.slice(-50)]. *)
Definition trimUsedNonces (usedNonces : list string) : list string :=
  if (100 <? length usedNonces)%nat then slice_last 50 usedNonces else usedNonces.

Section Routes.
Context `{Platform}.

Import AttendanceSession.

(** Mongoose's cast of an element pushed on a [[String]] array. *)
Definition castString (v : JSval) : Exc string :=
  match v with
  | Val (JStr s) => Return s
  | _ => castString_nonstring v
  end.

(** POST /attendance/start, after [authenticate], [authorize("teacher")]
    and [validateAttendanceStart]; [teacherId] is [req.user.id]. *)
Definition start (teacherId : ObjectId) (subjectCode : string) : Proc Response :=
  route
    (teacher ← await (Teacher_findOne teacherId);
     if negb (match teacher with
              | Some t => bool_decide (toUpperCase subjectCode ∈ Teacher.subjectCodes t)
              | None => false
              end)
     then respond 403 false "You are not assigned to teach this subject."
     else
     existingSession ← await (AttendanceSession_findOne teacherId);
     _ ← match existingSession with
         | Some (id, _) =>
             endTime ← await Date_now;
             await (AttendanceSession_save id [SetActive false; SetEndTime endTime])
         | None => mret tt
         end;
     d ← await Date_now;
     let today := isoDate d in
     startTime ← await Date_now;
     created ← await_exc (AttendanceSession_create
                 (mk (toUpperCase subjectCode) teacherId today startTime None true []));
     let '(id, session) := created in
     mret (mkResponse 201 true (Some "Attendance session started.")
             (StartedSession id (AttendanceSession.subjectCode session)
                (date session) (AttendanceSession.startTime session) (active session))))
    (fun _ => failure 500 "Failed to start attendance session.").

(** POST /attendance/stop *)
Definition stop (teacherId : ObjectId) : Proc Response :=
  route
    (found ← await (AttendanceSession_findOne teacherId);
     match found with
     | None => respond 404 false "No active attendance session found."
     | Some (id, session) =>
         endTime ← await Date_now;
         _ ← await (AttendanceSession_save id [SetActive false; SetEndTime endTime]);
         attendanceCount ← await (Attendance_countDocuments id);
         mret (mkResponse 200 true (Some "Attendance session stopped.")
                 (StoppedSession id (AttendanceSession.subjectCode session) (date session)
                    (startTime session) (Some endTime) attendanceCount))
     end)
    (fun _ => failure 500 "Failed to stop attendance session.").

(** GET /attendance/qr/current; [random16] is what [crypto.randomBytes(16)]
    returns inside [generateQRPayload]. The handler never calls
    [session.save()]. *)
Definition qr_current (teacherId : ObjectId) (random16 : list byte) : Proc Response :=
  route
    (found ← await (AttendanceSession_findOne teacherId);
     match found with
     | None => respond 404 false "No active attendance session. Please start a session first."
     | Some (id, session) =>
         now ← await Date_now;
         let '(qrData, nonce) :=
           generateQRPayload random16 now (ObjectId_toString id)
             (ObjectId_toString teacherId) (AttendanceSession.subjectCode session) in
         qrImage ← sync (QRCode_toDataURL qrData);
         let session :=
           mk (AttendanceSession.subjectCode session) (AttendanceSession.teacherId session)
              (date session) (startTime session) (endTime session) (active session)
              (trimUsedNonces (usedNonces session)) in
         generatedAt ← await Date_now;
         mret (mkResponse 200 true None
                 (QR qrImage id (AttendanceSession.subjectCode session) generatedAt))
     end)
    (fun _ => failure 500 "Failed to generate QR code.").

(** The [catch] of the scan handler. *)
Definition scan_catch (error : Error) : Response :=
  match err_code error with
  | NumCode 11000 => failure 400 "Attendance already marked for this subject today."
  | _ => failure 500 "Failed to mark attendance."
  end.

(** POST /attendance/scan, after [authenticate], [authorize("student")]
    and [validateAttendanceScan]; [studentUserId] is [req.user.id]. The
    first clock read is the [Date.now()] of [validateQRPayload]. *)
Definition scan (studentUserId : ObjectId) (qrPayload : string) : Proc Response :=
  route
    (now ← await Date_now;
     (* Step 1-3: Validate QR payload *)
     let validation := validateQRPayload now qrPayload in
     if negb (valid validation)
     then mret (mkResponse 400 false (error validation) NoBody)
     else
     p ← sync (match payload validation with
               | Some p => Return p
               | None => Throw TypeError_destructure
               end);
     (* Step 4: Verify session is active *)
     found ← await_exc (AttendanceSession_findById (Payload.sessionId p));
     match found with
     | None => respond 400 false "Invalid attendance session."
     | Some (id, session) =>
     if negb (active session)
     then respond 400 false "This attendance session has ended."
     else
     if negb (strict_eq_string (ObjectId_toString (AttendanceSession.teacherId session))
                               (Payload.teacherId p))
     then respond 400 false "QR code does not match the session teacher."
     else
     (* Step 5: Check nonce for replay attack prevention *)
     if includes (usedNonces session) (Payload.nonce p)
     then respond 400 false
            "This QR code has already been used. Please scan the latest QR code."
     else
     (* Step 6: Verify student department matches subject *)
     studentUser ← await (User_findById studentUserId);
     match studentUser with
     | None => respond 404 false "Student not found."
     | Some studentUser =>
     subjectCode ← sync (string_receiver (Payload.subjectCode p));
     subject ← await (Subject_findOne (toUpperCase subjectCode));
     match subject with
     | None => respond 400 false "Subject not found."
     | Some subject =>
     if negb (String.eqb (toLowerCase (User.department studentUser))
                         (toLowerCase (Subject.department subject)))
     then respond 403 false "Your department does not match this subject's department."
     else
     (* Step 7: Prevent duplicate attendance *)
     d ← await Date_now;
     let today := isoDate d in
     existingAttendance ← await (Attendance_findOne studentUserId
                                   (toUpperCase subjectCode) today);
     match existingAttendance with
     | Some _ =>
         respond 400 false "You have already marked attendance for this subject today."
     | None =>
     (* Step 8: Record attendance and store nonce *)
     timestamp ← await Date_now;
     attendance ← await_exc (Attendance_create
                    (Attendance.mk studentUserId (toUpperCase subjectCode) id today
                       timestamp));
     (* Mark nonce as used to prevent replay *)
     n ← sync (castString (Payload.nonce p));
     _ ← await (AttendanceSession_save id [PushNonce n]);
     mret (mkResponse 201 true
             (Some ("Attendance marked successfully for " +:+ subjectCode +:+ "."))
             (MarkedAttendance (Attendance.subjectCode attendance)
                (Attendance.date attendance) (Attendance.timestamp attendance)))
     end end end end)
    scan_catch.

End Routes.

(* ===================================================================== *)
(** ** Signed and well-formed tokens *)
(* ===================================================================== *)

Section TokenPredicates.
Context `{Platform}.

(** A token whose envelope decodes, whose signature is the MAC of its
    serialised payload under the server secret, and whose payload text
    parses to [payload]. *)
Inductive signed_token (qrData : string) (payload : JSON) : Prop :=
| SignedToken (inflated : list byte) (signedData : JSON) (payloadStr signatureHex : string) :
    inflateSync (base64_decode qrData) = Return inflated ->
    JSON_parse (utf8_decode inflated) = Return signedData ->
    get signedData "p" = Return (Val (JStr payloadStr)) ->
    payloadStr <> "" ->
    get signedData "s" = Return (Val (JStr signatureHex)) ->
    hex_decode signatureHex = hmac_sha256 QR_SECRET payloadStr ->
    JSON_parse payloadStr = Return payload ->
    signed_token qrData payload.

(** All six required fields of [payload] are present (truthy); [p]
    collects them. *)
Record complete_payload (payload : JSON) (p : Payload.t) : Prop := {
  complete_v : get payload "v" = Return (Payload.version p);
  complete_sid : get payload "sid" = Return (Payload.sessionId p);
  complete_tid : get payload "tid" = Return (Payload.teacherId p);
  complete_sub : get payload "sub" = Return (Payload.subjectCode p);
  complete_ts : get payload "ts" = Return (Payload.timestamp p);
  complete_n : get payload "n" = Return (Payload.nonce p);
  truthy_v : truthy (Payload.version p) = true;
  truthy_sid : truthy (Payload.sessionId p) = true;
  truthy_tid : truthy (Payload.teacherId p) = true;
  truthy_sub : truthy (Payload.subjectCode p) = true;
  truthy_ts : truthy (Payload.timestamp p) = true;
  truthy_n : truthy (Payload.nonce p) = true
}.

Definition accepted (p : Payload.t) : Validation :=
  {| valid := true; payload := Some p; error := None |}.

End TokenPredicates.

(** The two shapes a validation result can have. *)
Definition result_shape (r : Validation) : Prop :=
  (valid r = false /\ payload r = None /\ exists msg, error r = Some msg)
  \/ (valid r = true /\ error r = None /\ exists p, payload r = Some p).

(** Every result an expression returns has one of the two shapes. *)
Definition returns_shaped (e : Exc Validation) : Prop :=
  forall r, e = Return r -> result_shape r.


(* ===================================================================== *)
(** ** Properties of the store and of handler runs *)
(* ===================================================================== *)

(** Every stored session is still stored and its ledger has only grown. *)
Definition ledger_grows (w1 w2 : World) : Prop :=
  forall id s1, sessions w1 !! id = Some s1 ->
    exists s2, sessions w2 !! id = Some s2
      /\ AttendanceSession.usedNonces s1 `prefix_of` AttendanceSession.usedNonces s2.

(** No two stored attendance records share the key of the unique index. *)
Definition unique_attendance (w : World) : Prop :=
  NoDup (Attendance.key <$> attendances w).

(** An active session is the most recently started session of its
    teacher: no session of the same teacher is stored after it. *)
Definition latest_active (l : list AttendanceSession.t) : Prop :=
  forall i j si sj,
    l !! i = Some si -> l !! j = Some sj ->
    AttendanceSession.teacherId si = AttendanceSession.teacherId sj ->
    AttendanceSession.active si = true ->
    (j <= i)%nat.

(** At most one session per teacher is active. *)
Definition single_active (l : list AttendanceSession.t) : Prop :=
  forall i j si sj,
    l !! i = Some si -> l !! j = Some sj ->
    AttendanceSession.teacherId si = AttendanceSession.teacherId sj ->
    AttendanceSession.active si = true -> AttendanceSession.active sj = true ->
    i = j.

(** What [start] does to the session it finds active:
    [active = false; endTime = now]. *)
Definition end_session (now : Z) (s : AttendanceSession.t) : AttendanceSession.t :=
  AttendanceSession.apply_all
    [AttendanceSession.SetActive false; AttendanceSession.SetEndTime now] s.




(** Every operation a handler can perform, whatever the operations
    before it resolved to, gives an event satisfying [Q]. *)
Fixpoint proc_events (Q : Event -> Prop) {R} (p : Proc R) : Prop :=
  match p with
  | Done _ => True
  | Await op k => forall a, Q (event_of op a) /\ proc_events Q (k a)
  end.

(** The requests of the attendance routes. *)
Inductive Request : Type :=
| PostStart (teacherId : ObjectId) (subjectCode : string)
| PostStop (teacherId : ObjectId)
| GetQrCurrent (teacherId : ObjectId) (random16 : list byte)
| PostScan (studentUserId : ObjectId) (qrPayload : string).

Section Serial.
Context `{Platform}.

Definition handle (req : Request) : Proc Response :=
  match req with
  | PostStart teacherId subjectCode => start teacherId subjectCode
  | PostStop teacherId => stop teacherId
  | GetQrCurrent teacherId random16 => qr_current teacherId random16
  | PostScan studentUserId qrPayload => scan studentUserId qrPayload
  end.

(** The store when requests are served one at a time: a request handled
    to completion, the clock moving forward, or a change to the directory
    of users, teachers and subjects. *)
Inductive serial_step : World -> World -> Prop :=
| serial_request req w :
    serial_step w (run (handle req) w).2
| serial_tick d w :
    0 <= d ->
    serial_step w (mkWorld (users w) (teachers w) (subjects w) (sessions w)
                           (attendances w) (clock w + d))
| serial_directory us ts ss w :
    serial_step w (mkWorld us ts ss (sessions w) (attendances w) (clock w)).

Definition serial_steps : World -> World -> Prop := rtc serial_step.

End Serial.

(** What [start] leaves of the stored sessions before it creates the new
    one: the session [findOne] returns, if any, is ended. *)
Definition close_active (teacherId : ObjectId) (now : Z)
    (l : list AttendanceSession.t) : list AttendanceSession.t :=
  match find_active teacherId l with
  | Some (id, _) => alter (end_session now) id l
  | None => l
  end.

(** The claim that compaction keeps every nonce younger than the
    freshness window, for a ledger whose nonces were accepted at the
    instants [acceptedAt] (seconds) and is compacted at [now]. *)
Definition compaction_keeps_fresh `{Platform} (acceptedAt : string -> Z) (now : Z)
    (ledger : list string) : Prop :=
  forall n, n ∈ ledger -> now - acceptedAt n <= QR_TOKEN_VALIDITY ->
    n ∈ trimUsedNonces ledger.

Section Schedules.
Context `{Platform}.

(** A handler run under a given schedule of the rest of the system:
    [env n] is what the others do to the store just before the handler's
    [n]-th operation. The result is the trace, the final store and the
    handler's result. *)
Fixpoint interleave {R} (env : nat -> World -> World) (n : nat) (p : Proc R)
    (w : World) : list Event * World * R :=
  match p with
  | Done r => ([], w, r)
  | Await op k =>
      let '(a, w1) := exec_op op (env n w) in
      let '(tr, w', r) := interleave env (S n) (k a) w1 in
      (event_of op a :: tr, w', r)
  end.

(** The schedule in which nothing else happens. *)
Definition alone : nat -> World -> World := fun _ w => w.

End Schedules.
(* ===================================================================== *)
(** ** Request guards (middleware/auth, middleware/validate) *)
(* ===================================================================== *)

(** [s.split(sep)] for a one-character separator. *)
Fixpoint split (sep : ascii) (s : string) : list string :=
  match s with
  | EmptyString => [EmptyString]
  | String c rest =>
      if Ascii.eqb c sep then EmptyString :: split sep rest
      else match split sep rest with
           | head :: tail => String c head :: tail
           | [] => [String c EmptyString]
           end
  end.

(** The decoded token placed in [req.user]: the [id] and [role] the
    login routes sign. *)
Record Claims : Type := mkClaims {
  claim_id : string;
  claim_role : string
}.

Section Auth.
(** [jwt.verify(token, process.env.JWT_SECRET)]: the decoded claims, or
    an exception (TokenExpiredError, JsonWebTokenError, ...). *)
Context (jwt_verify : string -> Exc Claims).

(** [authenticate(req, res, next)]: the response it sends, or the claims
    it attaches to the request before calling [next()]. [authorization]
    is [req.headers.authorization]. *)
Definition authenticate (authorization : option string) : Response + Claims :=
  match authorization with
  | None => inl (failure 401 "Access denied. No token provided.")
  | Some authHeader =>
      if negb (truthy (Val (JStr authHeader))) || negb (String.prefix "Bearer " authHeader)
      then inl (failure 401 "Access denied. No token provided.")
      else
      let token := split " " authHeader !! 1%nat in
      match token with
      | None => inl (failure 401 "Access denied. Invalid token format.")
      | Some token =>
          if negb (truthy (Val (JStr token)))
          then inl (failure 401 "Access denied. Invalid token format.")
          else match jwt_verify token with
               | Return decoded => inr decoded
               | Throw error =>
                   if String.eqb (err_name error) "TokenExpiredError"
                   then inl (failure 401 "Token has expired. Please login again.")
                   else inl (failure 401 "Invalid token.")
               end
      end
  end.

(** [authorize(...roles)(req, res, next)]: the response it sends, or
    [None] when it calls [next()]. *)
Definition authorize (roles : list string) (user : option Claims) : option Response :=
  match user with
  | None => Some (failure 401 "Authentication required.")
  | Some user =>
      if negb (bool_decide (claim_role user ∈ roles))
      then Some (failure 403 "Access denied. Insufficient permissions.")
      else None
  end.

(** [authenticate, authorize(...roles)] in front of a handler. *)
Definition guard (roles : list string) (authorization : option string)
    : Response + Claims :=
  match authenticate authorization with
  | inl response => inl response
  | inr user =>
      match authorize roles (Some user) with
      | Some response => inl response
      | None => inr user
      end
  end.

End Auth.

(** The [{ success: false, message: "Validation failed", errors }] answer
    of [handleValidationErrors], with the [(field, message)] pairs. *)
Record Rejected : Type := mkRejected {
  rejected_status : nat;
  rejected_message : string;
  rejected_errors : list (string * string)
}.

Section Validate.
Context `{Platform}.

(** [validateAttendanceStart] on a body whose [subjectCode] is the string
    [subjectCode] ([None]: the field is absent, which the chain reads as
    the empty string): [trim], [notEmpty], [toUpperCase]. The two
    sanitisers are those of the platform: on a string, validator's
    [trim] removes the white space [String.prototype.trim] removes. The
    result is the sanitised [req.body.subjectCode] the handler then
    reads. *)
Definition validateAttendanceStart (subjectCode : option string) : Rejected + string :=
  let value := trim (default EmptyString subjectCode) in
  if String.eqb value ""
  then inl (mkRejected 400 "Validation failed"
              [("subjectCode", "Subject code is required")])
  else inr (toUpperCase value).

End Validate.

(* ===================================================================== *)
(** ** GET /attendance/session/:id *)
(* ===================================================================== *)

(** The [session] object of the answer. *)
Record SessionView : Type := mkSessionView {
  view_id : ObjectId;
  view_subjectCode : string;
  view_date : string;
  view_startTime : Z;
  view_endTime : option Z;
  view_active : bool;
  view_attendanceCount : nat
}.

Inductive SessionReply : Type :=
| SessionRefused (status : nat) (message : string)
| SessionDetails (session : SessionView).

Section SessionRoute.
Context `{Platform}.

(** GET /attendance/session/:id, after [authenticate] and
    [authorize("teacher")]; [userId] is [req.user.id] and [id] is
    [req.params.id]. *)
Definition get_session (userId : string) (id : string) : Proc SessionReply :=
  proc_bind
    (found ← await_exc (AttendanceSession_findById (Val (JStr id)));
     match found with
     | None => mret (SessionRefused 404 "Session not found.")
     | Some (_id, session) =>
         (* Verify this session belongs to the requesting teacher *)
         if negb (String.eqb (ObjectId_toString (AttendanceSession.teacherId session))
                             userId)
         then mret (SessionRefused 403 "Access denied.")
         else
         attendanceCount ← await (Attendance_countDocuments _id);
         mret (SessionDetails
                 (mkSessionView _id (AttendanceSession.subjectCode session)
                    (AttendanceSession.date session)
                    (AttendanceSession.startTime session)
                    (AttendanceSession.endTime session)
                    (AttendanceSession.active session) attendanceCount))
     end)
    (fun x => match x with
              | Return reply => Done reply
              | Throw _ => Done (SessionRefused 500 "Failed to retrieve session.")
              end).

End SessionRoute.

(* ===================================================================== *)
(** ** Starting a session *)
(* ===================================================================== *)

Section StartPredicates.
Context `{Platform}.



(** The session [start] creates: the document it passes to the model,
    after the schema setter. *)
Definition started_session (w : World) (teacherId : ObjectId) (subjectCode : string)
    : AttendanceSession.t :=
  AttendanceSession.mk (set_subjectCode (toUpperCase subjectCode)) teacherId
    (isoDate (clock w)) (clock w) None true [].

(** The check of [start]: the teacher document exists and lists the
    upper-cased subject code. *)
Definition assigned (w : World) (teacherId : ObjectId) (subjectCode : string) : Prop :=
  exists teacher, teachers w !! teacherId = Some teacher
    /\ toUpperCase subjectCode ∈ Teacher.subjectCodes teacher.

End StartPredicates.

(* ===================================================================== *)
(** ** Redemptions, step by step *)
(* ===================================================================== *)

Section ScanPredicates.
Context `{Platform}.

(** A redemption that passes steps 1 to 5 of the scan handler and finds
    the student and the subject at step 6: the credential validates at the
    instant of the request to [p], whose issue time is a number and whose
    nonce is the string [nonce], as in every credential the generator
    signs; it names a stored, active session [s] of the teacher it names,
    the nonce is not in the ledger of [s], the student's user document is
    [studentUser] and the subject the payload names is stored as
    [subject]. *)
Record reaches_department_check (w : World) (studentUserId : ObjectId)
    (qrPayload : string) (p : Payload.t) (id : ObjectId) (s : AttendanceSession.t)
    (nonce : string) (studentUser : User.t) (subjectCode : string)
    (subject : Subject.t) : Prop := {
  token_accepted : validateQRPayload (clock w) qrPayload = accepted p;
  issued_number : exists issuedAt, Payload.timestamp p = Val (JNum issuedAt);
  session_named : castObjectId (Payload.sessionId p) = Some id;
  session_stored : sessions w !! id = Some s;
  session_active : AttendanceSession.active s = true;
  teacher_named :
    Payload.teacherId p = Val (JStr (ObjectId_toString (AttendanceSession.teacherId s)));
  nonce_text : Payload.nonce p = Val (JStr nonce);
  nonce_unused : nonce ∉ AttendanceSession.usedNonces s;
  student_stored : users w !! studentUserId = Some studentUser;
  subject_named : Payload.subjectCode p = Val (JStr subjectCode);
  subject_stored : subjects w !! set_subjectCode (toUpperCase subjectCode) = Some subject
}.

(** The record a successful redemption stores. *)
Definition marked (w : World) (studentUserId : ObjectId) (subjectCode : string)
    (id : ObjectId) : Attendance.t :=
  Attendance.mk studentUserId (set_subjectCode (toUpperCase subjectCode)) id
    (isoDate (clock w)) (clock w).

End ScanPredicates.

(* ===================================================================== *)
(** ** Invariants of the store *)
(* ===================================================================== *)

Section StorePredicates.
Context `{Platform}.

(** Every stored document went through its schema: the setters leave it
    as it is and the [required] validators accept it. *)
Definition schema_valid (w : World) : Prop :=
  Forall (fun s => AttendanceSession_cast s = s /\ AttendanceSession_validate s = true)
         (sessions w)
  /\ Forall (fun a => Attendance_cast a = a /\ Attendance_validate a = true)
            (attendances w).

End StorePredicates.

(** The fields of a session that are set when it is created. *)
Definition same_session (s s' : AttendanceSession.t) : Prop :=
  AttendanceSession.subjectCode s' = AttendanceSession.subjectCode s
  /\ AttendanceSession.teacherId s' = AttendanceSession.teacherId s
  /\ AttendanceSession.date s' = AttendanceSession.date s
  /\ AttendanceSession.startTime s' = AttendanceSession.startTime s.

(** Nothing is deleted or rewritten: the attendance records of [w] are
    the first records of [w'], unchanged, and every session of [w] is
    stored in [w'] under the same [_id] with the fields it was created
    with. *)
Definition history_kept (w w' : World) : Prop :=
  attendances w `prefix_of` attendances w'
  /\ forall id s, sessions w !! id = Some s ->
       exists s', sessions w' !! id = Some s' /\ same_session s s'.

(** Every attendance record refers to a stored session. *)
Definition sessions_referenced (w : World) : Prop :=
  Forall (fun a => (Attendance.sessionId a < length (sessions w))%nat) (attendances w).
(* ===================================================================== *)
(** ** Facts about the hex codec *)
(* ===================================================================== *)

Lemma byte_of_hex_of_byte b :
  byte_of_hex (nibble_char (Byte.to_N b / 16)) (nibble_char (Byte.to_N b mod 16)) = Some b.
Proof. destruct b; vm_compute; reflexivity. Qed.

Lemma hex_encode_cons b bs :
  hex_encode (b :: bs)
  = String (nibble_char (Byte.to_N b / 16))
      (String (nibble_char (Byte.to_N b mod 16)) (hex_encode bs)).
Proof. reflexivity. Qed.

Lemma append_cons c s t : String c s +:+ t = String c (s +:+ t).
Proof. reflexivity. Qed.

Lemma hex_decode_encode bs : hex_decode (hex_encode bs) = bs.
Proof.
  induction bs as [|b bs IH]; [reflexivity|].
  rewrite hex_encode_cons. cbn [hex_decode].
  rewrite byte_of_hex_of_byte, IH. reflexivity.
Qed.

Lemma hex_encode_nonempty bs : bs <> [] -> hex_encode bs <> "".
Proof. destruct bs as [|b bs]; [done|]. rewrite hex_encode_cons. done. Qed.

(* ===================================================================== *)
(** ** A reference platform *)
(* ===================================================================== *)

(** A small executable instance of [Platform], used to evaluate the model
    on concrete requests. Compression is the identity, text encodings map
    characters to bytes one to one, JSON text is a tagged sequence of
    hex-encoded fields, the MAC is a keyed checksum, and case and white
    space are those of ASCII. *)
Module Reference.

Definition byte_of_N (n : N) : byte :=
  default "000"%byte (Byte.of_N (n mod 256)).

Definition checksum (s : string) : N :=
  foldr (fun b acc => (Byte.to_N b + acc)%N) 0%N (list_byte_of_string s).

Definition hmac (key msg : string) : list byte :=
  (fun i => byte_of_N (checksum key + 31 * checksum msg + N.of_nat i)) <$> seq 0 32.

Fixpoint string_drop (n : nat) (s : string) : string :=
  match n, s with
  | S n', String _ rest => string_drop n' rest
  | _, _ => s
  end.

Definition put_field (s rest : string) : string :=
  hex_encode (list_byte_of_string s) +:+ String "," rest.

Definition read_field (text : string) : string * string :=
  let bs := hex_decode text in
  (string_of_list_byte bs, string_drop (2 * length bs + 1) text).

Definition text_of_Z (z : Z) : string :=
  DecimalString.NilEmpty.string_of_int (Z.to_int z).

Definition Z_of_text (s : string) : option Z :=
  Z.of_int <$> DecimalString.NilEmpty.int_of_string s.

Definition stringify (j : JSON) : string :=
  match j with
  | JObj [(k1, JStr p); (k2, JStr s)] =>
      if String.eqb k1 "p" && String.eqb k2 "s"
      then String "E" (put_field p (put_field s ""))
      else "null"
  | JObj [(k1, JNum v); (k2, JStr sid); (k3, JStr tid); (k4, JStr sub);
          (k5, JNum ts); (k6, JStr n)] =>
      if String.eqb k1 "v" && String.eqb k2 "sid" && String.eqb k3 "tid"
         && String.eqb k4 "sub" && String.eqb k5 "ts" && String.eqb k6 "n"
      then String "P" (put_field (text_of_Z v) (put_field sid (put_field tid
             (put_field sub (put_field (text_of_Z ts) (put_field n ""))))))
      else "null"
  | _ => "null"
  end.

Definition SyntaxError : Error :=
  mkError "SyntaxError" NoCode "Unexpected token in JSON".

Definition parse (text : string) : Exc JSON :=
  match text with
  | String "E" rest =>
      let '(p, rest) := read_field rest in
      let '(s, _) := read_field rest in
      Return (envelope_object p s)
  | String "P" rest =>
      let '(v, rest) := read_field rest in
      let '(sid, rest) := read_field rest in
      let '(tid, rest) := read_field rest in
      let '(sub, rest) := read_field rest in
      let '(ts, rest) := read_field rest in
      let '(n, _) := read_field rest in
      match Z_of_text v, Z_of_text ts with
      | Some v, Some ts => Return (payload_object v sid tid sub ts n)
      | _, _ => Throw SyntaxError
      end
  | _ => if String.eqb text "null" then Return JNull else Throw SyntaxError
  end.

Definition toString (i : nat) : string :=
  DecimalString.NilEmpty.string_of_uint (Nat.to_uint i).

Definition cast (v : JSval) : option nat :=
  match v with
  | Val (JStr s) => Nat.of_uint <$> DecimalString.NilEmpty.uint_of_string s
  | _ => None
  end.

(** Upper case, lower case and trimming on ASCII text; other characters
    are left as they are. *)
Definition upper_char (c : ascii) : ascii :=
  let n := N_of_ascii c in
  if ((97 <=? n) && (n <=? 122))%N then ascii_of_N (n - 32) else c.

Definition lower_char (c : ascii) : ascii :=
  let n := N_of_ascii c in
  if ((65 <=? n) && (n <=? 90))%N then ascii_of_N (n + 32) else c.

Fixpoint upper (s : string) : string :=
  match s with
  | EmptyString => EmptyString
  | String c rest => String (upper_char c) (upper rest)
  end.

Fixpoint lower (s : string) : string :=
  match s with
  | EmptyString => EmptyString
  | String c rest => String (lower_char c) (lower rest)
  end.

Definition is_space (c : ascii) : bool :=
  let n := N_of_ascii c in
  (((9 <=? n) && (n <=? 13)) || (n =? 32))%N.

Fixpoint trimStart (s : string) : string :=
  match s with
  | String c rest => if is_space c then trimStart rest else s
  | EmptyString => EmptyString
  end.

Fixpoint trimEnd (s : string) : string :=
  match s with
  | EmptyString => EmptyString
  | String c rest =>
      match trimEnd rest with
      | EmptyString => if is_space c then EmptyString else String c EmptyString
      | rest' => String c rest'
      end
  end.

Definition strip (s : string) : string := trimEnd (trimStart s).

(** A symbol of error-correction level H holds at most 1273 bytes. *)
Definition toDataURL (data : string) : Exc string :=
  if (1273 <? String.length data)%nat
  then Throw (mkError "Error" NoCode
                "The amount of data is too big to be stored in a QR Code")
  else Return ("data:image/png;base64," +:+ data).

Lemma hmac_length key msg : length (hmac key msg) = 32%nat.
Proof. reflexivity. Qed.

Lemma hex_decode_put bs rest :
  hex_decode (hex_encode bs +:+ String "," rest) = bs.
Proof.
  induction bs as [|b bs IH].
  - destruct rest; reflexivity.
  - rewrite hex_encode_cons, !append_cons. cbn [hex_decode].
    rewrite byte_of_hex_of_byte, IH. reflexivity.
Qed.

Lemma string_drop_put bs rest :
  string_drop (2 * length bs + 1) (hex_encode bs +:+ String "," rest) = rest.
Proof.
  induction bs as [|b bs IH]; [reflexivity|].
  rewrite hex_encode_cons, !append_cons. cbn [length].
  replace (2 * S (length bs) + 1)%nat with (S (S (2 * length bs + 1))) by lia.
  exact IH.
Qed.

Lemma read_put s rest : read_field (put_field s rest) = (s, rest).
Proof.
  unfold read_field, put_field.
  rewrite hex_decode_put, string_drop_put, string_of_list_byte_of_string.
  reflexivity.
Qed.

Lemma Z_of_text_of_Z z : Z_of_text (text_of_Z z) = Some z.
Proof.
  unfold Z_of_text, text_of_Z.
  rewrite DecimalString.NilEmpty.isi. simpl. f_equal. apply DecimalZ.of_to.
Qed.

Lemma parse_payload v sid tid sub ts n :
  parse (stringify (payload_object v sid tid sub ts n))
  = Return (payload_object v sid tid sub ts n).
Proof.
  cbn [stringify payload_object String.eqb Ascii.eqb Bool.eqb andb parse].
  rewrite !read_put, !Z_of_text_of_Z. reflexivity.
Qed.

Lemma parse_envelope p s :
  parse (stringify (envelope_object p s)) = Return (envelope_object p s).
Proof.
  cbn [stringify envelope_object String.eqb Ascii.eqb Bool.eqb andb parse].
  rewrite !read_put. reflexivity.
Qed.

Lemma stringify_nonempty j : stringify j <> "".
Proof. unfold stringify. repeat case_match; done. Qed.

Lemma cast_toString i : cast (Val (JStr (toString i))) = Some i.
Proof.
  unfold cast, toString. rewrite DecimalString.NilEmpty.usu. simpl.
  f_equal. apply DecimalNat.Unsigned.of_to.
Qed.

Lemma upper_char_twice c : upper_char (upper_char c) = upper_char c.
Proof. destruct c as [[] [] [] [] [] [] [] []]; reflexivity. Qed.

Lemma is_space_upper c : is_space (upper_char c) = is_space c.
Proof. destruct c as [[] [] [] [] [] [] [] []]; reflexivity. Qed.

Lemma upper_twice s : upper (upper s) = upper s.
Proof.
  induction s as [|c s IH]; cbn; [reflexivity|]. by rewrite upper_char_twice, IH.
Qed.

Lemma upper_not_empty s : upper s = "" -> s = "".
Proof. by destruct s. Qed.

Lemma trimStart_upper s : trimStart (upper s) = upper (trimStart s).
Proof.
  induction s as [|c s IH]; cbn; [reflexivity|].
  rewrite is_space_upper. by destruct (is_space c).
Qed.

Lemma trimEnd_upper s : trimEnd (upper s) = upper (trimEnd s).
Proof.
  induction s as [|c s IH]; cbn; [reflexivity|].
  rewrite IH, is_space_upper. destruct (trimEnd s); cbn; [|reflexivity].
  by destruct (is_space c).
Qed.

Lemma strip_upper s : strip (upper s) = upper (strip s).
Proof. unfold strip. by rewrite trimStart_upper, trimEnd_upper. Qed.

Lemma trimEnd_twice s : trimEnd (trimEnd s) = trimEnd s.
Proof.
  induction s as [|c s IH]; cbn; [reflexivity|].
  destruct (trimEnd s) as [|d rest] eqn:Hrest.
  - destruct (is_space c) eqn:Hc; cbn; [reflexivity|]. by rewrite Hc.
  - cbn [trimEnd]. cbn [trimEnd] in IH. by rewrite IH.
Qed.

(** Trimming the end keeps a first character that is not a space. *)
Lemma trimEnd_head c s :
  is_space c = false -> exists rest, trimEnd (String c s) = String c rest.
Proof.
  intros Hc. cbn. destruct (trimEnd s); [rewrite Hc|]; eauto.
Qed.

Lemma trimStart_trimEnd s : trimStart (trimEnd (trimStart s)) = trimEnd (trimStart s).
Proof.
  induction s as [|c s IH]; [reflexivity|]. cbn [trimStart].
  destruct (is_space c) eqn:Hc; [exact IH|].
  destruct (trimEnd_head c s Hc) as [rest ->]. cbn. by rewrite Hc.
Qed.

Lemma strip_twice s : strip (strip s) = strip s.
Proof. unfold strip. by rewrite trimStart_trimEnd, trimEnd_twice. Qed.

Definition platform : Platform := {|
  env_QR_SECRET := None;
  env_QR_TOKEN_VALIDITY := None;
  hmac_sha256 := hmac;
  hmac_sha256_length := hmac_length;
  deflateSync := fun bs => bs;
  inflateSync := fun bs => Return bs;
  inflate_deflate := fun bs => eq_refl;
  base64_encode := string_of_list_byte;
  base64_decode := list_byte_of_string;
  base64_decode_encode := list_byte_of_string_of_list_byte;
  JSON_stringify := stringify;
  JSON_parse := parse;
  JSON_parse_payload := parse_payload;
  JSON_parse_envelope := parse_envelope;
  JSON_stringify_nonempty := stringify_nonempty;
  utf8_encode := list_byte_of_string;
  utf8_decode := string_of_list_byte;
  utf8_decode_encode_json := fun j => string_of_list_byte_of_string (stringify j);
  Buffer_from_nonstring := fun _ =>
    Throw (ERR_INVALID_ARG_TYPE "The first argument must be of type string.");
  invalid_arg_message := fun _ => "The data argument must be of type string.";
  StringToNumber := fun _ => NaN;
  Array_toString := fun _ => "";
  toUpperCase := upper;
  toLowerCase := lower;
  trim := strip;
  toUpperCase_twice := upper_twice;
  trim_twice := strip_twice;
  trim_toUpperCase := strip_upper;
  toUpperCase_not_empty := upper_not_empty;
  isoDate := fun ms => text_of_Z (ms / 86400000);
  QRCode_toDataURL := toDataURL;
  ObjectId_toString := toString;
  castObjectId := cast;
  castObjectId_toString := cast_toString;
  castString_nonstring := fun _ => Throw CastError
|}.

End Reference.


(* ===================================================================== *)
(** ** A worked example on the reference platform *)
(* ===================================================================== *)

(** One teacher (user 7) assigned to CH401, a subject of the department
    of Chemical Engineering; student 20 of that department and student 21
    of Physics. The teacher starts a session at 5000 ms and a credential
    is minted at once. *)
Module Example.

Definition platform : Platform := Reference.platform.
#[local] Existing Instance platform.

Definition random16 : list byte := repeat "001"%byte 16.

Definition empty : World :=
  mkWorld
    (<[20%nat := User.mk "student" "Chemical Engineering"]>
       (<[21%nat := User.mk "student" "Physics"]> ∅))
    (<[7%nat := Teacher.mk ["CH401"]]> ∅)
    (<["CH401" := Subject.mk "chemical engineering" 7%nat]> ∅)
    [] [] 5000.

Definition started : World := (run (start 7%nat "CH401") empty).2.

Definition token : string :=
  (generateQRPayload random16 5000 "0" "7" "CH401").1.

Definition token_payload : Payload.t :=
  Payload.mk (Val (JNum 1)) (Val (JStr "0")) (Val (JStr "7")) (Val (JStr "CH401"))
    (Val (JNum 5)) (Val (JStr (hex_encode random16))).

(** The store after student 20 has redeemed the token. *)
Definition redeemed : World := (run (scan 20%nat token) started).2.

(** The store after the teacher has stopped the session. *)
Definition stopped : World := (run (stop 7%nat) started).2.

(** The record student 20's redemption writes, and a schedule in which
    another request of the same student writes it just before this
    handler's own insert (its eighth operation). *)
Definition record : Attendance.t := Attendance.mk 20%nat "CH401" 0%nat "0" 5000.

Definition race : nat -> World -> World := fun n w =>
  if Nat.eqb n 7 then (exec_op (Attendance_create record) w).2 else w.

(** A credential whose envelope carries a two-byte signature. *)
Definition short_signature : string :=
  base64_encode (deflateSync (utf8_encode
    (JSON_stringify (envelope_object "{}" "00ff")))).

(** A ledger of 101 nonces. *)
Definition nonce_of (i : nat) : string :=
  hex_encode (repeat (Reference.byte_of_N (N.of_nat i)) 16).

Definition full_ledger : list string := nonce_of <$> seq 0 101.

End Example.
(* ===================================================================== *)
(** ** Further scenarios on the reference platform *)
(* ===================================================================== *)

(** The store of the worked example two seconds later; a second
    credential for the same session, with another nonce; a credential
    whose payload is the minted one and whose signature is 32 zero bytes;
    the session of the example once stopped. *)
Module Scenario.

#[local] Existing Instance Example.platform.

Definition later : World :=
  mkWorld (users Example.started) (teachers Example.started)
    (subjects Example.started) (sessions Example.started)
    (attendances Example.started) 7000.

Definition random16' : list byte := repeat "002"%byte 16.

Definition token2 : string :=
  (generateQRPayload random16' 5000 "0" "7" "CH401").1.

Definition token2_payload : Payload.t :=
  Payload.mk (Val (JNum 1)) (Val (JStr "0")) (Val (JStr "7")) (Val (JStr "CH401"))
    (Val (JNum 5)) (Val (JStr (hex_encode random16'))).

Definition payload_text : string :=
  JSON_stringify (payload_object 1 "0" "7" "CH401" 5 (hex_encode Example.random16)).

Definition zero_signature : string := hex_encode (repeat "000"%byte 32).

Definition forged : string :=
  base64_encode (deflateSync (utf8_encode
    (JSON_stringify (envelope_object payload_text zero_signature)))).

Definition session : AttendanceSession.t :=
  AttendanceSession.mk "CH401" 7%nat "0" 5000 None true [].

Definition ended : AttendanceSession.t :=
  AttendanceSession.mk "CH401" 7%nat "0" 5000 (Some 5000) false [].

Definition student : User.t := User.mk "student" "Chemical Engineering".

Definition outsider : User.t := User.mk "student" "Physics".

Definition subject : Subject.t := Subject.mk "chemical engineering" 7%nat.


(** [jwt.verify] of a verifier that knows one token, of teacher 7. *)
Definition verify (token : string) : Exc Claims :=
  if String.eqb token "abc" then Return (mkClaims "7" "teacher")
  else Throw (mkError "JsonWebTokenError" NoCode "invalid token").

End Scenario.
(* ===================================================================== *)
(** ** The validator *)
(* ===================================================================== *)

Lemma shaped_invalid msg : result_shape (invalid msg).
Proof. left. cbn. eauto. Qed.

Lemma returns_shaped_bind {A} (m : Exc A) (f : A -> Exc Validation) :
  (forall a, returns_shaped (f a)) -> returns_shaped (m ≫= f).
Proof. intros Hf r. destruct m as [a|e]; cbn; [apply Hf | discriminate]. Qed.

Lemma returns_shaped_return r : result_shape r -> returns_shaped (Return r).
Proof. intros Hr r' [= <-]. exact Hr. Qed.

Section ValidatorFacts.
Context `{Platform}.

Lemma string_eqb_empty s : s <> "" -> String.eqb s "" = false.
Proof. intros Hs. apply String.eqb_neq. exact Hs. Qed.

Lemma hmac_hex_nonempty key msg s :
  hex_decode s = hmac_sha256 key msg -> s <> "".
Proof.
  intros Hs ->. pose proof (hmac_sha256_length key msg) as Hl.
  rewrite <- Hs in Hl. discriminate Hl.
Qed.

Lemma validate_signed (nowMs : Z) (qrData : string) (payload : JSON) (p : Payload.t) :
  signed_token qrData payload ->
  complete_payload payload p ->
  validateQRPayload nowMs qrData =
    let age := num_sub (Fin (nowMs / 1000)) (ToNumber (Payload.timestamp p)) in
    if num_ltb age (Fin 0) then invalid "Invalid QR data: future timestamp"
    else if num_gtb age (Fin QR_TOKEN_VALIDITY) then invalid "QR code has expired"
    else accepted p.
Proof.
  intros [inflated signedData payloadStr sig Hinf Hparse Hp Hne Hs Hsig Hpl] [].
  unfold validateQRPayload, validateQRPayload_try.
  rewrite Hinf, Hparse. unfold missing, orelse.
  pose proof (string_eqb_empty _ Hne) as Hne'.
  pose proof (string_eqb_empty _ (hmac_hex_nonempty _ _ _ Hsig)) as Hsne.
  assert (Hcmp : timingSafeEqual (hex_decode sig)
                   (hex_decode (hex_encode (hmac_sha256 QR_SECRET payloadStr)))
                 = Return true).
  { rewrite hex_decode_encode, Hsig. unfold timingSafeEqual.
    rewrite Nat.eqb_refl, bool_decide_eq_true_2 by reflexivity. reflexivity. }
  repeat (first [ rewrite Hp | rewrite Hs | rewrite Hne' | rewrite Hsne
                | rewrite Hcmp | rewrite Hpl
                | rewrite complete_v0 | rewrite complete_sid0 | rewrite complete_tid0
                | rewrite complete_sub0 | rewrite complete_ts0 | rewrite complete_n0
                | rewrite truthy_v0 | rewrite truthy_sid0 | rewrite truthy_tid0
                | rewrite truthy_sub0 | rewrite truthy_ts0 | rewrite truthy_n0 ];
          cbn [mbind mret exc_bind exc_ret negb truthy hmac_update Buffer_from_hex]).
  cbv zeta. destruct p as [v sid tid sub ts n]; cbn. unfold accepted.
  repeat match goal with |- context [if ?c then _ else _] => destruct c end;
    reflexivity.
Qed.


Lemma get_payload_object v sid tid sub ts n :
  complete_payload (payload_object v sid tid sub ts n)
    (Payload.mk (Val (JNum v)) (Val (JStr sid)) (Val (JStr tid)) (Val (JStr sub))
       (Val (JNum ts)) (Val (JStr n)))
  <-> v <> 0 /\ sid <> "" /\ tid <> "" /\ sub <> "" /\ ts <> 0 /\ n <> "".
Proof.
  split.
  - intros []. cbn in *.
    repeat match goal with
           | Ht : negb (_ =? _)%string = true |- _ =>
               apply negb_true_iff, String.eqb_neq in Ht
           | Ht : negb (_ =? _) = true |- _ =>
               apply negb_true_iff, Z.eqb_neq in Ht
           end. done.
  - intros (Hv & Hsid & Htid & Hsub & Hts & Hn).
    split; try reflexivity; cbn;
      first [ apply negb_true_iff, Z.eqb_neq; assumption
            | apply negb_true_iff, String.eqb_neq; assumption ].
Qed.

Lemma generated_signed random16 issuedMs sid tid sub :
  signed_token (generateQRPayload random16 issuedMs sid tid sub).1
    (payload_object 1 sid tid sub (issuedMs / 1000) (hex_encode random16)).
Proof.
  unfold generateQRPayload. cbn [fst].
  eapply SignedToken.
  - rewrite base64_decode_encode. apply inflate_deflate.
  - rewrite utf8_decode_encode_json. apply JSON_parse_envelope.
  - reflexivity.
  - apply JSON_stringify_nonempty.
  - reflexivity.
  - apply hex_decode_encode.
  - apply JSON_parse_payload.
Qed.

(** C3. Freshness is decided by [age = now - issuedAtSeconds]. For a
    signed token whose six fields are present and whose [ts] is the number
    [issuedAtSeconds]: verified before its issue second it is rejected
    with the future-timestamp error; verified at any second from
    [issuedAtSeconds] to [issuedAtSeconds + QR_TOKEN_VALIDITY], both
    included, it is accepted (so not expired); and, the validity being a
    non-negative number of seconds, verified at
    [issuedAtSeconds + QR_TOKEN_VALIDITY + 1] or later it is rejected as
    expired. *)
Theorem freshness_window (qrData : string) (payload : JSON) (p : Payload.t)
    (issuedAtSeconds nowMs : Z) :
  signed_token qrData payload ->
  complete_payload payload p ->
  Payload.timestamp p = Val (JNum issuedAtSeconds) ->
  let now := nowMs / 1000 in
  let result := validateQRPayload nowMs qrData in
  (now < issuedAtSeconds ->
     result = invalid "Invalid QR data: future timestamp")
  /\ (issuedAtSeconds <= now <= issuedAtSeconds + QR_TOKEN_VALIDITY ->
     result = accepted p)
  /\ (0 <= QR_TOKEN_VALIDITY ->
      issuedAtSeconds + QR_TOKEN_VALIDITY + 1 <= now ->
     result = invalid "QR code has expired").
Proof.
  intros Hsigned Hcomplete Hts now result. subst result.
  rewrite (validate_signed nowMs _ _ _ Hsigned Hcomplete), Hts.
  cbv zeta. cbn [ToNumber num_sub num_ltb num_gtb]. fold now.
  repeat split; intros.
  - destruct (Z.ltb_spec (now - issuedAtSeconds) 0); [reflexivity | lia].
  - destruct (Z.ltb_spec (now - issuedAtSeconds) 0); [lia|].
    destruct (Z.ltb_spec QR_TOKEN_VALIDITY (now - issuedAtSeconds)); [lia | reflexivity].
  - destruct (Z.ltb_spec (now - issuedAtSeconds) 0); [lia|].
    destruct (Z.ltb_spec QR_TOKEN_VALIDITY (now - issuedAtSeconds)); [reflexivity | lia].
Qed.

(** C6. Round trip: the credential string minted by [generateQRPayload]
    for non-empty session, teacher and subject identifiers, sixteen random
    bytes and a non-zero issue second, validated under the same secret at
    an instant inside the freshness window, is accepted and the payload
    returned carries exactly the minted fields: version 1, the three
    identifiers, the issue second and the nonce. *)
Theorem validate_generate_roundtrip (random16 : list byte) (issuedMs nowMs : Z)
    (sid tid sub : string) :
  length random16 = 16%nat ->
  sid <> "" -> tid <> "" -> sub <> "" ->
  issuedMs / 1000 <> 0 ->
  issuedMs / 1000 <= nowMs / 1000 <= issuedMs / 1000 + QR_TOKEN_VALIDITY ->
  let minted := generateQRPayload random16 issuedMs sid tid sub in
  validateQRPayload nowMs minted.1 =
    {| valid := true;
       payload := Some (Payload.mk (Val (JNum 1)) (Val (JStr sid)) (Val (JStr tid))
                          (Val (JStr sub)) (Val (JNum (issuedMs / 1000)))
                          (Val (JStr minted.2)));
       error := None |}.
Proof.
  intros Hlen Hsid Htid Hsub Hts Hwindow minted.
  assert (Hn : hex_encode random16 <> "").
  { apply hex_encode_nonempty. intros ->. discriminate Hlen. }
  assert (Hcomplete : complete_payload
            (payload_object 1 sid tid sub (issuedMs / 1000) (hex_encode random16))
            (Payload.mk (Val (JNum 1)) (Val (JStr sid)) (Val (JStr tid))
               (Val (JStr sub)) (Val (JNum (issuedMs / 1000)))
               (Val (JStr (hex_encode random16))))).
  { apply get_payload_object. repeat split; try assumption. discriminate. }
  pose proof (freshness_window _ _ _ (issuedMs / 1000) nowMs
                (generated_signed random16 issuedMs sid tid sub) Hcomplete eq_refl)
    as (_ & Hfresh & _).
  exact (Hfresh Hwindow).
Qed.

Lemma validateQRPayload_try_shaped nowMs qrData :
  returns_shaped (validateQRPayload_try nowMs qrData).
Proof.
  unfold validateQRPayload_try.
  repeat first
    [ apply returns_shaped_bind; intros ?
    | apply returns_shaped_return; first [apply shaped_invalid | right; cbn; eauto]
    | match goal with
      | |- returns_shaped (match ?x with _ => _ end) => destruct x
      end
    | progress cbv zeta ].
Qed.

(** C9. [validateQRPayload] answers every input string with a
    [{valid, payload, error}] result: either [valid] is false, [payload]
    is null and [error] is a message, or [valid] is true, a payload is
    present and [error] is null; an exception thrown anywhere in the body
    becomes the result with the message "QR validation failed: ...". In
    particular, for an envelope whose [p] is a non-empty string and whose
    [s] is a non-empty string that hex-decodes to a number of bytes other
    than 32, [crypto.timingSafeEqual] throws and the result is that generic
    error, not the signature-mismatch one. *)
Theorem validateQRPayload_total (nowMs : Z) (qrData : string) :
  let result := validateQRPayload nowMs qrData in
  result_shape result
  /\ (forall e, validateQRPayload_try nowMs qrData = Throw e ->
       result = invalid ("QR validation failed: " +:+ err_message e))
  /\ (forall inflated signedData payloadStr signatureHex,
       inflateSync (base64_decode qrData) = Return inflated ->
       JSON_parse (utf8_decode inflated) = Return signedData ->
       get signedData "p" = Return (Val (JStr payloadStr)) ->
       payloadStr <> "" ->
       get signedData "s" = Return (Val (JStr signatureHex)) ->
       signatureHex <> "" ->
       length (hex_decode signatureHex) <> 32%nat ->
       result = invalid ("QR validation failed: "
                         +:+ "Input buffers must have the same byte length")
       /\ result <> invalid "Invalid QR data: signature mismatch (tampered)").
Proof.
  cbv zeta. split; [|split].
  - unfold validateQRPayload.
    destruct (validateQRPayload_try nowMs qrData) as [result|e] eqn:Htry.
    + exact (validateQRPayload_try_shaped nowMs qrData result Htry).
    + apply shaped_invalid.
  - intros e He. unfold validateQRPayload. rewrite He. reflexivity.
  - intros inflated signedData payloadStr sig Hinf Hparse Hp Hne Hs Hsne Hlen.
    assert (Heq : validateQRPayload nowMs qrData
                  = invalid ("QR validation failed: "
                             +:+ "Input buffers must have the same byte length")).
    { unfold validateQRPayload, validateQRPayload_try.
      rewrite Hinf, Hparse. unfold missing, orelse.
      pose proof (string_eqb_empty _ Hne) as Hne'.
      pose proof (string_eqb_empty _ Hsne) as Hsne'.
      assert (Hcmp : timingSafeEqual (hex_decode sig)
                (hex_decode (hex_encode (hmac_sha256 QR_SECRET payloadStr)))
              = Throw ERR_CRYPTO_TIMING_SAFE_EQUAL_LENGTH).
      { rewrite hex_decode_encode. unfold timingSafeEqual.
        rewrite hmac_sha256_length.
        destruct (Nat.eqb_spec (length (hex_decode sig)) 32); [done | reflexivity]. }
      repeat (first [ rewrite Hp | rewrite Hs | rewrite Hne' | rewrite Hsne'
                    | rewrite Hcmp ];
              cbn [mbind mret exc_bind exc_ret negb truthy hmac_update
                   Buffer_from_hex]).
      reflexivity. }
    rewrite Heq. split; [reflexivity | discriminate].
Qed.

End ValidatorFacts.

(* ===================================================================== *)
(** ** The store under arbitrary interleaving *)
(* ===================================================================== *)

Lemma apply_all_ledger cs s :
  AttendanceSession.usedNonces s
    `prefix_of` AttendanceSession.usedNonces (AttendanceSession.apply_all cs s).
Proof.
  unfold AttendanceSession.apply_all. revert s.
  induction cs as [|c cs IH]; intros s; cbn [foldl]; [reflexivity|].
  etrans; [|apply IH]. destruct c; cbn; [reflexivity | reflexivity |].
  by apply prefix_app_r.
Qed.

Lemma ledger_grows_refl w : ledger_grows w w.
Proof. intros id s1 Hs. exists s1. split; [exact Hs | reflexivity]. Qed.

Lemma ledger_grows_same w w' : sessions w' = sessions w -> ledger_grows w w'.
Proof. intros Heq id s1 Hs. exists s1. rewrite Heq. split; [exact Hs | reflexivity]. Qed.

Lemma ledger_grows_trans w1 w2 w3 :
  ledger_grows w1 w2 -> ledger_grows w2 w3 -> ledger_grows w1 w3.
Proof.
  intros H12 H23 id s1 Hs. destruct (H12 id s1 Hs) as (s2 & Hs2 & Hp).
  destruct (H23 id s2 Hs2) as (s3 & Hs3 & Hp'). exists s3.
  split; [exact Hs3 | by etrans].
Qed.

Section StoreFacts.
Context `{Platform}.

Lemma exec_op_ledger {A} (op : Op A) w : ledger_grows w (exec_op op w).2.
Proof.
  destruct op; cbn [exec_op]; try apply ledger_grows_refl.
  - destruct (castObjectId id); apply ledger_grows_refl.
  - destruct (AttendanceSession_validate _); [|apply ledger_grows_refl].
    intros i s1 Hs. exists s1. split; [|reflexivity]. cbn.
    by apply lookup_app_l_Some.
  - intros i s1 Hs. cbn.
    destruct (decide (i = id)) as [->|Hne].
    + exists (AttendanceSession.apply_all changes s1).
      rewrite list_lookup_alter_eq, Hs. split; [reflexivity | apply apply_all_ledger].
    + exists s1. rewrite list_lookup_alter_ne by done. split; [exact Hs | reflexivity].
  - destruct (negb _); [apply ledger_grows_refl|].
    destruct (duplicate_key _ _); by apply ledger_grows_same.
Qed.

Lemma env_step_ledger w w' : env_step w w' -> ledger_grows w w'.
Proof.
  destruct 1; [apply exec_op_ledger | by apply ledger_grows_same ..].
Qed.

Lemma env_steps_ledger w w' : env_steps w w' -> ledger_grows w w'.
Proof.
  induction 1 as [|w1 w2 w3 Hstep _ IH]; [apply ledger_grows_refl|].
  eapply ledger_grows_trans; [apply env_step_ledger, Hstep | exact IH].
Qed.

Lemma exec_op_unique {A} (op : Op A) w :
  unique_attendance w -> unique_attendance (exec_op op w).2.
Proof.
  unfold unique_attendance.
  destruct op; cbn [exec_op]; try done.
  - by destruct (castObjectId id).
  - by destruct (AttendanceSession_validate _).
  - intros Hnd. destruct (negb _); [done|].
    destruct (duplicate_key _ _) eqn:Hdup; [done|]. cbn.
    rewrite fmap_app. apply NoDup_app. split; [exact Hnd|].
    split; [|apply NoDup_singleton].
    intros k Hk Hk'. apply list_elem_of_singleton in Hk' as ->.
    unfold duplicate_key in Hdup. apply bool_decide_eq_false in Hdup.
    apply Hdup. apply Exists_exists.
    apply list_elem_of_fmap in Hk as (a & Ha & Hin). eauto.
Qed.

Lemma env_steps_unique w w' :
  unique_attendance w -> env_steps w w' -> unique_attendance w'.
Proof.
  intros Hu Hsteps. induction Hsteps as [|w1 w2 w3 Hstep _ IH]; [exact Hu|].
  apply IH. destruct Hstep; [by apply exec_op_unique | exact Hu | exact Hu].
Qed.

Lemma create_duplicate_rejected doc w :
  Attendance_validate (Attendance_cast doc) = true ->
  Attendance.key (Attendance_cast doc) ∈ Attendance.key <$> attendances w ->
  exec_op (Attendance_create doc) w = (Throw E11000, w).
Proof.
  intros Hvalid Hin. cbn [exec_op]. rewrite Hvalid. cbn [negb].
  unfold duplicate_key. rewrite bool_decide_eq_true_2; [reflexivity|].
  apply list_elem_of_fmap in Hin as (a & Ha & Hin).
  apply Exists_exists. eauto.
Qed.

Lemma runs_done rely {R} (r0 : R) w tr w' r :
  runs rely (Done r0) w tr w' r -> tr = [] /\ r = r0 /\ rtc rely w w'.
Proof. exact (fun x => x). Qed.

Lemma runs_await rely {R A} (op : Op A) (k : A -> Proc R) w tr w' r :
  runs rely (Await op k) w tr w' r ->
  exists w0 tr',
    rtc rely w w0
    /\ tr = event_of op (exec_op op w0).1 :: tr'
    /\ runs rely (k (exec_op op w0).1) (exec_op op w0).2 tr' w' r.
Proof. exact (fun x => x). Qed.
End StoreFacts.

(** Symbolic execution of a handler run: [run_step] consumes the next
    operation, or splits on the value the handler branches on. *)
Ltac unroll Hrun :=
  cbn [proc_bind mbind mret async_bind async_ret await await_exc sync respond
       route negb] in Hrun.

Ltac run_step Hrun :=
  lazymatch type of Hrun with
  | runs _ (Done _) _ _ _ _ =>
      let Heq := fresh "Heq" in
      apply runs_done in Hrun; destruct Hrun as (Heq & -> & _); simplify_eq
  | runs _ (Await ?op _) _ _ _ _ =>
      let w0 := fresh "w" in
      let tr' := fresh "tr" in
      let res := fresh "res" in
      let wn := fresh "w" in
      let Heq := fresh "Heq" in
      apply runs_await in Hrun;
      destruct Hrun as (w0 & tr' & _ & Heq & Hrun);
      destruct (exec_op op w0) as [res wn]; cbn [fst snd event_of] in Hrun, Heq;
      simplify_eq
  | runs _ (proc_bind (match ?x with _ => _ end) _) _ _ _ _ => destruct x eqn:?
  | runs _ (proc_bind (if ?c then _ else _) _) _ _ _ _ => destruct c eqn:?
  | runs _ (match ?x with _ => _ end) _ _ _ _ => destruct x eqn:?
  | runs _ (if ?c then _ else _) _ _ _ _ => destruct c eqn:?
  end; unroll Hrun.


(* ===================================================================== *)
(** ** The redemption pipeline *)
(* ===================================================================== *)

Section Pipeline.
Context `{Platform}.

(** C1. At most one attendance record per (studentId, subjectCode, date):
    (i) whatever operations are performed on the store, in whatever
    order and by whomever, a collection with no two records of the same
    key never comes to hold two; (ii) storage rejects the insert of a
    valid record whose key is already stored with the duplicate key error
    (code 11000) and leaves the store as it was; (iii) in every run of
    the scan handler, under any interference, in which the insert was
    rejected with an error of code 11000, the response is the 400
    "Attendance already marked for this subject today." -- on that path
    the existence pre-check of the same run had found no record; (iv) in
    every run in which the pre-check does find a record, the response is
    the 400 "You have already marked attendance for this subject today."
    and no insert is attempted. *)
Theorem attendance_unique_per_day :
  (forall w w', unique_attendance w -> env_steps w w' -> unique_attendance w')
  /\ (forall doc w,
        Attendance_validate (Attendance_cast doc) = true ->
        Attendance.key (Attendance_cast doc) ∈ Attendance.key <$> attendances w ->
        exec_op (Attendance_create doc) w = (Throw E11000, w)
        /\ err_code E11000 = NumCode 11000)
  /\ (forall rely studentUserId qrPayload w tr w' resp doc e,
        runs rely (scan studentUserId qrPayload) w tr w' resp ->
        EvAttendanceCreate doc (Throw e) ∈ tr ->
        err_code e = NumCode 11000 ->
        resp = failure 400 "Attendance already marked for this subject today."
        /\ exists studentId code date,
             EvAttendanceFindOne studentId code date None ∈ tr)
  /\ (forall rely studentUserId qrPayload w tr w' resp studentId code date a,
        runs rely (scan studentUserId qrPayload) w tr w' resp ->
        EvAttendanceFindOne studentId code date (Some a) ∈ tr ->
        resp = failure 400 "You have already marked attendance for this subject today."
        /\ Forall (fun e => is_write e = false) tr).
Proof.
  split; [|split; [|split]].
  - intros w w'. apply env_steps_unique.
  - intros doc w Hvalid Hin. split; [|reflexivity].
    by apply create_duplicate_rejected.
  - intros rely student q w tr w' resp doc e Hrun Hev Hcode.
    unfold scan in Hrun. unroll Hrun.
    repeat run_step Hrun.
    all: set_unfold; try (intuition discriminate).
    all: destruct_or?; simplify_eq.
    all: unfold scan_catch; rewrite Hcode.
    all: split; [reflexivity | eexists _, _, _; eauto 10].
  - intros rely student q w tr w' resp studentId code date a Hrun Hev.
    unfold scan in Hrun. unroll Hrun.
    repeat run_step Hrun.
    all: set_unfold; try (intuition discriminate).
    all: destruct_or?; simplify_eq.
    all: split; [reflexivity | repeat constructor].
Qed.

(** C2. Once a nonce [n] is in the ledger of session [sid] it stays there
    whatever happens next, and no later redemption presenting [n] to that
    session succeeds or writes anything. Let a later redemption, run
    interleaved with any other operations (pushes of other nonces
    included), carry a token that the validator accepts, whose session id
    denotes [sid] and whose nonce is [n]. Then the handler performs the
    session lookup and nothing after it, [n] is in the ledger it loaded,
    and the answer is the replay error, 400 "This QR code has already been
    used...", unless the session is found ended or belonging to another
    teacher, the two checks that come before the replay check. *)
Theorem replay_rejected (studentUserId : ObjectId) (qrPayload n : string)
    (w1 w2 w' : World) (sid : ObjectId) (s1 : AttendanceSession.t)
    (tr rest : list Event) (resp : Response) (now : Z) (p : Payload.t) :
  sessions w1 !! sid = Some s1 ->
  n ∈ AttendanceSession.usedNonces s1 ->
  env_steps w1 w2 ->
  runs env_step (scan studentUserId qrPayload) w2 tr w' resp ->
  tr = EvDateNow now :: rest ->
  validateQRPayload now qrPayload = accepted p ->
  castObjectId (Payload.sessionId p) = Some sid ->
  Payload.nonce p = Val (JStr n) ->
  exists s,
    rest = [EvSessionFindById (Payload.sessionId p) (Return (Some (sid, s)))]
    /\ n ∈ AttendanceSession.usedNonces s
    /\ resp =
         (if negb (AttendanceSession.active s)
          then failure 400 "This attendance session has ended."
          else if negb (strict_eq_string
                          (ObjectId_toString (AttendanceSession.teacherId s))
                          (Payload.teacherId p))
          then failure 400 "QR code does not match the session teacher."
          else failure 400
                 "This QR code has already been used. Please scan the latest QR code.")
    /\ Forall (fun e => is_write e = false) tr.
Proof.
  intros Hs1 Hn Hsteps Hrun Htr Hvalid Hcast Hnonce.
  unfold scan in Hrun. unroll Hrun.
  apply runs_await in Hrun. destruct Hrun as (w3 & tr1 & Hrely1 & Heq1 & Hrun).
  cbn [exec_op fst snd event_of] in Hrun, Heq1. simplify_eq.
  rewrite Hvalid in Hrun. cbn [valid payload accepted] in Hrun. unroll Hrun.
  apply runs_await in Hrun. destruct Hrun as (w4 & tr2 & Hrely2 & -> & Hrun).
  assert (Hgrow : ledger_grows w1 w4).
  { apply env_steps_ledger. unfold env_steps. etrans; [exact Hsteps|]. by etrans. }
  destruct (Hgrow _ _ Hs1) as (s & Hs & Hprefix).
  assert (Hin : n ∈ AttendanceSession.usedNonces s).
  { destruct Hprefix as [k ->]. set_unfold. by left. }
  revert Hrun. cbn [exec_op event_of]. rewrite Hcast, Hs. cbn [fmap option_fmap option_map fst snd].
  intros Hrun. unroll Hrun. exists s.
  destruct (AttendanceSession.active s); unroll Hrun.
  2: { run_step Hrun. repeat split; [exact Hin | repeat constructor]. }
  destruct (strict_eq_string _ _); unroll Hrun.
  2: { run_step Hrun. repeat split; [exact Hin | repeat constructor]. }
  unfold includes in Hrun. rewrite Hnonce, bool_decide_eq_true_2 in Hrun by exact Hin.
  unroll Hrun. run_step Hrun. repeat split; [exact Hin | repeat constructor].
Qed.

(** C8. A redemption whose token is accepted by the validator but whose
    session is found with [active = false] is answered 400 "This
    attendance session has ended."; the lookup is the handler's last
    operation, so the replay, department and duplicate checks are not
    reached, no nonce is pushed and no attendance record is created. This
    holds for every run under any interference; in particular, run alone
    on a store where the token's session is stored inactive, the handler
    returns that answer and the store exactly as it was. *)
Theorem scan_closed_session (studentUserId : ObjectId) (qrPayload : string) :
  (forall rely w tr w' resp now v id s rest,
     runs rely (scan studentUserId qrPayload) w tr w' resp ->
     tr = EvDateNow now :: EvSessionFindById v (Return (Some (id, s))) :: rest ->
     valid (validateQRPayload now qrPayload) = true ->
     AttendanceSession.active s = false ->
     resp = failure 400 "This attendance session has ended."
     /\ rest = []
     /\ Forall (fun e => is_write e = false) tr)
  /\ (forall w p id s,
       validateQRPayload (clock w) qrPayload = accepted p ->
       castObjectId (Payload.sessionId p) = Some id ->
       sessions w !! id = Some s ->
       AttendanceSession.active s = false ->
       run (scan studentUserId qrPayload) w
       = (failure 400 "This attendance session has ended.", w)).
Proof.
  split.
  - intros rely w tr w' resp now v id s rest Hrun Htr Hvalid Hclosed.
    unfold scan in Hrun. unroll Hrun.
    run_step Hrun. rewrite Hvalid in Hrun. unroll Hrun.
    run_step Hrun; [| run_step Hrun ].
    run_step Hrun. unroll Hrun. rewrite Hclosed in Hrun. unroll Hrun.
    run_step Hrun. repeat split; repeat constructor.
  - intros w p id s Hvalid Hcast Hs Hclosed. unfold scan, route.
    cbn [run proc_bind mbind mret async_bind async_ret await await_exc sync respond
         exec_op].
    rewrite Hvalid. cbn [valid payload accepted negb].
    cbn [run proc_bind mbind mret async_bind async_ret await await_exc sync respond
         exec_op].
    rewrite Hcast, Hs. cbn [fmap option_fmap option_map].
    cbn [run proc_bind mbind mret async_bind async_ret await await_exc sync respond
         exec_op].
    rewrite Hclosed. reflexivity.
Qed.

End Pipeline.

(* ===================================================================== *)
(** ** Handlers that only read; handlers that never activate a session *)
(* ===================================================================== *)




Lemma latest_active_alter f id l :
  (forall s, AttendanceSession.teacherId (f s) = AttendanceSession.teacherId s) ->
  (forall s, AttendanceSession.active (f s) = true -> AttendanceSession.active s = true) ->
  latest_active l -> latest_active (alter f id l).
Proof.
  intros Hteacher Hactive Hl i j si sj Hi Hj Hsame Hact.
  assert (Hold : forall k sk, alter f id l !! k = Some sk ->
            exists s, l !! k = Some s
              /\ AttendanceSession.teacherId sk = AttendanceSession.teacherId s
              /\ (AttendanceSession.active sk = true -> AttendanceSession.active s = true)).
  { intros k sk. rewrite list_lookup_alter. case_decide as Hid.
    - subst k. destruct (l !! id) as [s|] eqn:Hk; cbn; [|done]. intros [= <-].
      exists s. eauto.
    - intros Hk. exists sk. eauto. }
  destruct (Hold _ _ Hi) as (si0 & Hi0 & Hti & Hai).
  destruct (Hold _ _ Hj) as (sj0 & Hj0 & Htj & _).
  eapply (Hl i j si0 sj0); [done | done | congruence | by apply Hai].
Qed.

Section Handlers.
Context `{Platform}.

Lemma runs_events (Q : Event -> Prop) rely {R} (p : Proc R) w tr w' r :
  proc_events Q p -> runs rely p w tr w' r -> Forall Q tr.
Proof.
  revert w tr. induction p as [r0|A op k IH]; intros w tr Hp Hrun.
  - destruct Hrun as (-> & _). constructor.
  - destruct Hrun as (w0 & tr' & _ & -> & Hrun).
    destruct (Hp (exec_op op w0).1) as [Hq Hk].
    constructor; [exact Hq | by eapply IH].
Qed.

Lemma run_events (Q : Event -> Prop) (I : World -> Prop) {R} (p : Proc R) w :
  (forall A (op : Op A) w0,
     Q (event_of op (exec_op op w0).1) -> I w0 -> I (exec_op op w0).2) ->
  proc_events Q p -> I w -> I (run p w).2.
Proof.
  intros Hop. revert w. induction p as [r0|A op k IH]; intros w Hp Hw; [exact Hw|].
  cbn [run]. destruct (exec_op op w) as [a w1] eqn:Hexec.
  destruct (Hp a) as [Hq Hk]. apply IH; [exact Hk|].
  specialize (Hop A op w). rewrite Hexec in Hop. by apply Hop.
Qed.

Lemma exec_op_read {A} (op : Op A) w :
  is_write (event_of op (exec_op op w).1) = false -> (exec_op op w).2 = w.
Proof.
  destruct op; cbn [exec_op event_of]; try done.
  - by destruct (castObjectId id).
  - by destruct (AttendanceSession_validate _).
  - destruct (negb _); [done|]. by destruct (duplicate_key _ _).
Qed.


Ltac events :=
  repeat first
    [ progress cbn [proc_bind mbind mret async_bind async_ret await await_exc sync
                    respond route negb proc_events event_of]
    | match goal with
      | |- True => exact I
      | |- forall _, _ /\ _ => intros ?
      | |- _ /\ _ => split
      | |- proc_events _ (proc_bind (match ?x with _ => _ end) _) => destruct x
      | |- proc_events _ (proc_bind (if ?c then _ else _) _) => destruct c
      | |- proc_events _ (proc_bind (let '(_, _) := ?x in _) _) => destruct x
      | |- proc_events _ (match ?x with _ => _ end) => destruct x
      | |- proc_events _ (if ?c then _ else _) => destruct c
      end ].

Lemma qr_current_reads teacherId random16 :
  proc_events (fun e => is_write e = false) (qr_current teacherId random16).
Proof. unfold qr_current. events; reflexivity. Qed.




Lemma find_active_Some teacherId l id s :
  find_active teacherId l = Some (id, s) ->
  l !! id = Some s /\ AttendanceSession.teacherId s = teacherId
  /\ AttendanceSession.active s = true.
Proof. unfold find_active. intros Hfind. apply list_find_Some in Hfind. tauto. Qed.

Lemma find_active_None teacherId l i s :
  find_active teacherId l = None ->
  l !! i = Some s -> AttendanceSession.teacherId s = teacherId ->
  AttendanceSession.active s = false.
Proof.
  unfold find_active. intros Hfind Hi Ht. apply list_find_None in Hfind.
  rewrite Forall_lookup in Hfind. specialize (Hfind i s Hi).
  destruct (AttendanceSession.active s); [|reflexivity]. by destruct Hfind.
Qed.

Lemma latest_active_single l : latest_active l -> single_active l.
Proof.
  intros Hl i j si sj Hi Hj Hsame Hai Haj.
  pose proof (Hl i j si sj Hi Hj Hsame Hai).
  pose proof (Hl j i sj si Hj Hi (eq_sym Hsame) Haj). lia.
Qed.

Lemma end_session_spec now s :
  end_session now s
  = AttendanceSession.mk (AttendanceSession.subjectCode s) (AttendanceSession.teacherId s)
      (AttendanceSession.date s) (AttendanceSession.startTime s) (Some now) false
      (AttendanceSession.usedNonces s).
Proof. reflexivity. Qed.

(** After [close_active], the teacher has no active session. *)
Lemma close_active_none teacherId now l i s :
  latest_active l ->
  close_active teacherId now l !! i = Some s ->
  AttendanceSession.teacherId s = teacherId ->
  AttendanceSession.active s = false.
Proof.
  intros Hl. unfold close_active.
  destruct (find_active teacherId l) as [[id s0]|] eqn:Hfind.
  - apply find_active_Some in Hfind as (Hid & Ht0 & Ha0).
    rewrite list_lookup_alter. case_decide as Heq.
    + subst i. rewrite Hid. cbn. by intros [= <-].
    + intros Hi Ht. destruct (AttendanceSession.active s) eqn:Ha; [|reflexivity].
      exfalso. apply Heq. symmetry.
      eapply (latest_active_single l Hl i id s s0); eauto. congruence.
  - intros Hi Ht. by eapply find_active_None.
Qed.

Lemma close_active_latest teacherId now l :
  latest_active l -> latest_active (close_active teacherId now l).
Proof.
  intros Hl. unfold close_active.
  destruct (find_active teacherId l) as [[id s0]|]; [|exact Hl].
  apply latest_active_alter; [done | done | exact Hl].
Qed.

Lemma close_active_length teacherId now l :
  length (close_active teacherId now l) = length l.
Proof.
  unfold close_active. destruct (find_active teacherId l) as [[id s0]|]; [|done].
  apply length_alter.
Qed.

(** Appending an active session for a teacher who has none keeps every
    active session the latest of its teacher. *)
Lemma latest_active_snoc l new :
  latest_active l ->
  (forall i s, l !! i = Some s ->
     AttendanceSession.teacherId s = AttendanceSession.teacherId new ->
     AttendanceSession.active s = false) ->
  latest_active (l ++ [new]).
Proof.
  intros Hl Hnone i j si sj Hi Hj Hsame Hact.
  apply lookup_snoc_Some in Hi as [[Hilt Hi]|[-> ->]];
    apply lookup_snoc_Some in Hj as [[Hjlt Hj]|[-> ->]].
  - by eapply Hl.
  - rewrite (Hnone i si Hi Hsame) in Hact. discriminate.
  - lia.
  - lia.
Qed.

(** What [start] does to the stored sessions. *)
Lemma start_sessions teacherId subjectCode w :
  let resp := (run (start teacherId subjectCode) w).1 in
  let w' := (run (start teacherId subjectCode) w).2 in
  let closed := close_active teacherId (clock w) (sessions w) in
  (status resp = 403%nat /\ sessions w' = sessions w)
  \/ (status resp = 500%nat /\ sessions w' = closed)
  \/ (exists new,
        sessions w' = closed ++ [new]
        /\ AttendanceSession.teacherId new = teacherId
        /\ AttendanceSession.active new = true
        /\ AttendanceSession.usedNonces new = []
        /\ AttendanceSession.endTime new = None
        /\ resp = mkResponse 201 true (Some "Attendance session started.")
                   (StartedSession (length (sessions w))
                      (AttendanceSession.subjectCode new) (AttendanceSession.date new)
                      (AttendanceSession.startTime new) true)).
Proof.
  cbv zeta. unfold start, route, close_active.
  cbn [run proc_bind mbind mret async_bind async_ret await await_exc sync respond
       exec_op fst snd].
  destruct (negb _).
  { left. cbn. done. }
  right.
  cbn [run proc_bind mbind mret async_bind async_ret await await_exc sync respond
       exec_op fst snd].
  destruct (find_active teacherId (sessions w)) as [[id s0]|];
    cbn [run proc_bind mbind mret async_bind async_ret await await_exc sync respond
         exec_op fst snd set_sessions sessions clock];
    destruct (AttendanceSession_validate _);
    cbn [run proc_bind fst snd sessions set_sessions status failure];
    first [ left; done
          | right; eexists; repeat split; try reflexivity;
            cbn; rewrite ?length_alter; reflexivity ].
Qed.

Lemma start_latest_active teacherId subjectCode w :
  latest_active (sessions w) ->
  latest_active (sessions (run (start teacherId subjectCode) w).2).
Proof.
  intros Hl.
  destruct (start_sessions teacherId subjectCode w)
    as [[_ ->]|[[_ ->]|(new & -> & Ht & _)]].
  - exact Hl.
  - by apply close_active_latest.
  - apply latest_active_snoc; [by apply close_active_latest|].
    intros i s Hi Hs. eapply close_active_none; eauto. congruence.
Qed.


End Handlers.

(* ===================================================================== *)
(** ** Session lifecycle and credential minting *)
(* ===================================================================== *)

Section Lifecycle.
Context `{Platform}.

Lemma runs_interleave rely (env : nat -> World -> World) {R} (p : Proc R) n w :
  (forall n w, rtc rely w (env n w)) ->
  runs rely p w (interleave env n p w).1.1 (interleave env n p w).1.2
       (interleave env n p w).2.
Proof.
  intros Henv. revert n w. induction p as [r|A op k IH]; intros n w.
  - cbn. done.
  - cbn [interleave runs]. exists (env n w).
    destruct (exec_op op (env n w)) as [a w1] eqn:Hexec.
    specialize (IH a (S n) w1).
    destruct (interleave env (S n) (k a) w1) as [[tr w'] r]. cbn in *.
    exists tr. cbn. done.
Qed.


Lemma run_reads {R} (p : Proc R) w :
  proc_events (fun e => is_write e = false) p -> (run p w).2 = w.
Proof.
  intros Hp.
  apply (run_events (fun e => is_write e = false) (fun w0 => w0 = w)); [|exact Hp|done].
  intros A op w0 Hread ->. by apply exec_op_read.
Qed.







(** C10. The mint handler writes nothing: run to completion it leaves
    the whole store -- every session's [usedNonces], [active] and
    [endTime] included -- exactly as it found it, and in every run, under
    any interference, none of its operations is a write. The nonce of the
    minted credential is therefore not in any ledger on account of the
    mint, and the trimmed copy of [usedNonces] is dropped with the
    request. *)
Theorem mint_writes_nothing (teacherId : ObjectId) (random16 : list byte) :
  (forall w, (run (qr_current teacherId random16) w).2 = w)
  /\ (forall rely w tr w' resp,
        runs rely (qr_current teacherId random16) w tr w' resp ->
        Forall (fun e => is_write e = false) tr).
Proof.
  split.
  - intros w. apply run_reads, qr_current_reads.
  - intros rely w tr w' resp. apply runs_events, qr_current_reads.
Qed.

End Lifecycle.

(** C7, as the code has it. The compaction of the mint handler goes by
    position, not by age: a ledger of at most 100 nonces is left as it
    is, and of a longer one exactly the 50 most recently appended nonces
    are kept, in order, the older ones being dropped whatever their age. *)
Theorem trim_keeps_latest (usedNonces : list string) :
  ((length usedNonces <= 100)%nat -> trimUsedNonces usedNonces = usedNonces)
  /\ ((100 < length usedNonces)%nat ->
      exists dropped,
        usedNonces = dropped ++ trimUsedNonces usedNonces
        /\ length (trimUsedNonces usedNonces) = 50%nat
        /\ length dropped = (length usedNonces - 50)%nat).
Proof.
  unfold trimUsedNonces, slice_last. split; intros Hlen.
  - destruct (Nat.ltb_spec 100 (length usedNonces)); [lia | reflexivity].
  - destruct (Nat.ltb_spec 100 (length usedNonces)); [|lia].
    exists (take (length usedNonces - 50) usedNonces).
    rewrite take_drop, length_drop, length_take. repeat split; lia.
Qed.

(* ===================================================================== *)
(** ** The example, evaluated *)
(* ===================================================================== *)

Section Evaluated.
#[local] Existing Instance Example.platform.

Import Example.

Lemma token_signed :
  signed_token token (payload_object 1 "0" "7" "CH401" 5 (hex_encode random16)).
Proof. exact (generated_signed random16 5000 "0" "7" "CH401"). Qed.

Lemma token_complete :
  complete_payload (payload_object 1 "0" "7" "CH401" 5 (hex_encode random16))
    token_payload.
Proof. apply get_payload_object. repeat split; discriminate. Qed.

(** The token, issued at second 5 with a validity of 3 seconds, is
    refused at second 4 (future), accepted at second 8 and refused at
    second 9 (expired). *)
Lemma freshness_window_witness :
  validateQRPayload 4000 token = invalid "Invalid QR data: future timestamp"
  /\ validateQRPayload 8000 token = accepted token_payload
  /\ validateQRPayload 9000 token = invalid "QR code has expired".
Proof.
  split; [|split].
  - apply (freshness_window token _ token_payload 5 4000 token_signed token_complete
             eq_refl).
    reflexivity.
  - apply (freshness_window token _ token_payload 5 8000 token_signed token_complete
             eq_refl).
    vm_compute. split; discriminate.
  - apply (freshness_window token _ token_payload 5 9000 token_signed token_complete
             eq_refl).
    + vm_compute. discriminate.
    + vm_compute. discriminate.
Defined.

Lemma validate_generate_roundtrip_witness :
  validateQRPayload 7000 token = accepted token_payload.
Proof.
  apply (validate_generate_roundtrip random16 5000 7000 "0" "7" "CH401").
  - reflexivity.
  - discriminate.
  - discriminate.
  - discriminate.
  - vm_compute. discriminate.
  - vm_compute. split; discriminate.
Defined.

(** Student 20 has redeemed the token; a second redemption of the same
    token is refused as a replay. *)
Lemma replay_rejected_witness :
  (interleave alone 0 (scan 21%nat token) redeemed).2
  = failure 400 "This QR code has already been used. Please scan the latest QR code.".
Proof.
  pose proof (runs_interleave env_step alone (scan 21%nat token) 0 redeemed
                (fun _ w => rtc_refl _ w)) as Hrun.
  destruct (replay_rejected 21%nat token (hex_encode random16) redeemed redeemed
              (interleave alone 0 (scan 21%nat token) redeemed).1.2 0%nat
              (AttendanceSession.mk "CH401" 7%nat "0" 5000 None true
                 [hex_encode random16])
              (interleave alone 0 (scan 21%nat token) redeemed).1.1
              (tail (interleave alone 0 (scan 21%nat token) redeemed).1.1)
              (interleave alone 0 (scan 21%nat token) redeemed).2
              5000 token_payload)
    as (s & Hrest & _ & Hresp & _).
  - vm_compute. reflexivity.
  - apply list_elem_of_here.
  - apply rtc_refl.
  - exact Hrun.
  - vm_compute. reflexivity.
  - vm_compute. reflexivity.
  - vm_compute. reflexivity.
  - reflexivity.
  - rewrite Hresp. vm_compute in Hrest. injection Hrest as <-. reflexivity.
Defined.

(** The teacher has stopped the session; the token minted before the
    stop, redeemed after it and still fresh, is refused because the
    session has ended. *)
Lemma scan_closed_session_witness :
  run (scan 20%nat token) stopped
  = (failure 400 "This attendance session has ended.", stopped).
Proof.
  apply (proj2 (scan_closed_session 20%nat token) stopped token_payload 0%nat
           (AttendanceSession.mk "CH401" 7%nat "0" 5000 (Some 5000) false [])).
  - vm_compute. reflexivity.
  - vm_compute. reflexivity.
  - vm_compute. reflexivity.
  - reflexivity.
Defined.


Lemma race_allowed n w : rtc env_step w (race n w).
Proof.
  unfold race. destruct (Nat.eqb n 7); [|apply rtc_refl].
  apply rtc_once, env_op.
Qed.

(** Two requests of student 20 race: the pre-check of this one finds no
    record, the other request writes its record, and the insert of this
    one is rejected by the unique index; the answer is the duplicate
    response. *)
Lemma attendance_unique_per_day_witness :
  (interleave race 0 (scan 20%nat token) started).2
  = failure 400 "Attendance already marked for this subject today.".
Proof.
  pose proof (runs_interleave env_step race (scan 20%nat token) 0 started
                race_allowed) as Hrun.
  refine (proj1 (proj1 (proj2 (proj2 attendance_unique_per_day)) env_step 20%nat token started
                   _ _ _ _ _ Hrun _ _)).
  - apply list_elem_of_lookup. exists 7%nat.
    etrans; [vm_compute; reflexivity|]. reflexivity.
  - reflexivity.
Defined.


(** C7 refuted as stated: a ledger of 101 nonces all accepted at the
    instant of compaction (age 0, within the validity of 3 seconds) loses
    its 51 oldest entries. *)
Lemma compaction_drops_fresh_nonce :
  ¬ compaction_keeps_fresh (fun _ => 0) 0 full_ledger.
Proof.
  intros Hkeeps. specialize (Hkeeps (nonce_of 0)).
  assert (Hin : nonce_of 0 ∈ full_ledger) by apply list_elem_of_here.
  assert (Hage : 0 - 0 <= QR_TOKEN_VALIDITY) by (vm_compute; discriminate).
  specialize (Hkeeps Hin Hage).
  apply (bool_decide_eq_true_2 _) in Hkeeps. vm_compute in Hkeeps.
  discriminate Hkeeps.
Qed.

(** An envelope with a two-byte signature is answered with the generic
    failure. *)
Lemma validateQRPayload_total_witness :
  validateQRPayload 5000 short_signature
  = invalid "QR validation failed: Input buffers must have the same byte length".
Proof.
  refine (proj1 (proj2 (proj2 (validateQRPayload_total 5000 short_signature))
                   (utf8_encode (JSON_stringify (envelope_object "{}" "00ff")))
                   (envelope_object "{}" "00ff") "{}" "00ff" _ _ _ _ _ _ _)).
  - vm_compute. reflexivity.
  - vm_compute. reflexivity.
  - reflexivity.
  - discriminate.
  - reflexivity.
  - discriminate.
  - vm_compute. discriminate.
Defined.





(** Minting on the started session leaves the store as it is. *)
Lemma mint_writes_nothing_witness :
  (run (qr_current 7%nat random16) started).2 = started
  /\ Forall (fun e => is_write e = false)
       (interleave alone 0 (qr_current 7%nat random16) started).1.1.
Proof.
  split.
  - apply (proj1 (mint_writes_nothing 7%nat random16)).
  - eapply (proj2 (mint_writes_nothing 7%nat random16) (fun _ _ => False) started).
    apply runs_interleave. intros n w. apply rtc_refl.
Defined.

(** The ledger of 101 nonces is cut to its last 50. *)
Lemma trim_keeps_latest_witness :
  length (trimUsedNonces full_ledger) = 50%nat.
Proof.
  destruct (proj2 (trim_keeps_latest full_ledger)) as (dropped & _ & Hlen & _).
  - vm_compute. lia.
  - exact Hlen.
Defined.

End Evaluated.
(* ===================================================================== *)
(** ** The validator: authenticity and time *)
(* ===================================================================== *)

Section ValidatorMore.
Context `{Platform}.

Lemma orelse_false (a b : Exc bool) :
  orelse a b = Return false -> a = Return false /\ b = Return false.
Proof. destruct a as [[|]|e]; cbn; [discriminate | done | discriminate]. Qed.

Lemma missing_false o key :
  missing o key = Return false -> exists v, get o key = Return v /\ truthy v = true.
Proof.
  unfold missing. destruct (get o key) as [v|e]; cbn; [|discriminate].
  intros [= Hv]. exists v. split; [reflexivity|]. by apply negb_false_iff.
Qed.

Lemma timingSafeEqual_true a b : timingSafeEqual a b = Return true -> a = b.
Proof.
  unfold timingSafeEqual. destruct (Nat.eqb _ _); [|discriminate].
  intros [= Heq]. by apply bool_decide_eq_true in Heq.
Qed.

(** What the validator's verdict is made of: either the credential is
    refused before the freshness test, with a result that does not depend
    on the instant of validation, or it reaches the freshness test with
    its signature verified and its six fields present, and the instant
    decides between the two temporal errors and acceptance. *)
Lemma validateQRPayload_cases (qrData : string) :
  (exists msg, forall nowMs, validateQRPayload nowMs qrData = invalid msg)
  \/ (exists inflated signedData payloadStr s payload p,
        inflateSync (base64_decode qrData) = Return inflated
        /\ JSON_parse (utf8_decode inflated) = Return signedData
        /\ get signedData "p" = Return (Val (JStr payloadStr))
        /\ payloadStr <> ""
        /\ get signedData "s" = Return s
        /\ truthy s = true
        /\ Buffer_from_hex s = Return (hmac_sha256 QR_SECRET payloadStr)
        /\ JSON_parse payloadStr = Return payload
        /\ complete_payload payload p
        /\ forall nowMs,
             validateQRPayload nowMs qrData =
               let age := num_sub (Fin (nowMs / 1000)) (ToNumber (Payload.timestamp p)) in
               if num_ltb age (Fin 0) then invalid "Invalid QR data: future timestamp"
               else if num_gtb age (Fin QR_TOKEN_VALIDITY) then invalid "QR code has expired"
               else accepted p).
Proof.
  unfold validateQRPayload, validateQRPayload_try.
  destruct (inflateSync (base64_decode qrData)) as [inflated|e] eqn:Hinf; [|left; eauto].
  destruct (JSON_parse (utf8_decode inflated)) as [signedData|e] eqn:Henv; [|left; eauto].
  destruct (orelse (missing signedData "p") (missing signedData "s"))
    as [[|]|e] eqn:Habsent; cbn [mbind exc_bind]; [left; eauto | | left; eauto].
  apply orelse_false in Habsent as [Hp Hs].
  apply missing_false in Hp as (p & Hp & Htp).
  apply missing_false in Hs as (s & Hs & Hts).
  rewrite Hp, Hs. cbn [mbind exc_bind].
  destruct (hmac_update p) as [payloadStr|e] eqn:Hupd; cbn [mbind exc_bind];
    [|left; eauto].
  assert (p = Val (JStr payloadStr)) as ->.
  { destruct p as [| |[]]; cbn in Hupd; congruence. }
  destruct (Buffer_from_hex s) as [given|e] eqn:Hgiven; cbn [mbind exc_bind];
    [|left; eauto].
  destruct (timingSafeEqual given _) as [[|]|e] eqn:Hcmp; cbn [mbind exc_bind negb];
    [|left; eauto|left; eauto].
  apply timingSafeEqual_true in Hcmp. rewrite hex_decode_encode in Hcmp. subst given.
  destruct (JSON_parse payloadStr) as [payload|e] eqn:Hparse; [|left; eauto].
  destruct (orelse (missing payload "v") _) as [[|]|e] eqn:Hinc; cbn [mbind exc_bind];
    [left; eauto | | left; eauto].
  repeat match goal with
         | Hc : orelse _ _ = Return false |- _ => apply orelse_false in Hc as [? Hc]
         end.
  repeat match goal with
         | Hc : missing _ _ = Return false |- _ =>
             apply missing_false in Hc as (? & ? & ?)
         end.
  right.
  repeat match goal with
         | Hg : get payload _ = Return _ |- _ => rewrite Hg; revert Hg
         end.
  intros. cbn [mbind exc_bind].
  eexists inflated, signedData, payloadStr, s, payload, (Payload.mk _ _ _ _ _ _).
  repeat split; try eassumption; try reflexivity.
  - cbn in Htp. by apply negb_true_iff, String.eqb_neq in Htp.
  - intros nowMs. cbv zeta. cbn [Payload.timestamp].
    repeat match goal with |- context [if ?c then _ else _] => destruct c end;
      reflexivity.
Qed.

Lemma div_1000_mono (a b : Z) : a <= b -> a / 1000 <= b / 1000.
Proof. intros Hab. apply Z.div_le_mono; lia. Qed.

(** X1. A credential is accepted only if it is authentic and complete: its
    envelope decompresses and parses, the payload text [p] is a non-empty
    string, the signature bytes carried in [s] are exactly the
    HMAC-SHA256 of that text under the server secret, the text parses to
    a payload whose six fields are all present, and at the instant of
    validation its age is neither negative nor above the validity. The
    payload handed back consists of those six fields. *)
Theorem accepted_only_if_signed (nowMs : Z) (qrData : string) :
  valid (validateQRPayload nowMs qrData) = true ->
  exists inflated signedData payloadStr s payload p,
    inflateSync (base64_decode qrData) = Return inflated
    /\ JSON_parse (utf8_decode inflated) = Return signedData
    /\ get signedData "p" = Return (Val (JStr payloadStr))
    /\ payloadStr <> ""
    /\ get signedData "s" = Return s
    /\ Buffer_from_hex s = Return (hmac_sha256 QR_SECRET payloadStr)
    /\ JSON_parse payloadStr = Return payload
    /\ complete_payload payload p
    /\ validateQRPayload nowMs qrData = accepted p
    /\ num_ltb (num_sub (Fin (nowMs / 1000)) (ToNumber (Payload.timestamp p))) (Fin 0)
       = false
    /\ num_gtb (num_sub (Fin (nowMs / 1000)) (ToNumber (Payload.timestamp p)))
         (Fin QR_TOKEN_VALIDITY) = false.
Proof.
  intros Hvalid.
  destruct (validateQRPayload_cases qrData)
    as [[msg Hr]|(inflated & signedData & payloadStr & s & payload & p & Hinf & Henv
                  & Hp & Hne & Hs & _ & Hsig & Hparse & Hcomplete & Hr)].
  { rewrite Hr in Hvalid. discriminate. }
  exists inflated, signedData, payloadStr, s, payload, p.
  rewrite Hr in Hvalid |- *. cbv zeta in *.
  destruct (num_ltb _ (Fin 0)); [discriminate|].
  destruct (num_gtb _ _); [discriminate|]. done.
Qed.

(** X2. A forged signature of the right length is refused as tampered: when
    the envelope decodes to a non-empty payload text and a non-empty hex
    signature of 32 bytes that differs from the HMAC-SHA256 of the text
    under the server secret, the validator answers "signature mismatch
    (tampered)" at every instant, whatever the payload says. *)
Theorem tampered_signature_rejected (nowMs : Z) (qrData : string)
    (inflated : list byte) (signedData : JSON) (payloadStr signatureHex : string) :
  inflateSync (base64_decode qrData) = Return inflated ->
  JSON_parse (utf8_decode inflated) = Return signedData ->
  get signedData "p" = Return (Val (JStr payloadStr)) ->
  payloadStr <> "" ->
  get signedData "s" = Return (Val (JStr signatureHex)) ->
  signatureHex <> "" ->
  length (hex_decode signatureHex) = 32%nat ->
  hex_decode signatureHex <> hmac_sha256 QR_SECRET payloadStr ->
  validateQRPayload nowMs qrData
  = invalid "Invalid QR data: signature mismatch (tampered)".
Proof.
  intros Hinf Hparse Hp Hne Hs Hsne Hlen Hdiff.
  unfold validateQRPayload, validateQRPayload_try.
  rewrite Hinf, Hparse. unfold missing, orelse.
  pose proof (string_eqb_empty _ Hne) as Hne'.
  pose proof (string_eqb_empty _ Hsne) as Hsne'.
  assert (Hcmp : timingSafeEqual (hex_decode signatureHex)
            (hex_decode (hex_encode (hmac_sha256 QR_SECRET payloadStr)))
          = Return false).
  { rewrite hex_decode_encode. unfold timingSafeEqual.
    rewrite hmac_sha256_length, Hlen. cbn [Nat.eqb].
    rewrite bool_decide_eq_false_2 by exact Hdiff. reflexivity. }
  repeat (first [ rewrite Hp | rewrite Hs | rewrite Hne' | rewrite Hsne'
                | rewrite Hcmp ];
          cbn [mbind mret exc_bind exc_ret negb truthy hmac_update
               Buffer_from_hex]).
  reflexivity.
Qed.

(** X3. A refusal for any reason other than the two freshness errors does not
    depend on the clock: the same credential gets the same result at
    every other instant. *)
Theorem structural_rejection_time_independent (nowMs nowMs' : Z) (qrData msg : string) :
  validateQRPayload nowMs qrData = invalid msg ->
  msg <> "Invalid QR data: future timestamp" ->
  msg <> "QR code has expired" ->
  validateQRPayload nowMs' qrData = invalid msg.
Proof.
  intros Hr Hfuture Hexpired.
  destruct (validateQRPayload_cases qrData)
    as [[msg' Hall]|(_ & _ & _ & _ & _ & p & _ & _ & _ & _ & _ & _ & _ & _ & _ & Hall)].
  - rewrite Hall in Hr |- *. exact Hr.
  - rewrite Hall in Hr. cbv zeta in Hr. exfalso.
    destruct (num_ltb _ (Fin 0)); [by injection Hr as <-|].
    destruct (num_gtb _ _); [by injection Hr as <-|]. discriminate.
Qed.

(** X4. The verdict moves with the clock in one direction only. A credential
    found expired stays expired at every later instant; one refused as
    coming from the future was refused so at every earlier instant; and
    one accepted at two instants is accepted, with the same payload, at
    every instant between them. *)
Theorem verdict_monotone_in_time (qrData : string) (t1 t2 t3 : Z) :
  t1 <= t2 -> t2 <= t3 ->
  (validateQRPayload t1 qrData = invalid "QR code has expired" ->
   validateQRPayload t2 qrData = invalid "QR code has expired")
  /\ (validateQRPayload t2 qrData = invalid "Invalid QR data: future timestamp" ->
      validateQRPayload t1 qrData = invalid "Invalid QR data: future timestamp")
  /\ (forall p, validateQRPayload t1 qrData = accepted p ->
        valid (validateQRPayload t3 qrData) = true ->
        validateQRPayload t2 qrData = accepted p).
Proof.
  intros H12 H23.
  pose proof (div_1000_mono _ _ H12) as Hd12.
  pose proof (div_1000_mono _ _ H23) as Hd23.
  destruct (validateQRPayload_cases qrData)
    as [[msg' Hall]|(_ & _ & _ & _ & _ & p & _ & _ & _ & _ & _ & _ & _ & _ & _ & Hall)].
  { rewrite !Hall. split; [done|]. split; [done|]. intros p _ Hv. discriminate Hv. }
  rewrite !Hall. cbv zeta.
  destruct (ToNumber (Payload.timestamp p)) as [|ts]; cbn [num_sub num_ltb num_gtb].
  { split; [discriminate|]. split; [discriminate|]. done. }
  repeat match goal with
         | |- context [?a <? ?b] => destruct (Z.ltb_spec a b)
         end; try lia; repeat split; try discriminate; try done.
Qed.

(** X5. The nonce minted with a credential is the lower-case hexadecimal
    text of the random bytes: two digits per byte (32 characters for the
    16 bytes the generator draws), each a digit or a letter from a to f,
    and it decodes back to the same bytes, so two credentials carry the
    same nonce only if the same bytes were drawn. *)
Theorem generated_nonce_faithful (random16 : list byte) (nowMs : Z)
    (sessionId teacherId subjectCode : string) :
  let nonce := (generateQRPayload random16 nowMs sessionId teacherId subjectCode).2 in
  String.length nonce = (2 * length random16)%nat
  /\ hex_decode nonce = random16
  /\ Forall (fun c => c ∈ list_ascii_of_string "0123456789abcdef")
            (list_ascii_of_string nonce)
  /\ forall random16' nowMs' sessionId' teacherId' subjectCode',
       (generateQRPayload random16' nowMs' sessionId' teacherId' subjectCode').2 = nonce ->
       random16' = random16.
Proof.
  cbv zeta. unfold generateQRPayload. cbn [snd].
  split; [|split; [apply hex_decode_encode|split]].
  - induction random16 as [|b bs IH]; [reflexivity|].
    cbn [hex_encode length]. unfold hex_of_byte. rewrite !append_cons. cbn [String.length].
    change (String.length ("" +:+ hex_encode bs)) with (String.length (hex_encode bs)).
    rewrite IH. lia.
  - induction random16 as [|b bs IH]; [constructor|].
    cbn [hex_encode]. unfold hex_of_byte. rewrite !append_cons.
    change ("" +:+ hex_encode bs) with (hex_encode bs).
    cbn [list_ascii_of_string].
    assert (Hnib : forall n, (n < 16)%N ->
              nibble_char n ∈ list_ascii_of_string "0123456789abcdef").
    { intros n Hn. rewrite <- (N2Nat.id n).
      assert (Hm : (N.to_nat n < 16)%nat) by lia.
      revert Hm. generalize (N.to_nat n). intros m Hm.
      do 16 (destruct m as [|m];
             [apply (bool_decide_unpack _); vm_compute; exact I|]).
      lia. }
    pose proof (Byte.to_N_bounded b) as Hb.
    constructor; [|constructor; [|exact IH]]; apply Hnib.
    + apply N.Div0.div_lt_upper_bound. lia.
    + apply N.mod_lt. lia.
  - intros r' _ _ _ _ Heq.
    rewrite <- (hex_decode_encode r'), Heq. apply hex_decode_encode.
Qed.

End ValidatorMore.
(* ===================================================================== *)
(** ** Subject codes: trimming and upper case *)
(* ===================================================================== *)

Section SubjectCodes.
Context `{Platform}.

(** The schema setter changes nothing on a code it has already
    normalised, and upper case before the setter is absorbed by it. *)
Lemma set_subjectCode_idem s : set_subjectCode (set_subjectCode s) = set_subjectCode s.
Proof.
  unfold set_subjectCode. by rewrite trim_toUpperCase, toUpperCase_twice, trim_twice.
Qed.

Lemma set_subjectCode_upper s : set_subjectCode (toUpperCase s) = set_subjectCode s.
Proof. unfold set_subjectCode. by rewrite trim_toUpperCase, toUpperCase_twice. Qed.



(** X6. What [validateAttendanceStart] lets through. The request is refused
    with status 400 exactly when the subject code is absent, empty or all
    white space. Otherwise the handler receives the code trimmed and in
    upper case: it is not empty, upper-casing or trimming it again changes
    nothing, and the schema setter of the models stores it as it is. *)
Theorem validateAttendanceStart_sanitises (body : option string) :
  match validateAttendanceStart body with
  | inl rejected =>
      trim (default "" body) = ""
      /\ rejected = mkRejected 400 "Validation failed"
                      [("subjectCode", "Subject code is required")]
  | inr code =>
      trim (default "" body) <> ""
      /\ code = toUpperCase (trim (default "" body))
      /\ code <> ""
      /\ toUpperCase code = code
      /\ trim code = code
      /\ set_subjectCode code = code
  end.
Proof.
  unfold validateAttendanceStart. cbv zeta.
  destruct (String.eqb_spec (trim (default "" body)) "") as [He|Hne]; [done|].
  split; [exact Hne|]. split; [reflexivity|].
  split.
  { intros Hempty. by apply toUpperCase_not_empty in Hempty. }
  split; [apply toUpperCase_twice|].
  split.
  - by rewrite trim_toUpperCase, trim_twice.
  - unfold set_subjectCode. by rewrite trim_toUpperCase, trim_twice, toUpperCase_twice.
Qed.

End SubjectCodes.
(* ===================================================================== *)
(** ** Starting, stopping and minting, run to completion *)
(* ===================================================================== *)

Ltac run_simpl :=
  cbn [run proc_bind mbind mret async_bind async_ret await await_exc sync respond
       route negb exec_op fst snd valid payload accepted strict_eq_string
       string_receiver].

Section SessionRoutes.
Context `{Platform}.

Lemma set_sessions_same w : set_sessions (sessions w) w = w.
Proof. by destruct w. Qed.

Lemma find_active_None_intro teacherId l :
  (forall i s, l !! i = Some s -> AttendanceSession.teacherId s = teacherId ->
     AttendanceSession.active s = false) ->
  find_active teacherId l = None.
Proof.
  intros Hnone. unfold find_active. apply list_find_None. apply Forall_lookup.
  intros i s Hi [Ht Ha]. rewrite (Hnone i s Hi Ht) in Ha. discriminate.
Qed.

Lemma start_run_unassigned w teacherId subjectCode :
  ¬ assigned w teacherId subjectCode ->
  run (start teacherId subjectCode) w
  = (failure 403 "You are not assigned to teach this subject.", w).
Proof.
  intros Hno. unfold start. run_simpl.
  destruct (teachers w !! teacherId) as [teacher|] eqn:Ht; [|reflexivity].
  rewrite bool_decide_eq_false_2; [reflexivity|].
  intros Hin. apply Hno. by exists teacher.
Qed.

Lemma start_run_assigned w teacherId subjectCode :
  assigned w teacherId subjectCode ->
  run (start teacherId subjectCode) w
  = if AttendanceSession_validate (started_session w teacherId subjectCode)
    then (mkResponse 201 true (Some "Attendance session started.")
            (StartedSession (length (sessions w))
               (set_subjectCode (toUpperCase subjectCode)) (isoDate (clock w))
               (clock w) true),
          set_sessions (close_active teacherId (clock w) (sessions w)
                          ++ [started_session w teacherId subjectCode]) w)
    else (failure 500 "Failed to start attendance session.",
          set_sessions (close_active teacherId (clock w) (sessions w)) w).
Proof.
  intros (teacher & Ht & Hin). unfold start, close_active. run_simpl.
  rewrite Ht, bool_decide_eq_true_2 by exact Hin. run_simpl.
  change (AttendanceSession_cast
            (AttendanceSession.mk (toUpperCase subjectCode) teacherId
               (isoDate ?d) ?t None true []))
    with (AttendanceSession.mk (set_subjectCode (toUpperCase subjectCode)) teacherId
               (isoDate d) t None true []).
  destruct (find_active teacherId (sessions w)) as [[id s0]|]; run_simpl;
    cbn [clock set_sessions sessions users teachers subjects attendances];
    fold (started_session w teacherId subjectCode);
    destruct (AttendanceSession_validate _); run_simpl; cbn;
    rewrite ?length_alter; try reflexivity.
  by destruct w.
Qed.

Lemma stop_run_none w teacherId :
  find_active teacherId (sessions w) = None ->
  run (stop teacherId) w = (failure 404 "No active attendance session found.", w).
Proof. intros Hfind. unfold stop. run_simpl. by rewrite Hfind. Qed.

Lemma stop_run_found w teacherId id s :
  find_active teacherId (sessions w) = Some (id, s) ->
  run (stop teacherId) w
  = (mkResponse 200 true (Some "Attendance session stopped.")
       (StoppedSession id (AttendanceSession.subjectCode s) (AttendanceSession.date s)
          (AttendanceSession.startTime s) (Some (clock w))
          (length (filter (fun a => Attendance.sessionId a = id) (attendances w)))),
     set_sessions (alter (end_session (clock w)) id (sessions w)) w).
Proof. intros Hfind. unfold stop. run_simpl. rewrite Hfind. reflexivity. Qed.

Lemma stop_sessions w teacherId :
  sessions (run (stop teacherId) w).2 = close_active teacherId (clock w) (sessions w).
Proof.
  unfold close_active.
  destruct (find_active teacherId (sessions w)) as [[id s]|] eqn:Hfind.
  - by rewrite (stop_run_found _ _ _ _ Hfind).
  - by rewrite (stop_run_none _ _ Hfind).
Qed.

Lemma qr_current_run_none w teacherId random16 :
  find_active teacherId (sessions w) = None ->
  run (qr_current teacherId random16) w
  = (failure 404 "No active attendance session. Please start a session first.", w).
Proof. intros Hfind. unfold qr_current. run_simpl. by rewrite Hfind. Qed.

Lemma qr_current_run_found w teacherId random16 id s :
  find_active teacherId (sessions w) = Some (id, s) ->
  run (qr_current teacherId random16) w
  = (match QRCode_toDataURL
             (generateQRPayload random16 (clock w) (ObjectId_toString id)
                (ObjectId_toString teacherId) (AttendanceSession.subjectCode s)).1 with
     | Return image =>
         mkResponse 200 true None
           (QR image id (AttendanceSession.subjectCode s) (clock w))
     | Throw _ => failure 500 "Failed to generate QR code."
     end, w).
Proof.
  intros Hfind. unfold qr_current. run_simpl. rewrite Hfind. run_simpl.
  unfold generateQRPayload. cbv zeta. cbn [fst]. run_simpl.
  by destruct (QRCode_toDataURL _).
Qed.

Lemma close_active_find_None teacherId now l :
  latest_active l -> find_active teacherId (close_active teacherId now l) = None.
Proof.
  intros Hl. apply find_active_None_intro. intros i s Hi Ht.
  by eapply close_active_none.
Qed.

Lemma find_active_snoc teacherId l new :
  find_active teacherId l = None ->
  AttendanceSession.teacherId new = teacherId ->
  AttendanceSession.active new = true ->
  find_active teacherId (l ++ [new]) = Some (length l, new).
Proof.
  intros Hnone Ht Ha. unfold find_active in *. apply list_find_Some.
  split; [by rewrite lookup_app_r, Nat.sub_diag by lia|]. split; [done|].
  intros j y Hj Hlt. rewrite lookup_app_l in Hj by exact Hlt.
  apply list_find_None in Hnone. rewrite Forall_lookup in Hnone. by apply (Hnone j y).
Qed.


(** X8. After a successful start the new session is the teacher's active
    session: it is the one [findOne] returns from then on, the session
    that was active before is stored as ended at the instant of the
    request, and the mint handler run next works on the new session: it
    answers 200 with the image of a credential that names the new session
    when the QR library produces the image, and 500 when the library
    rejects; either way it leaves the store as it is. *)
Theorem start_opens_latest (teacherId : ObjectId) (subjectCode : string) (w : World)
    (random16 : list byte) :
  latest_active (sessions w) ->
  assigned w teacherId subjectCode ->
  AttendanceSession_validate (started_session w teacherId subjectCode) = true ->
  let new := started_session w teacherId subjectCode in
  let w' := (run (start teacherId subjectCode) w).2 in
  find_active teacherId (sessions w') = Some (length (sessions w), new)
  /\ (forall id s, find_active teacherId (sessions w) = Some (id, s) ->
        sessions w' !! id = Some (end_session (clock w) s))
  /\ run (qr_current teacherId random16) w'
     = (match QRCode_toDataURL
                (generateQRPayload random16 (clock w)
                   (ObjectId_toString (length (sessions w)))
                   (ObjectId_toString teacherId)
                   (set_subjectCode (toUpperCase subjectCode))).1 with
        | Return image =>
            mkResponse 200 true None
              (QR image (length (sessions w))
                 (set_subjectCode (toUpperCase subjectCode)) (clock w))
        | Throw _ => failure 500 "Failed to generate QR code."
        end, w').
Proof.
  intros Hl Ha Hv. cbv zeta.
  rewrite (start_run_assigned _ _ _ Ha), Hv. cbn [snd].
  assert (Hfind : find_active teacherId
            (sessions (set_sessions
               (close_active teacherId (clock w) (sessions w)
                ++ [started_session w teacherId subjectCode]) w))
          = Some (length (sessions w), started_session w teacherId subjectCode)).
  { cbn [sessions set_sessions].
    rewrite <- (close_active_length teacherId (clock w) (sessions w)).
    apply find_active_snoc; [by apply close_active_find_None | done | done]. }
  split; [exact Hfind|]. split.
  - intros id s Hold. cbn [sessions set_sessions]. unfold close_active. rewrite Hold.
    apply find_active_Some in Hold as (Hid & _).
    rewrite lookup_app_l
      by (rewrite length_alter; by eapply lookup_lt_Some).
    by rewrite list_lookup_alter_eq, Hid.
  - by rewrite (qr_current_run_found _ _ _ _ _ Hfind).
Qed.


(** X10. Stopping ends the teacher's session: the session [findOne] found is
    stored as inactive with the instant of the request as its end time,
    the answer counts the attendance records of that session, no record
    is touched, and from then on the teacher has no active session: a
    second stop and a request for a credential are both answered 404 and
    change nothing. *)
Theorem stop_ends_session (teacherId : ObjectId) (w : World) (id : ObjectId)
    (s : AttendanceSession.t) (random16 : list byte) :
  latest_active (sessions w) ->
  find_active teacherId (sessions w) = Some (id, s) ->
  let w' := (run (stop teacherId) w).2 in
  (run (stop teacherId) w).1
  = mkResponse 200 true (Some "Attendance session stopped.")
      (StoppedSession id (AttendanceSession.subjectCode s) (AttendanceSession.date s)
         (AttendanceSession.startTime s) (Some (clock w))
         (length (filter (fun a => Attendance.sessionId a = id) (attendances w))))
  /\ sessions w' !! id = Some (end_session (clock w) s)
  /\ (forall j, j <> id -> sessions w' !! j = sessions w !! j)
  /\ attendances w' = attendances w
  /\ find_active teacherId (sessions w') = None
  /\ run (stop teacherId) w'
     = (failure 404 "No active attendance session found.", w')
  /\ run (qr_current teacherId random16) w'
     = (failure 404 "No active attendance session. Please start a session first.", w').
Proof.
  intros Hl Hfind. cbv zeta.
  assert (Hnone : find_active teacherId (sessions (run (stop teacherId) w).2) = None).
  { rewrite stop_sessions. by apply close_active_find_None. }
  split; [by rewrite (stop_run_found _ _ _ _ Hfind)|].
  split.
  { rewrite (stop_run_found _ _ _ _ Hfind). cbn [snd sessions set_sessions].
    apply find_active_Some in Hfind as (Hid & _).
    by rewrite list_lookup_alter_eq, Hid. }
  split.
  { intros j Hj. rewrite (stop_run_found _ _ _ _ Hfind). cbn [snd sessions set_sessions].
    by rewrite list_lookup_alter_ne. }
  split; [by rewrite (stop_run_found _ _ _ _ Hfind)|].
  split; [exact Hnone|].
  split; [by apply stop_run_none | by apply qr_current_run_none].
Qed.

End SessionRoutes.
(* ===================================================================== *)
(** ** Redemptions, run to completion *)
(* ===================================================================== *)

(** A handler run alone, executed symbolically in a hypothesis
    [run p w = (r, w')]. *)
Ltac exec_simpl Hrun :=
  cbn [run proc_bind mbind mret async_bind async_ret await await_exc sync respond
       route negb exec_op fst snd] in Hrun.

Ltac exec_step Hrun :=
  lazymatch type of Hrun with
  | (_, _) = (_, _) => fail
  | context [castObjectId ?v] => destruct (castObjectId v) eqn:?
  | context [Attendance_validate ?d] => destruct (Attendance_validate d) eqn:?
  | context [duplicate_key ?d ?l] => destruct (duplicate_key d l) eqn:?
  | context [AttendanceSession_validate ?d] =>
      destruct (AttendanceSession_validate d) eqn:?
  | run (proc_bind (match ?x with _ => _ end) _) _ = _ => destruct x eqn:?
  | run (proc_bind (if ?c then _ else _) _) _ = _ => destruct c eqn:?
  | run (match ?x with _ => _ end) _ = _ => destruct x eqn:?
  | run (if ?c then _ else _) _ = _ => destruct c eqn:?
  end; exec_simpl Hrun.

Section ScanFacts.
Context `{Platform}.

Lemma duplicate_key_false doc stored :
  duplicate_key doc stored = false ->
  Attendance.key doc ∉ (Attendance.key <$> stored).
Proof.
  unfold duplicate_key. intros Hdup Hin. apply bool_decide_eq_false in Hdup.
  apply Hdup. apply Exists_exists.
  apply list_elem_of_fmap in Hin as (a & Ha & Hin). eauto.
Qed.

Lemma valid_accepted nowMs qrData :
  valid (validateQRPayload nowMs qrData) = true ->
  exists p, validateQRPayload nowMs qrData = accepted p.
Proof.
  intros Hv.
  destruct (validateQRPayload_cases qrData) as [[msg Hr]|(?&?&?&?&?&p&_&_&_&_&_&_&_&_&_&Hr)].
  - rewrite Hr in Hv. discriminate.
  - rewrite Hr in Hv |- *. cbv zeta in *.
    repeat match goal with |- context [if ?c then _ else _] => destruct c end;
      try discriminate. eauto.
Qed.

Lemma scan_effect_aux (studentUserId : ObjectId) (qrPayload : string) (w : World)
    resp w' :
  run (scan studentUserId qrPayload) w = (resp, w') ->
  (w' = w /\ status resp <> 201%nat)
  \/ exists p id s subjectCode,
       validateQRPayload (clock w) qrPayload = accepted p
       /\ castObjectId (Payload.sessionId p) = Some id
       /\ sessions w !! id = Some s
       /\ AttendanceSession.active s = true
       /\ Payload.subjectCode p = Val (JStr subjectCode)
       /\ let stored :=
            Attendance.mk studentUserId (set_subjectCode (toUpperCase subjectCode)) id
              (isoDate (clock w)) (clock w) in
          (Attendance.key stored ∉ (Attendance.key <$> attendances w))
          /\ ((exists e, castString (Payload.nonce p) = Throw e
                /\ resp = scan_catch e
                /\ w' = set_attendances (attendances w ++ [stored]) w)
              \/ (exists n, castString (Payload.nonce p) = Return n
                   /\ resp = mkResponse 201 true
                        (Some ("Attendance marked successfully for "
                               +:+ subjectCode +:+ "."))
                        (MarkedAttendance (set_subjectCode (toUpperCase subjectCode))
                           (isoDate (clock w)) (clock w))
                   /\ w' = set_sessions
                             (alter (AttendanceSession.apply_all
                                       [AttendanceSession.PushNonce n]) id (sessions w))
                             (set_attendances (attendances w ++ [stored]) w))).
Proof.
  intros Hrun. unfold scan in Hrun. exec_simpl Hrun.
  repeat exec_step Hrun.
  all: simplify_eq.
  all: try (left; split; [reflexivity | cbn; try discriminate;
                           unfold scan_catch; repeat case_match; discriminate]).
  all: right.
  all: match goal with
       | Hv : negb (valid _) = false |- _ =>
           apply negb_false_iff, valid_accepted in Hv as [p' Hv];
           rewrite Hv in *; cbn [accepted payload] in *; simplify_eq
       end.
  all: repeat match goal with
       | Hf : pair _ <$> _ !! _ = Some _ |- _ =>
           apply fmap_Some in Hf as (? & ? & ?); simplify_eq
       | Hs : string_receiver ?v = Return _ |- _ =>
           destruct v as [| |[]] eqn:?; cbn in Hs; simplify_eq
       | Hn : negb _ = false |- _ => apply negb_false_iff in Hn
       | Hd : duplicate_key _ _ = false |- _ => apply duplicate_key_false in Hd
       end.
  all: eexists _, _, _, _; repeat (split; [eassumption || reflexivity|]).
  all: first [ left; eexists; split; [eassumption|]; split; reflexivity
             | right; eexists; split; [eassumption|]; split; reflexivity ].
Qed.
(** X11. The whole effect of the scan handler on the store, run to
    completion. Either nothing at all is written and the answer is not
    201, or exactly one attendance record is appended: the record of the
    requesting student for the active session the credential names, with
    the normalised subject code of the payload, dated and timed by the
    server clock, and with a key that was not stored before. In that case
    the nonce is pushed on the ledger of that session and the answer is
    201, unless the nonce cannot be stored as a string: then the record
    stays written, the ledger is untouched and the answer comes from the
    [catch]. Users, teachers, subjects and the other sessions are never
    modified. *)
Theorem scan_effect (studentUserId : ObjectId) (qrPayload : string) (w : World) :
  let resp := (run (scan studentUserId qrPayload) w).1 in
  let w' := (run (scan studentUserId qrPayload) w).2 in
  (w' = w /\ status resp <> 201%nat)
  \/ exists p id s subjectCode,
       validateQRPayload (clock w) qrPayload = accepted p
       /\ castObjectId (Payload.sessionId p) = Some id
       /\ sessions w !! id = Some s
       /\ AttendanceSession.active s = true
       /\ Payload.subjectCode p = Val (JStr subjectCode)
       /\ let stored := marked w studentUserId subjectCode id in
          (Attendance.key stored ∉ (Attendance.key <$> attendances w))
          /\ ((exists e, castString (Payload.nonce p) = Throw e
                /\ resp = scan_catch e
                /\ w' = set_attendances (attendances w ++ [stored]) w)
              \/ (exists n, castString (Payload.nonce p) = Return n
                   /\ resp = mkResponse 201 true
                        (Some ("Attendance marked successfully for "
                               +:+ subjectCode +:+ "."))
                        (MarkedAttendance (set_subjectCode (toUpperCase subjectCode))
                           (isoDate (clock w)) (clock w))
                   /\ w' = set_sessions
                             (alter (AttendanceSession.apply_all
                                       [AttendanceSession.PushNonce n]) id (sessions w))
                             (set_attendances (attendances w ++ [stored]) w))).
Proof.
  cbv zeta. destruct (run (scan studentUserId qrPayload) w) as [resp w'] eqn:Hrun.
  exact (scan_effect_aux _ _ _ _ _ Hrun).
Qed.

End ScanFacts.
Section ScanRefusals.
Context `{Platform}.

(** X12. An invalid credential never reaches the database. In every run of
    the scan handler, under any interference, the first operation is the
    clock read of the validator; when the validator refuses the
    credential at that instant, it is the only operation: the handler
    answers 400 with the validator's message without reading or writing
    any collection. *)
Theorem invalid_credential_touches_nothing (rely : World -> World -> Prop)
    (studentUserId : ObjectId) (qrPayload : string) (w w' : World)
    (tr : list Event) (resp : Response) :
  runs rely (scan studentUserId qrPayload) w tr w' resp ->
  exists now,
    head tr = Some (EvDateNow now)
    /\ (valid (validateQRPayload now qrPayload) = false ->
        tr = [EvDateNow now]
        /\ resp = mkResponse 400 false (error (validateQRPayload now qrPayload)) NoBody).
Proof.
  intros Hrun. unfold scan in Hrun. unroll Hrun.
  apply runs_await in Hrun. destruct Hrun as (w0 & tr' & _ & -> & Hrun).
  cbn [exec_op fst snd event_of] in Hrun |- *.
  exists (clock w0). split; [reflexivity|]. intros Hinvalid.
  rewrite Hinvalid in Hrun. unroll Hrun.
  apply runs_done in Hrun. destruct Hrun as (-> & -> & _). done.
Qed.

End ScanRefusals.

Section ScanPaths.
Context `{Platform}.

Lemma scan_reaches_department_check w studentUserId qrPayload p id s nonce studentUser
    subjectCode subject :
  reaches_department_check w studentUserId qrPayload p id s nonce studentUser
    subjectCode subject ->
  run (scan studentUserId qrPayload) w =
    run (route
           (if negb (String.eqb (toLowerCase (User.department studentUser))
                                (toLowerCase (Subject.department subject)))
            then respond 403 false "Your department does not match this subject's department."
            else
            d ← await Date_now;
            let today := isoDate d in
            existingAttendance ← await (Attendance_findOne studentUserId
                                          (toUpperCase subjectCode) today);
            match existingAttendance with
            | Some _ =>
                respond 400 false "You have already marked attendance for this subject today."
            | None =>
            timestamp ← await Date_now;
            attendance ← await_exc (Attendance_create
                           (Attendance.mk studentUserId (toUpperCase subjectCode) id today
                              timestamp));
            _ ← await (AttendanceSession_save id [AttendanceSession.PushNonce nonce]);
            mret (mkResponse 201 true
                    (Some ("Attendance marked successfully for " +:+ subjectCode +:+ "."))
                    (MarkedAttendance (Attendance.subjectCode attendance)
                       (Attendance.date attendance) (Attendance.timestamp attendance)))
            end)
           scan_catch) w.
Proof.
  intros []. unfold scan. run_simpl.
  rewrite token_accepted0. run_simpl.
  rewrite session_named0. run_simpl.
  rewrite session_stored0. cbn [fmap option_fmap option_map]. run_simpl.
  rewrite session_active0, teacher_named0, nonce_text0. run_simpl.
  rewrite String.eqb_refl. cbn [includes castString].
  rewrite bool_decide_eq_false_2 by exact nonce_unused0. run_simpl.
  rewrite student_stored0, subject_named0. run_simpl.
  rewrite subject_stored0. run_simpl.
  reflexivity.
Qed.

Lemma find_key_Some (k : ObjectId * string * string) (stored : list Attendance.t) :
  k ∈ Attendance.key <$> stored ->
  exists a, snd <$> list_find (fun a => Attendance.key a = k) stored = Some a.
Proof.
  intros Hin. apply list_elem_of_fmap in Hin as (a & -> & Hin).
  destruct (list_find (fun a0 => Attendance.key a0 = Attendance.key a) stored)
    as [[i b]|] eqn:Hfind; [by eexists|].
  apply list_find_None in Hfind. rewrite Forall_forall in Hfind.
  by destruct (Hfind a Hin).
Qed.

Lemma find_key_None (k : ObjectId * string * string) (stored : list Attendance.t) :
  k ∉ (Attendance.key <$> stored) ->
  snd <$> list_find (fun a => Attendance.key a = k) stored = None.
Proof.
  intros Hnot.
  destruct (list_find (fun a => Attendance.key a = k) stored) as [[i b]|] eqn:Hfind;
    [|reflexivity].
  apply list_find_Some in Hfind as (Hi & Hk & _). exfalso. apply Hnot.
  apply list_elem_of_fmap. exists b. split; [done|]. by eapply list_elem_of_lookup_2.
Qed.

(** The script of a redemption that succeeds, from the department check
    on; the hypotheses are those of [scan_marks_attendance]. *)
Ltac redeem Hreach Hdept Hnot Hcode Hdate :=
  let Hfind := fresh "Hfind" in
  rewrite (scan_reaches_department_check _ _ _ _ _ _ _ _ _ _ Hreach);
  apply String.eqb_eq in Hdept; rewrite Hdept; run_simpl;
  pose proof (find_key_None _ _ Hnot) as Hfind;
  match type of Hfind with
  | context [Attendance.key (marked ?w ?st ?sc ?id)] =>
      change (Attendance.key (marked w st sc id))
        with (st, set_subjectCode (toUpperCase sc), isoDate (clock w)) in Hfind
  end;
  rewrite Hfind; run_simpl;
  unfold Attendance_validate, Attendance_cast;
  cbn [Attendance.subjectCode Attendance.date Attendance.studentId Attendance.sessionId
       Attendance.timestamp];
  rewrite (string_eqb_empty _ Hcode), (string_eqb_empty _ Hdate); cbn [negb andb];
  unfold duplicate_key; rewrite bool_decide_eq_false_2;
  [ run_simpl; reflexivity
  | let a := fresh "a" in
    let Hin := fresh "Hin" in
    let Ha := fresh "Ha" in
    rewrite Exists_exists; intros (a & Hin & Ha); apply Hnot;
    apply list_elem_of_fmap; exists a; split; [|exact Hin]; rewrite Ha; reflexivity ].

(** X13. Scenario: a student of another department. A redemption that passes
    the credential, session and replay checks with a string nonce and
    finds the student and the subject is refused with 403 when the
    lower-cased departments ([String.prototype.toLowerCase]) differ,
    whatever else holds; nothing is written, so the nonce is not consumed. *)
Theorem scan_department_mismatch (w : World) (studentUserId : ObjectId)
    (qrPayload : string) (p : Payload.t) (id : ObjectId) (s : AttendanceSession.t)
    (nonce : string) (studentUser : User.t) (subjectCode : string)
    (subject : Subject.t) :
  reaches_department_check w studentUserId qrPayload p id s nonce studentUser
    subjectCode subject ->
  toLowerCase (User.department studentUser)
    <> toLowerCase (Subject.department subject) ->
  run (scan studentUserId qrPayload) w
  = (failure 403 "Your department does not match this subject's department.", w).
Proof.
  intros Hreach Hdept.
  rewrite (scan_reaches_department_check _ _ _ _ _ _ _ _ _ _ Hreach).
  apply String.eqb_neq in Hdept. rewrite Hdept. reflexivity.
Qed.

(** X14. A student who already has a record for the subject on the date of
    the request is refused with 400 at step 7, even with a fresh
    credential whose nonce was never used; nothing is written. The
    redemption has passed the department check: the two lower-cased
    departments are the same string. *)
Theorem scan_already_marked (w : World) (studentUserId : ObjectId)
    (qrPayload : string) (p : Payload.t) (id : ObjectId) (s : AttendanceSession.t)
    (nonce : string) (studentUser : User.t) (subjectCode : string)
    (subject : Subject.t) :
  reaches_department_check w studentUserId qrPayload p id s nonce studentUser
    subjectCode subject ->
  toLowerCase (User.department studentUser)
    = toLowerCase (Subject.department subject) ->
  Attendance.key (marked w studentUserId subjectCode id)
    ∈ Attendance.key <$> attendances w ->
  run (scan studentUserId qrPayload) w
  = (failure 400 "You have already marked attendance for this subject today.", w).
Proof.
  intros Hreach Hdept Hin.
  rewrite (scan_reaches_department_check _ _ _ _ _ _ _ _ _ _ Hreach).
  apply String.eqb_eq in Hdept. rewrite Hdept. run_simpl.
  apply find_key_Some in Hin as [a Ha].
  change (Attendance.key (marked w studentUserId subjectCode id))
    with (studentUserId, set_subjectCode (toUpperCase subjectCode), isoDate (clock w))
    in Ha.
  rewrite Ha. reflexivity.
Qed.

(** X15. A redemption that passes every check succeeds: with a credential
    whose nonce is a string, it answers 201 with the stored subject code,
    date and time, appends exactly one record (this student, the
    normalised subject code, the session, the date and instant of the
    server clock) and pushes the nonce on the ledger of the session;
    nothing else in the store changes. *)
Theorem scan_marks_attendance (w : World) (studentUserId : ObjectId)
    (qrPayload : string) (p : Payload.t) (id : ObjectId) (s : AttendanceSession.t)
    (nonce : string) (studentUser : User.t) (subjectCode : string)
    (subject : Subject.t) :
  reaches_department_check w studentUserId qrPayload p id s nonce studentUser
    subjectCode subject ->
  toLowerCase (User.department studentUser)
    = toLowerCase (Subject.department subject) ->
  Attendance.key (marked w studentUserId subjectCode id)
    ∉ (Attendance.key <$> attendances w) ->
  set_subjectCode (toUpperCase subjectCode) <> "" ->
  isoDate (clock w) <> "" ->
  run (scan studentUserId qrPayload) w
  = (mkResponse 201 true
       (Some ("Attendance marked successfully for " +:+ subjectCode +:+ "."))
       (MarkedAttendance (set_subjectCode (toUpperCase subjectCode))
          (isoDate (clock w)) (clock w)),
     set_sessions
       (alter (AttendanceSession.apply_all [AttendanceSession.PushNonce nonce]) id
          (sessions w))
       (set_attendances (attendances w ++ [marked w studentUserId subjectCode id]) w)).
Proof.
  intros Hreach Hdept Hnot Hcode Hdate.
  redeem Hreach Hdept Hnot Hcode Hdate.
Qed.

Lemma validate_generated random16 issuedMs nowMs sid tid sub :
  length random16 = 16%nat ->
  sid <> "" -> tid <> "" -> sub <> "" ->
  issuedMs / 1000 <> 0 ->
  issuedMs / 1000 <= nowMs / 1000 <= issuedMs / 1000 + QR_TOKEN_VALIDITY ->
  validateQRPayload nowMs (generateQRPayload random16 issuedMs sid tid sub).1
  = accepted (Payload.mk (Val (JNum 1)) (Val (JStr sid)) (Val (JStr tid))
                (Val (JStr sub)) (Val (JNum (issuedMs / 1000)))
                (Val (JStr (hex_encode random16)))).
Proof.
  intros Hlen Hsid Htid Hsub Hts Hwindow.
  assert (Hn : hex_encode random16 <> "").
  { apply hex_encode_nonempty. intros ->. discriminate Hlen. }
  rewrite (validate_signed nowMs _ _ _
             (generated_signed random16 issuedMs sid tid sub)
             (proj2 (get_payload_object 1 sid tid sub (issuedMs / 1000)
                       (hex_encode random16))
                (conj (ltac:(discriminate) : 1 <> 0)
                   (conj Hsid (conj Htid (conj Hsub (conj Hts Hn))))))).
  cbv zeta. cbn [Payload.timestamp ToNumber num_sub num_ltb num_gtb].
  destruct (Z.ltb_spec (nowMs / 1000 - issuedMs / 1000) 0); [lia|].
  destruct (Z.ltb_spec QR_TOKEN_VALIDITY (nowMs / 1000 - issuedMs / 1000)); [lia|].
  reflexivity.
Qed.

(** X16. Mint, then redeem. The mint handler finds the teacher's active
    session and the QR library renders the credential it generates: the
    answer is 200 with that image. The credential is then redeemed by a
    student while the session is still active and the credential fresh:
    the student and the subject of the session are stored with
    departments that are equal after [toLowerCase], the nonce is not in
    the ledger and the student has no record for the subject that day.
    The redemption answers 201, appends exactly the record of this
    student for this session, dated by the server clock, and pushes the
    credential's nonce on the ledger of the session. *)
Theorem mint_then_redeem (teacherId studentUserId : ObjectId) (random16 : list byte)
    (w w2 : World) (id : ObjectId) (s s2 : AttendanceSession.t) (image : string)
    (studentUser : User.t) (subject : Subject.t) :
  let code := AttendanceSession.subjectCode s in
  let token :=
    (generateQRPayload random16 (clock w) (ObjectId_toString id)
       (ObjectId_toString teacherId) code).1 in
  let nonce := hex_encode random16 in
  find_active teacherId (sessions w) = Some (id, s) ->
  QRCode_toDataURL token = Return image ->
  length random16 = 16%nat ->
  ObjectId_toString id <> "" -> ObjectId_toString teacherId <> "" -> code <> "" ->
  clock w / 1000 <> 0 ->
  clock w / 1000 <= clock w2 / 1000 <= clock w / 1000 + QR_TOKEN_VALIDITY ->
  sessions w2 !! id = Some s2 ->
  AttendanceSession.active s2 = true ->
  AttendanceSession.teacherId s2 = teacherId ->
  nonce ∉ AttendanceSession.usedNonces s2 ->
  users w2 !! studentUserId = Some studentUser ->
  subjects w2 !! set_subjectCode (toUpperCase code) = Some subject ->
  toLowerCase (User.department studentUser)
    = toLowerCase (Subject.department subject) ->
  Attendance.key (marked w2 studentUserId code id)
    ∉ (Attendance.key <$> attendances w2) ->
  set_subjectCode (toUpperCase code) <> "" ->
  isoDate (clock w2) <> "" ->
  run (qr_current teacherId random16) w
  = (mkResponse 200 true None (QR image id code (clock w)), w)
  /\ run (scan studentUserId token) w2
     = (mkResponse 201 true
          (Some ("Attendance marked successfully for " +:+ code +:+ "."))
          (MarkedAttendance (set_subjectCode (toUpperCase code))
             (isoDate (clock w2)) (clock w2)),
        set_sessions
          (alter (AttendanceSession.apply_all [AttendanceSession.PushNonce nonce]) id
             (sessions w2))
          (set_attendances (attendances w2 ++ [marked w2 studentUserId code id]) w2)).
Proof.
  cbv zeta.
  intros Hfind Himage Hlen Hid Htid Hcode Hts Hwindow Hs2 Hactive Hteacher Hnonce Huser
    Hsubject Hdept Hnew Hset Hdate.
  split; [by rewrite (qr_current_run_found _ _ _ _ _ Hfind), Himage|].
  set (p := Payload.mk (Val (JNum 1)) (Val (JStr (ObjectId_toString id)))
              (Val (JStr (ObjectId_toString teacherId)))
              (Val (JStr (AttendanceSession.subjectCode s)))
              (Val (JNum (clock w / 1000))) (Val (JStr (hex_encode random16)))).
  assert (Hreach : reaches_department_check w2 studentUserId
            (generateQRPayload random16 (clock w) (ObjectId_toString id)
               (ObjectId_toString teacherId) (AttendanceSession.subjectCode s)).1
            p id s2 (hex_encode random16) studentUser
            (AttendanceSession.subjectCode s) subject).
  { split; try assumption.
    - by apply validate_generated.
    - by eexists.
    - apply castObjectId_toString.
    - cbn [p Payload.teacherId]. by rewrite Hteacher.
    - reflexivity.
    - reflexivity. }
  redeem Hreach Hdept Hnew Hset Hdate.
Qed.

End ScanPaths.
(* ===================================================================== *)
(** ** Session details and request guards *)
(* ===================================================================== *)

Section SessionDetailsFacts.
Context `{Platform}.

Lemma ObjectId_toString_inj i j :
  ObjectId_toString i = ObjectId_toString j -> i = j.
Proof.
  intros Heq. pose proof (castObjectId_toString i) as Hi.
  rewrite Heq, castObjectId_toString in Hi. by injection Hi.
Qed.

Lemma get_session_reads userId id :
  proc_events (fun e => is_write e = false) (get_session userId id).
Proof.
  unfold get_session.
  cbn [proc_bind mbind mret async_bind async_ret await await_exc proc_events event_of].
  intros [[[i s]|]|e]; (split; [reflexivity|]);
    cbn [proc_bind mbind mret async_bind async_ret await proc_events]; [|done|done].
  destruct (negb _);
    cbn [proc_bind mbind mret async_bind async_ret await proc_events event_of]; [done|].
  intros n. split; [reflexivity | done].
Qed.

(** X17. Session details go to the owner only, and looking never writes. The
    handler performs reads only and leaves the store as it is. It answers
    with the details when the identifier names a stored session whose
    teacher reference prints as the requester's id, and then the details
    are the stored fields of that session with the number of attendance
    records that refer to it; an identifier that cannot be cast gives
    500, one that names no session 404, and a session of another teacher
    403. *)
Theorem session_details_owner_only (userId id : string) (w : World) :
  (run (get_session userId id) w).2 = w
  /\ proc_events (fun e => is_write e = false) (get_session userId id)
  /\ match (run (get_session userId id) w).1 with
     | SessionDetails v =>
         exists s,
           castObjectId (Val (JStr id)) = Some (view_id v)
           /\ sessions w !! view_id v = Some s
           /\ ObjectId_toString (AttendanceSession.teacherId s) = userId
           /\ (forall teacherId, userId = ObjectId_toString teacherId ->
                 AttendanceSession.teacherId s = teacherId)
           /\ v = mkSessionView (view_id v) (AttendanceSession.subjectCode s)
                    (AttendanceSession.date s) (AttendanceSession.startTime s)
                    (AttendanceSession.endTime s) (AttendanceSession.active s)
                    (length (filter (fun a => Attendance.sessionId a = view_id v)
                               (attendances w)))
     | SessionRefused status message =>
         (status = 500%nat /\ message = "Failed to retrieve session."
          /\ castObjectId (Val (JStr id)) = None)
         \/ (status = 404%nat /\ message = "Session not found."
             /\ exists i, castObjectId (Val (JStr id)) = Some i
                          /\ sessions w !! i = None)
         \/ (status = 403%nat /\ message = "Access denied."
             /\ exists i s, castObjectId (Val (JStr id)) = Some i
                            /\ sessions w !! i = Some s
                            /\ ObjectId_toString (AttendanceSession.teacherId s)
                               <> userId)
     end.
Proof.
  split; [apply run_reads, get_session_reads|].
  split; [apply get_session_reads|].
  unfold get_session. run_simpl.
  destruct (castObjectId (Val (JStr id))) as [i|] eqn:Hcast; run_simpl; [|by left].
  destruct (sessions w !! i) as [s|] eqn:Hs; cbn [fmap option_fmap option_map];
    run_simpl; [|right; left; eauto].
  destruct (String.eqb_spec (ObjectId_toString (AttendanceSession.teacherId s)) userId)
    as [Heq|Hne]; run_simpl.
  - exists s. cbn [view_id]. repeat split; try done.
    intros t ->. by apply ObjectId_toString_inj.
  - right; right. eauto 10.
Qed.

End SessionDetailsFacts.

Lemma prefix_append (p s : string) :
  String.prefix p s = true -> exists rest, s = p +:+ rest.
Proof.
  revert p. induction s as [|d s IH]; intros [|c p]; cbn [String.prefix].
  - by exists "".
  - discriminate.
  - by exists (String d s).
  - destruct (ascii_dec c d) as [->|]; [|discriminate].
    intros Hp. destruct (IH p Hp) as [rest ->]. by exists rest.
Qed.

Lemma split_nonempty sep s : exists head tail, split sep s = head :: tail.
Proof.
  induction s as [|c s (head & tail & IH)]; cbn [split]; [eauto|].
  destruct (Ascii.eqb c sep); [eauto|]. rewrite IH. eauto.
Qed.

(** The first piece [split] returns is the text up to the first
    separator. *)
Lemma split_first sep s head tail :
  split sep s = head :: tail ->
  (sep ∉ list_ascii_of_string head)
  /\ exists rest, s = head +:+ rest /\ (rest = "" \/ exists r, rest = String sep r).
Proof.
  revert head tail. induction s as [|c s IH]; intros head tail; cbn [split].
  - intros [= <- <-]. split; [by apply not_elem_of_nil|]. exists "". eauto.
  - destruct (Ascii.eqb_spec c sep) as [->|Hne].
    + intros [= <- <-]. split; [by apply not_elem_of_nil|]. exists (String sep s). eauto.
    + destruct (split_nonempty sep s) as (h & t & Hs). rewrite Hs.
      intros [= <- <-]. destruct (IH h t Hs) as (Hnot & rest & -> & Hrest).
      split.
      * cbn [list_ascii_of_string]. intros Hin. apply elem_of_cons in Hin as [->|Hin]; done.
      * exists rest. split; [reflexivity | exact Hrest].
Qed.

Lemma split_Bearer rest :
  split " " ("Bearer " +:+ rest) = "Bearer" :: split " " rest.
Proof.
  destruct (split_nonempty " " rest) as (h & t & Hs).
  change ("Bearer " +:+ rest)
    with (String "B" (String "e" (String "a" (String "r" (String "e" (String "r"
            (String " " rest))))))).
  cbn [split Ascii.eqb Bool.eqb]. rewrite Hs. reflexivity.
Qed.

Section AuthFacts.
Context (jwt_verify : string -> Exc Claims).

(** X18. Who gets past the guard. A request reaches the handler behind
    [authenticate, authorize(...roles)] only when its Authorization
    header is "Bearer " followed by a non-empty token without a space
    (and then nothing, or a space and more text), [jwt.verify] accepts
    that token, and the role in its claims is one of the allowed roles;
    the handler receives exactly those claims. Every other request is
    answered with [success: false] and status 401, or 403 when the token
    was verified but its role is not allowed. *)
Theorem guard_admits_verified_role (roles : list string) (authorization : option string) :
  match guard jwt_verify roles authorization with
  | inr user =>
      exists token rest,
        authorization = Some ("Bearer " +:+ token +:+ rest)
        /\ token <> ""
        /\ (" "%char ∉ list_ascii_of_string token)
        /\ (rest = "" \/ exists r, rest = String " " r)
        /\ jwt_verify token = Return user
        /\ claim_role user ∈ roles
  | inl response =>
      success response = false
      /\ (status response = 401%nat
          \/ (status response = 403%nat
              /\ exists user, authenticate jwt_verify authorization = inr user
                              /\ claim_role user ∉ roles))
  end.
Proof.
  unfold guard, authenticate.
  destruct authorization as [authHeader|]; [|cbn; eauto].
  destruct (negb (truthy _) || negb (String.prefix _ _)) eqn:Hhead; [cbn; eauto|].
  apply orb_false_iff in Hhead as [_ Hprefix].
  apply negb_false_iff, prefix_append in Hprefix as [tail ->].
  rewrite split_Bearer. cbn [lookup list_lookup].
  destruct (split_nonempty " " tail) as (token & pieces & Hsplit). rewrite Hsplit.
  cbn [lookup list_lookup].
  destruct (negb (truthy (Val (JStr token)))) eqn:Htoken; [cbn; eauto|].
  destruct (jwt_verify token) as [user|error] eqn:Hverify.
  2:{ destruct (String.eqb _ _); cbn; eauto. }
  cbn [authorize].
  destruct (bool_decide_reflect (claim_role user ∈ roles)) as [Hrole|Hrole];
    cbn [negb].
  - destruct (split_first _ _ _ _ Hsplit) as (Hnospace & rest & -> & Hrest).
    exists token, rest. repeat split; try done.
    cbn in Htoken. apply negb_false_iff, negb_true_iff, String.eqb_neq in Htoken.
    exact Htoken.
  - cbn. split; [reflexivity|]. right. split; [reflexivity|]. by exists user.
Qed.

End AuthFacts.
(* ===================================================================== *)
(** ** Invariants of the store *)
(* ===================================================================== *)

Lemma apply_all_same cs s : same_session s (AttendanceSession.apply_all cs s).
Proof.
  unfold AttendanceSession.apply_all. revert s.
  induction cs as [|c cs IH]; intros s; cbn [foldl]; [done|].
  destruct (IH (AttendanceSession.apply c s)) as (H1 & H2 & H3 & H4).
  unfold same_session. rewrite H1, H2, H3, H4. by destruct c.
Qed.

Lemma history_kept_refl w : history_kept w w.
Proof. split; [reflexivity|]. intros id s Hs. exists s. done. Qed.

Lemma history_kept_same w w' :
  sessions w' = sessions w -> attendances w' = attendances w -> history_kept w w'.
Proof. intros Hs Ha. unfold history_kept. rewrite Hs, Ha. apply history_kept_refl. Qed.

Lemma history_kept_trans w1 w2 w3 :
  history_kept w1 w2 -> history_kept w2 w3 -> history_kept w1 w3.
Proof.
  intros [Ha12 Hs12] [Ha23 Hs23]. split; [by etrans|].
  intros id s Hs. destruct (Hs12 id s Hs) as (s2 & Hs2 & E1 & E2 & E3 & E4).
  destruct (Hs23 id s2 Hs2) as (s3 & Hs3 & F1 & F2 & F3 & F4).
  exists s3. split; [exact Hs3|]. unfold same_session. repeat split; congruence.
Qed.

Section Invariants.
Context `{Platform}.

Lemma exec_op_history {A} (op : Op A) w : history_kept w (exec_op op w).2.
Proof.
  destruct op; cbn [exec_op]; try apply history_kept_refl.
  - destruct (castObjectId id); apply history_kept_refl.
  - destruct (AttendanceSession_validate _); [|apply history_kept_refl].
    split; [reflexivity|]. intros i s Hs. exists s. split; [|done].
    cbn. by apply lookup_app_l_Some.
  - split; [reflexivity|]. intros i s Hs. cbn.
    destruct (decide (i = id)) as [->|Hne].
    + exists (AttendanceSession.apply_all changes s).
      rewrite list_lookup_alter_eq, Hs. split; [reflexivity | apply apply_all_same].
    + exists s. rewrite list_lookup_alter_ne by done. done.
  - destruct (negb _); [apply history_kept_refl|].
    destruct (duplicate_key _ _); [apply history_kept_refl|].
    split; [by apply prefix_app_r|]. intros i s Hs. exists s. done.
Qed.

Lemma env_step_history w w' : env_step w w' -> history_kept w w'.
Proof. destruct 1; [apply exec_op_history | by apply history_kept_same ..]. Qed.

Lemma cast_apply_all cs s :
  AttendanceSession_cast s = s ->
  AttendanceSession_cast (AttendanceSession.apply_all cs s)
  = AttendanceSession.apply_all cs s.
Proof.
  intros Hs. destruct (apply_all_same cs s) as (E1 & _).
  unfold AttendanceSession_cast in *. rewrite E1.
  assert (Hcode : set_subjectCode (AttendanceSession.subjectCode s)
                  = AttendanceSession.subjectCode s).
  { rewrite <- Hs at 2. reflexivity. }
  rewrite Hcode, <- E1. by destruct (AttendanceSession.apply_all cs s).
Qed.

Lemma validate_apply_all cs s :
  AttendanceSession_validate (AttendanceSession.apply_all cs s)
  = AttendanceSession_validate s.
Proof.
  destruct (apply_all_same cs s) as (E1 & _ & E3 & _).
  unfold AttendanceSession_validate. by rewrite E1, E3.
Qed.

Lemma AttendanceSession_cast_idem doc :
  AttendanceSession_cast (AttendanceSession_cast doc) = AttendanceSession_cast doc.
Proof.
  unfold AttendanceSession_cast.
  cbn [AttendanceSession.subjectCode AttendanceSession.teacherId AttendanceSession.date
       AttendanceSession.startTime AttendanceSession.endTime AttendanceSession.active
       AttendanceSession.usedNonces].
  by rewrite set_subjectCode_idem.
Qed.

Lemma Attendance_cast_idem doc :
  Attendance_cast (Attendance_cast doc) = Attendance_cast doc.
Proof.
  unfold Attendance_cast.
  cbn [Attendance.studentId Attendance.subjectCode Attendance.sessionId Attendance.date
       Attendance.timestamp].
  by rewrite set_subjectCode_idem.
Qed.

Lemma exec_op_schema {A} (op : Op A) w :
  schema_valid w -> schema_valid (exec_op op w).2.
Proof.
  intros [Hs Ha].
  destruct op; cbn [exec_op]; try done.
  - by destruct (castObjectId id).
  - destruct (AttendanceSession_validate _) eqn:Hv; [|done].
    split; [|exact Ha]. cbn. apply Forall_app. split; [exact Hs|].
    repeat constructor; [apply AttendanceSession_cast_idem | exact Hv].
  - split; [|exact Ha]. cbn. rewrite Forall_lookup in Hs. apply Forall_lookup.
    intros i s. rewrite list_lookup_alter. case_decide as Hid.
    + subst i. destruct (sessions w !! id) as [s0|] eqn:Hs0; cbn; [|done].
      intros [= <-]. destruct (Hs id s0 Hs0) as [Hc Hv].
      split; [by apply cast_apply_all | by rewrite validate_apply_all].
    + apply Hs.
  - destruct (negb _) eqn:Hv; [done|]. destruct (duplicate_key _ _); [done|].
    split; [exact Hs|]. cbn. apply Forall_app. split; [exact Ha|].
    repeat constructor; [apply Attendance_cast_idem | by apply negb_false_iff].
Qed.

(** X19. Nothing is ever deleted or rewritten, under any interleaving of the
    operations of the routes, clock ticks and directory changes: the
    attendance records stored at some moment remain the first records of
    the collection, unchanged, and every session remains stored under its
    [_id] with the subject code, teacher, date and start time it was
    created with. *)
Theorem store_history_kept (w w' : World) :
  env_steps w w' -> history_kept w w'.
Proof.
  induction 1 as [|w1 w2 w3 Hstep _ IH]; [apply history_kept_refl|].
  eapply history_kept_trans; [apply env_step_history, Hstep | exact IH].
Qed.

(** X20. Every stored session and attendance record satisfies its schema,
    under any interleaving: the subject code is non-empty and in the
    normal form of the setter (trimmed, upper case), and the date is
    non-empty, because both collections are written only through
    [create] and through saves that touch [active], [endTime] and
    [usedNonces]. *)
Theorem stored_documents_schema_valid (w w' : World) :
  schema_valid w -> env_steps w w' -> schema_valid w'.
Proof.
  intros Hw Hsteps. induction Hsteps as [|w1 w2 w3 Hstep _ IH]; [exact Hw|].
  apply IH. destruct Hstep; [by apply exec_op_schema | exact Hw | exact Hw].
Qed.

Lemma start_attendances teacherId subjectCode w :
  attendances (run (start teacherId subjectCode) w).2 = attendances w.
Proof.
  destruct (teachers w !! teacherId) as [teacher|] eqn:Ht.
  - destruct (decide (toUpperCase subjectCode ∈ Teacher.subjectCodes teacher)).
    + rewrite start_run_assigned by (by exists teacher).
      by destruct (AttendanceSession_validate _).
    + rewrite start_run_unassigned; [done|]. intros (t' & Ht' & Hin). congruence.
  - rewrite start_run_unassigned; [done|]. intros (t' & Ht' & Hin). congruence.
Qed.

Lemma start_sessions_cases teacherId subjectCode w :
  let l' := sessions (run (start teacherId subjectCode) w).2 in
  l' = sessions w
  \/ l' = close_active teacherId (clock w) (sessions w)
  \/ exists new, l' = close_active teacherId (clock w) (sessions w) ++ [new].
Proof.
  cbv zeta.
  destruct (start_sessions teacherId subjectCode w)
    as [[_ ->]|[[_ ->]|(new & -> & _)]]; eauto.
Qed.

Lemma stop_attendances teacherId w :
  attendances (run (stop teacherId) w).2 = attendances w.
Proof.
  destruct (find_active teacherId (sessions w)) as [[id s]|] eqn:Hfind.
  - by rewrite (stop_run_found _ _ _ _ Hfind).
  - by rewrite (stop_run_none _ _ Hfind).
Qed.

Lemma close_active_inactive teacherId now l id s :
  l !! id = Some s -> AttendanceSession.active s = false ->
  close_active teacherId now l !! id = Some s.
Proof.
  intros Hid Hs. unfold close_active.
  destruct (find_active teacherId l) as [[id' s']|] eqn:Hfind; [|exact Hid].
  apply find_active_Some in Hfind as (Hid' & _ & Hact).
  rewrite list_lookup_alter_ne; [exact Hid|]. intros ->. congruence.
Qed.

Lemma sessions_referenced_grow w w' :
  (length (sessions w) <= length (sessions w'))%nat ->
  attendances w' = attendances w ->
  sessions_referenced w -> sessions_referenced w'.
Proof.
  unfold sessions_referenced. intros Hlen -> Hw.
  eapply Forall_impl; [exact Hw|]. intros a. cbn. lia.
Qed.

Lemma serial_step_referenced w w' :
  sessions_referenced w -> serial_step w w' -> sessions_referenced w'.
Proof.
  intros Hw Hstep.
  destruct Hstep as [req w| |]; [|exact Hw|exact Hw].
  destruct req as [t code|t|t random16|student q]; cbn [handle].
  - eapply sessions_referenced_grow; [|apply start_attendances|exact Hw].
    destruct (start_sessions_cases t code w) as [->|[->|[new ->]]];
      rewrite ?length_app, ?close_active_length; lia.
  - eapply sessions_referenced_grow; [|apply stop_attendances|exact Hw].
    by rewrite stop_sessions, close_active_length.
  - by rewrite (run_reads _ w (qr_current_reads t random16)).
  - destruct (run (scan student q) w) as [resp w'] eqn:Hrun.
    destruct (scan_effect_aux _ _ _ _ _ Hrun)
      as [[-> _]|(p & id & s & code & _ & _ & Hs & _ & _ & _ & Hw')]; [exact Hw|].
    cbn [snd].
    assert (Hlt : (id < length (sessions w))%nat) by (by eapply lookup_lt_Some).
    destruct Hw' as [(e & _ & _ & ->)|(n & _ & _ & ->)];
      unfold sessions_referenced; cbn [sessions attendances set_sessions set_attendances];
      rewrite ?length_alter; apply Forall_app; (split; [exact Hw|]);
      by repeat constructor.
Qed.

(** X21. Requests served one at a time keep every attendance record attached
    to a stored session: the [sessionId] of each record is the [_id] of a
    session in the collection. *)
Theorem attendance_refers_to_session (w w' : World) :
  sessions_referenced w -> serial_steps w w' -> sessions_referenced w'.
Proof.
  intros Hw Hsteps. induction Hsteps as [|w1 w2 w3 Hstep _ IH]; [exact Hw|].
  apply IH. by eapply serial_step_referenced.
Qed.

Lemma serial_step_frozen w w' id s :
  sessions w !! id = Some s -> AttendanceSession.active s = false ->
  serial_step w w' -> sessions w' !! id = Some s.
Proof.
  intros Hid Hs Hstep.
  destruct Hstep as [req w| |]; [|exact Hid|exact Hid].
  destruct req as [t code|t|t random16|student q]; cbn [handle].
  - destruct (start_sessions_cases t code w) as [->|[->|[new ->]]].
    + exact Hid.
    + by apply close_active_inactive.
    + apply lookup_app_l_Some. by apply close_active_inactive.
  - rewrite stop_sessions. by apply close_active_inactive.
  - by rewrite (run_reads _ w (qr_current_reads t random16)).
  - destruct (run (scan student q) w) as [resp w'] eqn:Hrun.
    destruct (scan_effect_aux _ _ _ _ _ Hrun)
      as [[-> _]|(p & id' & s' & code & _ & _ & Hs' & Hact & _ & _ & Hw')];
      [exact Hid|].
    cbn [snd].
    destruct Hw' as [(e & _ & _ & ->)|(n & _ & _ & ->)];
      cbn [sessions set_sessions set_attendances]; [exact Hid|].
    rewrite list_lookup_alter_ne; [exact Hid|]. intros ->. congruence.
Qed.

(** X22. An ended session is frozen. With requests served one at a time, a
    session stored as inactive stays exactly as it is, whatever start,
    stop, mint and scan requests follow: it is never re-activated, its
    end time is never rewritten and no nonce is added to its ledger. *)
Theorem ended_session_frozen (w w' : World) (id : ObjectId) (s : AttendanceSession.t) :
  sessions w !! id = Some s ->
  AttendanceSession.active s = false ->
  serial_steps w w' ->
  sessions w' !! id = Some s.
Proof.
  intros Hid Hs Hsteps. induction Hsteps as [|w1 w2 w3 Hstep _ IH]; [exact Hid|].
  apply IH. by eapply serial_step_frozen.
Qed.

End Invariants.
(* ===================================================================== *)
(** ** The further scenarios, evaluated *)
(* ===================================================================== *)

Section EvaluatedMore.
#[local] Existing Instance Example.platform.

Import Example Scenario.

Lemma empty_latest_active : latest_active (sessions empty).
Proof. intros i j si sj Hi. cbn in Hi. discriminate Hi. Qed.

Lemma started_latest : latest_active (sessions started).
Proof. apply start_latest_active, empty_latest_active. Qed.

Lemma started_find : find_active 7%nat (sessions started) = Some (0%nat, session).
Proof. vm_compute. reflexivity. Qed.

(** The minted token, validated two seconds after its issue, is accepted
    with the minted payload. *)
Lemma accepted_only_if_signed_witness :
  exists p, validateQRPayload 7000 token = accepted p.
Proof.
  destruct (accepted_only_if_signed 7000 token)
    as (inflated & signedData & payloadStr & s & payload & p & Hrest).
  - vm_compute. reflexivity.
  - exists p. apply Hrest.
Defined.

(** The minted payload under a signature of 32 zero bytes is refused as
    tampered. *)
Lemma tampered_signature_rejected_witness :
  validateQRPayload 7000 forged
  = invalid "Invalid QR data: signature mismatch (tampered)".
Proof.
  apply (tampered_signature_rejected 7000 forged
           (utf8_encode (JSON_stringify (envelope_object payload_text zero_signature)))
           (envelope_object payload_text zero_signature) payload_text zero_signature).
  - vm_compute. reflexivity.
  - vm_compute. reflexivity.
  - reflexivity.
  - vm_compute. discriminate.
  - reflexivity.
  - vm_compute. discriminate.
  - vm_compute. reflexivity.
  - vm_compute. discriminate.
Defined.

(** The forged credential is refused in the same way a day later. *)
Lemma structural_rejection_time_independent_witness :
  validateQRPayload 86400000 forged
  = invalid "Invalid QR data: signature mismatch (tampered)".
Proof.
  apply (structural_rejection_time_independent 7000 86400000 forged).
  - vm_compute. reflexivity.
  - discriminate.
  - discriminate.
Defined.

(** The token of second 5, expired at second 9, is expired at second 60;
    accepted at seconds 5 and 8, it is accepted at second 7. *)
Lemma verdict_monotone_in_time_witness :
  validateQRPayload 60000 token = invalid "QR code has expired"
  /\ validateQRPayload 7000 token = accepted token_payload.
Proof.
  split.
  - apply (proj1 (verdict_monotone_in_time token 9000 60000 60000
                    ltac:(lia) ltac:(lia))).
    vm_compute. reflexivity.
  - apply (proj2 (proj2 (verdict_monotone_in_time token 5000 7000 8000
                           ltac:(lia) ltac:(lia)))).
    + vm_compute. reflexivity.
    + vm_compute. reflexivity.
Defined.

(** Sixteen bytes give a nonce of 32 characters that decodes back to
    them. *)
Lemma generated_nonce_faithful_witness :
  String.length (generateQRPayload random16 5000 "0" "7" "CH401").2 = 32%nat
  /\ hex_decode (generateQRPayload random16 5000 "0" "7" "CH401").2 = random16.
Proof.
  destruct (generated_nonce_faithful random16 5000 "0" "7" "CH401")
    as (Hlen & Hdecode & _).
  split; [exact Hlen | exact Hdecode].
Defined.

(** A code typed in lower case with spaces around it reaches the handler
    as CH401. *)
Lemma validateAttendanceStart_sanitises_witness :
  validateAttendanceStart (Some " ch401 ") = inr "CH401"
  /\ set_subjectCode "CH401" = "CH401".
Proof.
  pose proof (validateAttendanceStart_sanitises (Some " ch401 ")) as Hs.
  change (validateAttendanceStart (Some " ch401 ")) with (@inr Rejected _ "CH401") in Hs.
  split; [reflexivity | apply Hs].
Defined.

Lemma teacher_assigned : assigned empty 7%nat "CH401".
Proof.
  exists (Teacher.mk ["CH401"]). split; [reflexivity | apply list_elem_of_here].
Defined.


(** After the start, [findOne] returns session 0 and the mint answers
    200 with the image of a credential for session 0. *)
Lemma start_opens_latest_witness :
  find_active 7%nat (sessions (run (start 7%nat "CH401") empty).2)
  = Some (0%nat, session)
  /\ (run (qr_current 7%nat random16) (run (start 7%nat "CH401") empty).2).1
     = mkResponse 200 true None
         (QR ("data:image/png;base64," +:+ token) 0 "CH401" 5000).
Proof.
  destruct (start_opens_latest 7%nat "CH401" empty random16 empty_latest_active
              teacher_assigned) as (Hfind & _ & Hmint); [reflexivity|].
  split.
  - etrans; [exact Hfind|]. vm_compute. reflexivity.
  - rewrite Hmint. vm_compute. reflexivity.
Defined.


(** The teacher stops session 0: it is stored as ended, and a second
    stop finds nothing. *)
Lemma stop_ends_session_witness :
  sessions stopped !! 0%nat = Some ended
  /\ run (stop 7%nat) stopped
     = (failure 404 "No active attendance session found.", stopped).
Proof.
  destruct (stop_ends_session 7%nat started 0%nat session random16 started_latest
              started_find) as (_ & Hended & _ & _ & _ & Hagain & _).
  split; [etrans; [exact Hended | vm_compute; reflexivity] | exact Hagain].
Defined.

Lemma reaches_student :
  reaches_department_check started 20%nat token token_payload 0%nat session
    (hex_encode random16) student "CH401" subject.
Proof.
  split; try (vm_compute; reflexivity).
  - by exists 5.
  - intros Hin. vm_compute in Hin. by apply elem_of_nil in Hin.
Defined.

Lemma reaches_outsider :
  reaches_department_check started 21%nat token token_payload 0%nat session
    (hex_encode random16) outsider "CH401" subject.
Proof.
  split; try (vm_compute; reflexivity).
  - by exists 5.
  - intros Hin. vm_compute in Hin. by apply elem_of_nil in Hin.
Defined.

(** Student 21, of Physics, is refused at the department check. *)
Lemma scan_department_mismatch_witness :
  run (scan 21%nat token) started
  = (failure 403 "Your department does not match this subject's department.", started).
Proof.
  apply (scan_department_mismatch started 21%nat token token_payload 0%nat session
           (hex_encode random16) outsider "CH401" subject reaches_outsider).
  vm_compute. discriminate.
Defined.

(** Student 20 redeems the token: record and nonce are stored. *)
Lemma scan_marks_attendance_witness :
  run (scan 20%nat token) started
  = (mkResponse 201 true (Some "Attendance marked successfully for CH401.")
       (MarkedAttendance "CH401" "0" 5000),
     set_sessions
       [AttendanceSession.mk "CH401" 7%nat "0" 5000 None true [hex_encode random16]]
       (set_attendances [record] started)).
Proof.
  etrans; [apply (scan_marks_attendance started 20%nat token token_payload 0%nat session
                     (hex_encode random16) student "CH401" subject reaches_student)|].
  - reflexivity.
  - intros Hin. vm_compute in Hin. by apply elem_of_nil in Hin.
  - vm_compute. discriminate.
  - vm_compute. discriminate.
  - vm_compute. reflexivity.
Defined.

(** Student 20, already marked, presents a second credential with a
    fresh nonce and is refused at step 7. *)
Lemma scan_already_marked_witness :
  run (scan 20%nat token2) redeemed
  = (failure 400 "You have already marked attendance for this subject today.",
     redeemed).
Proof.
  apply (scan_already_marked redeemed 20%nat token2 token2_payload 0%nat
           (AttendanceSession.mk "CH401" 7%nat "0" 5000 None true [hex_encode random16])
           (hex_encode random16') student "CH401" subject).
  - split; try (vm_compute; reflexivity).
    + by exists 5.
    + intros Hin. apply (bool_decide_eq_true_2 _) in Hin. vm_compute in Hin.
      discriminate Hin.
  - reflexivity.
  - apply list_elem_of_lookup. exists 0%nat.
    etrans; [vm_compute; reflexivity|]. reflexivity.
Defined.

(** The credential minted at second 5 is redeemed at second 7. *)
Lemma mint_then_redeem_witness :
  (run (scan 20%nat token) later).1
  = mkResponse 201 true (Some "Attendance marked successfully for CH401.")
      (MarkedAttendance "CH401" "0" 7000).
Proof.
  destruct (mint_then_redeem 7%nat 20%nat random16 started later 0%nat session session
              ("data:image/png;base64," +:+ token) student subject) as [_ Hscan].
  - exact started_find.
  - vm_compute. reflexivity.
  - reflexivity.
  - vm_compute. discriminate.
  - vm_compute. discriminate.
  - discriminate.
  - vm_compute. discriminate.
  - vm_compute. split; discriminate.
  - reflexivity.
  - reflexivity.
  - reflexivity.
  - intros Hin. by apply elem_of_nil in Hin.
  - reflexivity.
  - reflexivity.
  - reflexivity.
  - intros Hin. vm_compute in Hin. by apply elem_of_nil in Hin.
  - vm_compute. discriminate.
  - vm_compute. discriminate.
  - change token with
      (generateQRPayload random16 (clock started) (ObjectId_toString 0%nat)
         (ObjectId_toString 7%nat) (AttendanceSession.subjectCode session)).1.
    rewrite Hscan. vm_compute. reflexivity.
Defined.

(** One insert between two states of the store. *)
Lemma store_history_kept_witness :
  history_kept started (exec_op (Attendance_create record) started).2.
Proof. apply store_history_kept. apply rtc_once, env_op. Defined.

Lemma stored_documents_schema_valid_witness :
  schema_valid
    (exec_op (AttendanceSession_create
                (AttendanceSession.mk " ch401" 7%nat "0" 5000 None true [])) empty).2.
Proof.
  apply (stored_documents_schema_valid empty).
  - split; apply Forall_nil_2.
  - apply rtc_once, env_op.
Defined.

Lemma attendance_refers_to_session_witness : sessions_referenced redeemed.
Proof.
  apply (attendance_refers_to_session started).
  - apply Forall_nil_2.
  - apply rtc_once. exact (serial_request (PostScan 20%nat token) started).
Defined.

(** The stopped session is still as it was after the teacher starts a
    new one. *)
Lemma ended_session_frozen_witness :
  sessions (run (start 7%nat "CH401") stopped).2 !! 0%nat = Some ended.
Proof.
  apply (ended_session_frozen stopped (run (start 7%nat "CH401") stopped).2 0%nat ended).
  - vm_compute. reflexivity.
  - reflexivity.
  - apply rtc_once. exact (serial_request (PostStart 7%nat "CH401") stopped).
Defined.

(** The forged credential presented by student 20: one clock read, then
    the 400 answer with the validator's message. *)
Lemma invalid_credential_touches_nothing_witness :
  (interleave alone 0 (scan 20%nat forged) started).2
  = mkResponse 400 false (Some "Invalid QR data: signature mismatch (tampered)") NoBody.
Proof.
  pose proof (runs_interleave env_step alone (scan 20%nat forged) 0 started
                (fun _ w => rtc_refl _ w)) as Hrun.
  destruct (invalid_credential_touches_nothing env_step 20%nat forged started
              (interleave alone 0 (scan 20%nat forged) started).1.2
              (interleave alone 0 (scan 20%nat forged) started).1.1
              (interleave alone 0 (scan 20%nat forged) started).2 Hrun)
    as (now & Hhead & Hinvalid).
  vm_compute in Hhead. injection Hhead as <-.
  destruct Hinvalid as [_ ->].
  - vm_compute. reflexivity.
  - vm_compute. reflexivity.
Defined.

(** Teacher 7 asks for session 0 and gets its details: the session is
    stored and its teacher reference prints as "7". *)
Lemma session_details_owner_only_witness :
  exists s, sessions started !! 0%nat = Some s
            /\ ObjectId_toString (AttendanceSession.teacherId s) = "7".
Proof.
  pose proof (proj2 (proj2 (session_details_owner_only "7" "0" started))) as Howner.
  change (run (get_session "7" "0") started).1
    with (SessionDetails (mkSessionView 0 "CH401" "0" 5000 None true 0)) in Howner.
  destruct Howner as (s & _ & Hs & Ht & _). exists s. split; [exact Hs | exact Ht].
Defined.

(** The header "Bearer abc" passes the teacher guard: the token in it is
    one the verifier accepts. *)
Lemma guard_admits_verified_role_witness :
  exists token, token <> "" /\ verify token = Return (mkClaims "7" "teacher").
Proof.
  pose proof (guard_admits_verified_role verify ["teacher"] (Some "Bearer abc")) as Hok.
  change (guard verify ["teacher"] (Some "Bearer abc"))
    with (@inr Response _ (mkClaims "7" "teacher")) in Hok.
  destruct Hok as (token & rest & _ & Hne & _ & _ & Hverify & _).
  exists token. split; [exact Hne | exact Hverify].
Defined.

End EvaluatedMore.
